(** * DJZ-Speak: the audio post-processing pipeline of [src/audio_processor.py]

    A shallow embedding of [AudioProcessor]'s effect chain
    ([apply_robotic_effects] and its three stages) and of the utility
    operations [normalize_audio], [adjust_speed] and [concatenate_audio].

    - Python exceptions are values of [result]; a [try ... except Exception]
      block is a [match] on the result of its body.
    - [self.logger] is a writer: every function returns the list of records
      it logged next to its value.
    - numpy's float64 arithmetic is Rocq's primitive binary64 [float].
    - pydub's [AudioSegment] is a record of format metadata and samples; the
      library's DSP methods are the fields of the class [Pydub], so that the
      statements about the control flow of the repository hold for every
      implementation of the library.  A reference implementation of these
      methods is given in [RefPydub]; decoding and resampling stay
      abstract throughout. *)

From Stdlib Require Import ZArith List Lia Bool Ascii String.
From Stdlib Require Import PrimFloat FloatOps SpecFloat FloatAxioms.
From Stdlib Require Uint63.
Import ListNotations.
Open Scope string_scope.
Open Scope list_scope.
Open Scope Z_scope.

Set Implicit Arguments.

(* ================================================================== *)
(** ** Python values: exceptions, logging *)

Inductive exn : Type :=
| ValueError (msg : string)
| ZeroDivisionError
| IndexError
| OverflowError
| KeyError
| AudioopError (msg : string)
| CouldntDecodeError.

(** The outcome of evaluating a Python expression. *)
Inductive result (A : Type) : Type :=
| Ok (a : A)
| Raise (e : exn).
Arguments Ok {A} a.
Arguments Raise {A} e.

Definition rbind {A B} (r : result A) (k : A -> result B) : result B :=
  match r with
  | Ok a => k a
  | Raise e => Raise e
  end.

Definition rmap {A B} (f : A -> B) (r : result A) : result B :=
  rbind r (fun a => Ok (f a)).

Definition to_option {A} (r : result A) : option A :=
  match r with Ok a => Some a | Raise _ => None end.

Inductive level : Type := WARNING | ERROR.

(** One call of [self.logger.warning] or [self.logger.error]: the fixed
    part of the f-string and the exception interpolated into it. *)
Record log_record : Type := LogRecord {
  lvl : level;
  text : string;
  cause : option exn
}.

(** A computation that logs: its value and the records in order. *)
Definition Logged (A : Type) : Type := (A * list log_record)%type.

Definition ret {A} (a : A) : Logged A := (a, []).

Definition bind {A B} (c : Logged A) (k : A -> Logged B) : Logged B :=
  let (a, l1) := c in
  let (b, l2) := k a in
  (b, l1 ++ l2).

Definition log_then {A} (r : log_record) (a : A) : Logged A := (a, [r]).

Declare Scope logged_scope.
Delimit Scope logged_scope with logged.
Notation "x <- c ;; k" := (bind c (fun x => k))
  (at level 61, c at next level, right associativity) : logged_scope.

Definition warning (msg : string) (e : exn) : log_record :=
  LogRecord WARNING msg (Some e).
Definition error (msg : string) (e : exn) : log_record :=
  LogRecord ERROR msg (Some e).

(* ================================================================== *)
(** ** float64 helpers *)

(** Conversion of a machine integer to float64 (exact for the sample
    ranges, which stay below 2^53). *)
Definition of_int (z : Z) : float :=
  if z <? 0 then PrimFloat.opp (PrimFloat.of_uint63 (Uint63.of_Z (- z)))
  else PrimFloat.of_uint63 (Uint63.of_Z z).

(** The integer part of a finite float, rounding toward zero; [None] for
    NaN and the infinities. *)
Definition trunc (x : float) : option Z :=
  match Prim2SF x with
  | S754_zero _ => Some 0
  | S754_finite s m e =>
      let a := if 0 <=? e then Zpos m * 2 ^ e else Zpos m / 2 ^ (- e) in
      Some (if s then - a else a)
  | S754_infinity _ | S754_nan => None
  end.

(** C's [floor] followed by the cast to [int], for a finite float. *)
Definition floor (x : float) : option Z :=
  match Prim2SF x with
  | S754_zero _ => Some 0
  | S754_finite s m e =>
      Some (if 0 <=? e then (if s then - (Zpos m * 2 ^ e) else Zpos m * 2 ^ e)
            else (if s then Z.neg m else Zpos m) / 2 ^ (- e))
  | S754_infinity _ | S754_nan => None
  end.

(** Python's [int(x)] on a float. *)
Definition py_int (x : float) : result Z :=
  match Prim2SF x with
  | S754_nan => Raise (ValueError "cannot convert float NaN to integer")
  | S754_infinity _ => Raise OverflowError
  | _ => match trunc x with Some z => Ok z | None => Raise OverflowError end
  end.

(* ================================================================== *)
(** ** Integer sample formats *)

(** Bounds of a signed sample of [w] bytes. *)
Definition minval (w : Z) : Z := - 2 ^ (8 * w - 1).
Definition maxval (w : Z) : Z := 2 ^ (8 * w - 1) - 1.

Definition in_range (w : Z) (s : Z) : Prop := minval w <= s <= maxval w.

Definition in_rangeb (w : Z) (s : Z) : bool :=
  (minval w <=? s) && (s <=? maxval w).

(** Saturation to the sample range. *)
Definition clamp (w : Z) (s : Z) : Z :=
  if maxval w <? s then maxval w
  else if s <? minval w then minval w
  else s.

(* ================================================================== *)
(** ** pydub's AudioSegment *)

Record AudioSegment : Type := mkSegment {
  sample_width : Z;        (* bytes per sample: 1, 2 or 4 *)
  frame_rate : Z;          (* Hz *)
  channels : Z;
  samples : list Z         (* get_array_of_samples(): interleaved *)
}.

(** [seg._spawn(data)]: new samples, same metadata. *)
Definition _spawn (seg : AudioSegment) (data : list Z) : AudioSegment :=
  mkSegment (sample_width seg) (frame_rate seg) (channels seg) data.

(** [seg._spawn(seg.raw_data, overrides={'frame_rate': r})]. *)
Definition _spawn_frame_rate (seg : AudioSegment) (r : Z) : AudioSegment :=
  mkSegment (sample_width seg) r (channels seg) (samples seg).

(** Every sample fits the declared width. *)
Definition valid (seg : AudioSegment) : Prop :=
  Forall (in_range (sample_width seg)) (samples seg).

(** The DSP methods of [AudioSegment] the processor calls.  Each may
    raise.  [apply_gain] is what [seg + db] and [seg - db] call, [append]
    what [seg + seg] calls. *)
Class Pydub : Type := {
  high_pass_filter : AudioSegment -> Z -> result AudioSegment;
  low_pass_filter : AudioSegment -> Z -> result AudioSegment;
  set_sample_width : AudioSegment -> Z -> result AudioSegment;
  apply_gain : AudioSegment -> float -> result AudioSegment;
  overlay : AudioSegment -> AudioSegment -> result AudioSegment;
  append : AudioSegment -> AudioSegment -> result AudioSegment;
  dBFS : AudioSegment -> result float
}.

(** [AudioSegment.from_wav(io.BytesIO(data))]: the WAV decoder. *)
Class Decoder : Type := {
  from_wav : list Z -> result AudioSegment
}.

(** [seg.set_frame_rate(r)]: the resampler. *)
Class Resampler : Type := {
  set_frame_rate : AudioSegment -> Z -> result AudioSegment
}.

(** [np.tanh]: its last bits depend on the numpy build, so it is a
    parameter of the development. *)
Class Numpy : Type := {
  np_tanh : float -> float
}.

(* ================================================================== *)
(** ** The effects configuration ([config_manager.get_effects_params()])

    A Python dict read with [.get(key, default)]: a missing key is [None]
    and the default is applied where the code applies it. *)

Record FilterParams : Type := mkFilter {
  enable : option bool;
  low_cutoff : option Z;
  high_cutoff : option Z
}.

Record EffectsParams : Type := mkEffects {
  frequency_filter : option FilterParams;
  harmonic_enhancement : option float;
  mechanical_artifacts : option bool
}.

(** [d.get(k, default)]. *)
Definition get {A} (v : option A) (default : A) : A :=
  match v with Some a => a | None => default end.

(** The empty dict [{}] used as default for ['frequency_filter']. *)
Definition empty_filter : FilterParams := mkFilter None None None.

(** What the caller may pass as [audio_data]. *)
Inductive audio_data : Type :=
| Bytes (wav : list Z)
| Segment (audio : AudioSegment)
| Other.

(* ================================================================== *)
(** ** numpy array operations used by [_enhance_harmonics] *)

(** [np.abs] on a signed integer array: the minimum has no positive
    counterpart and is returned as it is. *)
Definition np_abs (w : Z) (s : Z) : Z :=
  if s =? minval w then s else Z.abs s.

(** [np.max]: raises on an empty array. *)
Definition np_max (a : list Z) : result Z :=
  match a with
  | [] => Raise (ValueError "zero-size array to reduction operation maximum which has no identity")
  | x :: r => Ok (fold_left Z.max r x)
  end.

(** Two's-complement wrap to [w] bytes. *)
Definition wrap (w : Z) (z : Z) : Z :=
  (z - minval w) mod 2 ^ (8 * w) + minval w.

(** [a.astype(intN)] on one float64 element: the C conversion, which
    discards the fraction.  A value the 32-bit conversion cannot hold (or
    NaN) becomes the x86-64 "integer indefinite" [-2^31] before the
    narrowing to [w] bytes. *)
Definition astype (w : Z) (x : float) : Z :=
  match trunc x with
  | Some t => if in_rangeb 4 t then wrap w t else wrap w (minval 4)
  | None => wrap w (minval 4)
  end.

(** The literal [0.8] (the nearest binary64 value). *)
Definition c08 : float := 0x1.999999999999ap-1%float.

(** [samples.reshape((-1, 2))] read column by column: raises when the
    length is odd. *)
Fixpoint reshape2 (a : list Z) : result (list Z * list Z) :=
  match a with
  | [] => Ok ([], [])
  | [_] => Raise (ValueError "cannot reshape array into shape (2)")
  | l :: r :: rest =>
      rmap (fun cols => (l :: fst cols, r :: snd cols)) (reshape2 rest)
  end.

(** [samples.flatten()] after both columns were written back. *)
Fixpoint flatten2 (c0 c1 : list Z) : list Z :=
  match c0, c1 with
  | l :: c0', r :: c1' => l :: r :: flatten2 c0' c1'
  | _, _ => []
  end.

(* ================================================================== *)
(** ** A [try] body with one local variable that it rebinds

    [except Exception: return audio] reads the binding of [audio] that is
    current when the exception is raised, so the body is a state
    transformer on that variable and the state survives a [Raise]. *)

Definition Try (L A : Type) : Type := L -> result A * L.

Definition tbind {L A B} (c : Try L A) (k : A -> Try L B) : Try L B :=
  fun s => match c s with
           | (Ok a, s') => k a s'
           | (Raise e, s') => (Raise e, s')
           end.

(** [v = f(v)]: the variable is rebound only when [f] returns. *)
Definition assign {L} (f : L -> result L) : Try L unit :=
  fun s => match f s with
           | Ok s' => (Ok tt, s')
           | Raise e => (Raise e, s)
           end.

Definition read {L} : Try L L := fun s => (Ok s, s).

Definition when {L} (b : bool) (c : Try L unit) : Try L unit :=
  if b then c else fun s => (Ok tt, s).

Declare Scope try_scope.
Delimit Scope try_scope with try.
Notation "c1 ;; c2" := (tbind c1 (fun _ => c2))
  (at level 61, right associativity) : try_scope.

(* ================================================================== *)
(** ** class AudioProcessor *)

Section AudioProcessor.

Context {pydub : Pydub} {decoder : Decoder} {resampler : Resampler}
        {numpy : Numpy}.

(** Module-level flags set by the guarded imports. *)
Variable PYDUB_AVAILABLE : bool.
Variable SCIPY_AVAILABLE : bool.

(** [self.effects_params]. *)
Variable effects_params : EffectsParams.

(** [_enhance_harmonics(samples, factor)]; [w] is the width of
    [samples.dtype]. *)
Definition _enhance_harmonics (w : Z) (samples : list Z) (factor : float)
  : Logged (list Z) :=
  match
    rbind (np_max (map (np_abs w) samples)) (fun max_val =>
      if 0 <? max_val then
        let normalized := map (fun s => of_int s / of_int max_val)%float samples in
        let enhanced := map (fun x => np_tanh (x * factor))%float normalized in
        let enhanced := map (fun x => x * of_int max_val * c08)%float enhanced in
        Ok (map (astype w) enhanced)
      else Ok samples)
  with
  | Ok r => ret r
  | Raise e => log_then (warning "Error in harmonic enhancement" e) samples
  end.

(** [_apply_harmonic_enhancement(audio, factor)]. *)
Definition _apply_harmonic_enhancement (audio : AudioSegment) (factor : float)
  : Logged AudioSegment :=
  if negb SCIPY_AVAILABLE then
    log_then (LogRecord WARNING "scipy not available for harmonic enhancement" None)
             audio
  else
    let w := sample_width audio in
    if channels audio =? 2 then
      match reshape2 (samples audio) with
      | Raise e =>
          log_then (warning "Error applying harmonic enhancement" e) audio
      | Ok (c0, c1) =>
          (e0 <- _enhance_harmonics w c0 factor ;;
           e1 <- _enhance_harmonics w c1 factor ;;
           ret (_spawn audio (flatten2 e0 e1)))%logged
      end
    else
      (s <- _enhance_harmonics w (samples audio) factor ;;
       ret (_spawn audio s))%logged.

(** [_apply_frequency_filter(audio)]. *)
Definition _apply_frequency_filter (audio : AudioSegment) : Logged AudioSegment :=
  let filter_params := get (frequency_filter effects_params) empty_filter in
  let low_cutoff := get (low_cutoff filter_params) 300 in
  let high_cutoff := get (high_cutoff filter_params) 3000 in
  let body : Try AudioSegment AudioSegment :=
    (when (0 <? low_cutoff)
          (assign (fun audio => high_pass_filter audio low_cutoff)) ;;
     when (high_cutoff <? 20000)
          (assign (fun audio => low_pass_filter audio high_cutoff)) ;;
     read)%try in
  match body audio with
  | (Ok r, _) => ret r
  | (Raise e, audio) =>
      log_then (warning "Error applying frequency filter" e) audio
  end.

(** [seg - db], pydub's [__sub__]: [apply_gain(-db)]. *)
Definition seg_sub (seg : AudioSegment) (db : Z) : result AudioSegment :=
  apply_gain seg (of_int (- db)).

(** [_apply_mechanical_artifacts(audio)]. *)
Definition _apply_mechanical_artifacts (audio : AudioSegment) : Logged AudioSegment :=
  match
    rbind (set_sample_width audio 1) (fun temp_audio =>
    rbind (set_sample_width temp_audio (sample_width audio)) (fun temp_audio =>
    rbind (seg_sub temp_audio 20) (fun quieter =>
    overlay audio quieter)))
  with
  | Ok mixed => ret mixed
  | Raise e => log_then (warning "Error applying mechanical artifacts" e) audio
  end.

(** The three guarded stage calls of [apply_robotic_effects], in the
    order of the source. *)
Definition filter_step (audio : AudioSegment) : Logged AudioSegment :=
  if get (enable (get (frequency_filter effects_params) empty_filter)) true
  then _apply_frequency_filter audio else ret audio.

Definition harmonic_step (audio : AudioSegment) : Logged AudioSegment :=
  let enhancement := get (harmonic_enhancement effects_params) 1%float in
  if negb (enhancement =? 1)%float
  then _apply_harmonic_enhancement audio enhancement else ret audio.

Definition artifact_step (audio : AudioSegment) : Logged AudioSegment :=
  if get (mechanical_artifacts effects_params) true
  then _apply_mechanical_artifacts audio else ret audio.

Definition run_stages (audio : AudioSegment) : Logged AudioSegment :=
  (audio <- filter_step audio ;;
   audio <- harmonic_step audio ;;
   audio <- artifact_step audio ;;
   ret audio)%logged.

(** [apply_robotic_effects(audio_data)]. *)
Definition apply_robotic_effects (data : audio_data) : Logged (option AudioSegment) :=
  if negb PYDUB_AVAILABLE then
    (None, [LogRecord ERROR "pydub not available for effects processing" None])
  else
    match data with
    | Other => (None, [LogRecord ERROR "Unsupported audio data type" None])
    | Bytes wav =>
        match from_wav wav with
        | Raise e => (None, [error "Error applying robotic effects" e])
        | Ok audio => (a <- run_stages audio ;; ret (Some a))%logged
        end
    | Segment audio => (a <- run_stages audio ;; ret (Some a))%logged
    end.

(** [normalize_audio(audio, target_dBFS)]. *)
Definition normalize_audio (audio : AudioSegment) (target_dBFS : float)
  : Logged AudioSegment :=
  match
    rbind (dBFS audio) (fun current_dBFS =>
      let gain := (target_dBFS - current_dBFS)%float in
      apply_gain audio gain)
  with
  | Ok normalized => ret normalized
  | Raise e => log_then (warning "Error normalizing audio" e) audio
  end.

(** [adjust_speed(audio, speed_factor)]. *)
Definition adjust_speed (audio : AudioSegment) (speed_factor : float)
  : Logged AudioSegment :=
  if (speed_factor =? 1)%float then ret audio
  else
    match
      rbind (py_int (of_int (frame_rate audio) * speed_factor)%float)
        (fun new_frame_rate =>
           let adjusted := _spawn_frame_rate audio new_frame_rate in
           set_frame_rate adjusted (frame_rate audio))
    with
    | Ok adjusted => ret adjusted
    | Raise e => log_then (warning "Error adjusting audio speed" e) audio
    end.

(** The loop [for segment in audio_segments[1:]: result += segment]. *)
Fixpoint concat_loop (acc : AudioSegment) (segments : list AudioSegment)
  : result AudioSegment :=
  match segments with
  | [] => Ok acc
  | segment :: rest => rbind (append acc segment) (fun acc' => concat_loop acc' rest)
  end.

(** [concatenate_audio(audio_segments)]. *)
Definition concatenate_audio (audio_segments : list AudioSegment)
  : Logged (option AudioSegment) :=
  match audio_segments with
  | [] => ret None
  | first :: rest =>
      match concat_loop first rest with
      | Ok r => ret (Some r)
      | Raise e => (None, [error "Error concatenating audio" e])
      end
  end.

End AudioProcessor.

(* ================================================================== *)
(** ** Reference numerics

    The C library functions behind [math.log], [**] and [np.tanh], computed
    in binary64 by argument reduction and a truncated series.  They agree
    with a production libm to about fourteen significant digits, not to
    the last bit; every evaluation below that goes through them keeps a
    margin many orders of magnitude wider. *)

Module RefLibm.

Definition ln2 : float := 0x1.62e42fefa39efp-1%float.
Definition ln10 : float := 0x1.26bb1bbb55516p+1%float.
Definition sqrt_half : float := 0x1.6a09e667f3bcdp-1%float.

(** [1 + r/k (1 + r/(k+1) (1 + ...))], [n] levels deep: the series of
    [e^r] when [k = 1]. *)
Fixpoint exp_series (n : nat) (k : float) (r : float) : float :=
  match n with
  | O => 1
  | S n' => 1 + r / k * exp_series n' (k + 1) r
  end%float.

Definition exp (x : float) : float :=
  if is_nan x then x
  else if (710 <? x)%float then infinity
  else if (x <? -746)%float then 0%float
  else
    match floor (x / ln2 + 0.5)%float with
    | Some k => Z.ldexp (exp_series 24 1 (x - of_int k * ln2)%float) k
    | None => nan
    end.

(** [1/k + s2 (1/(k+2) + s2 (...))]: the series of [atanh(s)/s] in
    [s2 = s^2] when [k = 1]. *)
Fixpoint atanh_series (n : nat) (k : float) (s2 : float) : float :=
  match n with
  | O => 0
  | S n' => 1 / k + s2 * atanh_series n' (k + 2) s2
  end%float.

Definition log (x : float) : float :=
  if is_nan x then x
  else if (x <? 0)%float then nan
  else if (x =? 0)%float then neg_infinity
  else if is_infinity x then x
  else
    let (m, e) := Z.frexp x in
    let (m, e) := if (m <? sqrt_half)%float then ((m * 2)%float, e - 1) else (m, e) in
    let s := ((m - 1) / (m + 1))%float in
    (of_int e * ln2 + 2 * s * atanh_series 16 1 (s * s))%float.

(** [tanh x = (e^2|x| - 1) / (e^2|x| + 1)] with the sign of [x]; for a
    small argument [e^r - 1] is summed directly, without the
    cancellation. *)
Definition tanh (x : float) : float :=
  if is_nan x then x
  else if (20 <? x)%float then 1%float
  else if (x <? -20)%float then (-1)%float
  else
    let r := (2 * abs x)%float in
    let em1 := if (r <? 0.25)%float then (r * exp_series 23 2 r)%float
               else (exp r - 1)%float in
    let t := (em1 / (em1 + 2))%float in
    if (x <? 0)%float then (- t)%float else t.

(** [10^k] for an integer [k], by repeated multiplication. *)
Definition pow10_int (k : Z) : float :=
  let p := Z.iter (Z.abs k) (fun a => a * 10)%float 1%float in
  if k <? 0 then (1 / p)%float else p.

(** [10 ** y]. *)
Definition pow10 (y : float) : float :=
  if is_nan y then y
  else if (400 <? y)%float then infinity
  else if (y <? -400)%float then 0%float
  else
    match floor (y + 0.5)%float with
    | Some k => (pow10_int k * exp ((y - of_int k) * ln10))%float
    | None => nan
    end.

(** [math.log(x, 10)], which CPython computes as [log(x) / log(10)]. *)
Definition log10 (x : float) : float := (log x / ln10)%float.

End RefLibm.

(** The reference [np.tanh]. *)
Definition RefNumpy : Numpy := {| np_tanh := RefLibm.tanh |}.

(* ================================================================== *)
(** ** Reference model of pydub

    pydub and CPython's [audioop] are library code outside the repository.
    The definitions follow [pydub/audio_segment.py], [pydub/effects.py],
    [pydub/utils.py] and [audioop.c]; where the specification describes the
    operation its words are quoted.  Before [overlay] and [append] pydub
    converts the two segments to a common format ([_sync]); the model
    covers pairs whose formats already agree, which is all the effect
    chain hands to [overlay], and raises on the others. *)

Module RefPydub.

Definition math_pi : float := 0x1.921fb54442d18p+1%float.

(** Python's [a / b] on floats. *)
Definition py_div (a b : float) : result float :=
  if (b =? 0)%float then Raise ZeroDivisionError else Ok (a / b)%float.

(** Python's two-argument [max] and [min]: the first argument unless the
    second compares strictly beyond it. *)
Definition py_max (a b : float) : float := if (a <? b)%float then b else a.
Definition py_min (a b : float) : float := if (b <? a)%float then b else a.

(** [get_array_type] and [get_min_max_value]: the widths with an
    [array] typecode. *)
Definition check_width (w : Z) : result unit :=
  if (w =? 1) || (w =? 2) || (w =? 4) then Ok tt else Raise KeyError.

(** [audioop]'s check: "Size should be 1, 2, 3 or 4". *)
Definition check_size (w : Z) : result unit :=
  if (1 <=? w) && (w <=? 4) then Ok tt
  else Raise (AudioopError "Size should be 1, 2, 3 or 4").

Definition same_format (a b : AudioSegment) : bool :=
  (sample_width a =? sample_width b) && (frame_rate a =? frame_rate b)
  && (channels a =? channels b).

Definition not_covered {A} : result A :=
  Raise (ValueError "segments of different formats").

(** The frames after the first, sample by sample.  [state] holds, for
    the channels in turn, [last_val[j]] and the previous original sample
    of that channel. *)
Fixpoint high_pass_loop (alpha : float) (w : Z) (state : list (float * Z))
         (rest : list Z) : result (list Z) :=
  match rest with
  | [] => Ok []
  | x :: rest' =>
      match state with
      | [] => Raise IndexError
      | (last_val, prev) :: state' =>
          let last_val := (alpha * (last_val + of_int x - of_int prev))%float in
          rbind (py_int (py_min (py_max last_val (of_int (minval w)))
                                (of_int (maxval w)))) (fun y =>
          rmap (cons y)
               (high_pass_loop alpha w (state' ++ [(last_val, x)]) rest'))
      end
  end.

Fixpoint low_pass_loop (alpha : float) (w : Z) (state : list float)
         (rest : list Z) : result (list Z) :=
  match rest with
  | [] => Ok []
  | x :: rest' =>
      match state with
      | [] => Raise IndexError
      | last_val :: state' =>
          let last_val := (last_val + alpha * (of_int x - last_val))%float in
          rbind (py_int last_val) (fun y =>
          if in_rangeb w y then
            rmap (cons y) (low_pass_loop alpha w (state' ++ [last_val]) rest')
          else Raise OverflowError)
      end
  end.

(** The part common to both filters: the first frame is copied, the
    full frames after it are filtered, a trailing partial frame is
    copied. *)
Definition filter_frames (seg : AudioSegment)
           (loop : list Z -> list Z -> result (list Z)) : result AudioSegment :=
  let original := samples seg in
  if channels seg <=? 0 then Raise ZeroDivisionError
  else
    let ch := Z.to_nat (channels seg) in
    let frame_count := Z.to_nat (Z.of_nat (List.length original) / channels seg) in
    let first := firstn ch original in
    if (List.length first <? ch)%nat then Raise IndexError
    else
      let body := firstn ((frame_count - 1) * ch)%nat (skipn ch original) in
      let tail := skipn (frame_count * ch)%nat original in
      rbind (loop first body) (fun filtered =>
      Ok (_spawn seg (first ++ filtered ++ tail))).

(** [effects.high_pass_filter(seg, cutoff)]: one-pole RC high-pass. *)
Definition high_pass_filter (seg : AudioSegment) (cutoff : Z)
  : result AudioSegment :=
  rbind (py_div 1 (of_int (cutoff * 2) * math_pi)) (fun RC =>
  rbind (py_div 1 (of_int (frame_rate seg))) (fun dt =>
  rbind (py_div RC (RC + dt)) (fun alpha =>
  rbind (check_width (sample_width seg)) (fun _ =>
  filter_frames seg (fun first body =>
    high_pass_loop alpha (sample_width seg)
                   (map (fun x => (of_int x, x)) first) body))))).

(** [effects.low_pass_filter(seg, cutoff)]: one-pole RC low-pass. *)
Definition low_pass_filter (seg : AudioSegment) (cutoff : Z)
  : result AudioSegment :=
  rbind (py_div 1 (of_int (cutoff * 2) * math_pi)) (fun RC =>
  rbind (py_div 1 (of_int (frame_rate seg))) (fun dt =>
  rbind (py_div dt (RC + dt)) (fun alpha =>
  rbind (check_width (sample_width seg)) (fun _ =>
  filter_frames seg (fun first body =>
    low_pass_loop alpha (sample_width seg) (map of_int first) body))))).

(** Modelled from the spec: the requantization of one sample (spec 4.4,
    "requantize it to 8-bit depth and back"), as [audioop.lin2lin] does it:
    through the 32-bit scale, keeping the high bits. *)
Definition lin2lin (w w' : Z) (s : Z) : Z :=
  Z.shiftr (Z.shiftl s (8 * (4 - w))) (8 * (4 - w')).

(** Modelled from the spec: [AudioSegment.set_sample_width] is pydub's.
    Spec 4.4: "requantize it to 8-bit depth and back to the original bit
    depth (this round-trip is lossy and injects quantization error)". *)
Definition set_sample_width (seg : AudioSegment) (w' : Z) : result AudioSegment :=
  if w' =? sample_width seg then Ok seg
  else
    rbind (check_size (sample_width seg)) (fun _ =>
    rbind (check_size w') (fun _ =>
    Ok (mkSegment w' (frame_rate seg) (channels seg)
                  (map (lin2lin (sample_width seg) w') (samples seg))))).

(** Modelled from the spec: the amplitude factor of a gain in dB (spec
    4.4, "attenuate that copy by 20 dB"), pydub's [utils.db_to_float]:
    [10 ** (db / 20)]; Python raises when a finite exponent overflows. *)
Definition db_to_float (db : float) : result float :=
  let r := RefLibm.pow10 (db / 20) in
  if is_infinity r && negb (is_infinity db) then Raise OverflowError else Ok r.

(** Modelled from the spec: the scaled sample brought back to the integer
    range (spec 4.4, "clamping to the valid integer range"), as
    [audioop.c]'s [fbound] does it, then the store into a [w]-byte
    sample. *)
Definition fbound (w : Z) (val : float) : Z :=
  let val := if (of_int (maxval w) <? val)%float then of_int (maxval w)
             else if (val <? of_int (minval w) + 1)%float then of_int (minval w)
             else val in
  match floor val with
  | Some z => z
  | None => wrap w (minval 4)
  end.

(** Modelled from the spec: [AudioSegment.apply_gain] is pydub's.
    Spec 4.4: "attenuate that copy by 20 dB"; pydub multiplies every
    sample by [db_to_float(db)] with [audioop.mul]. *)
Definition apply_gain (seg : AudioSegment) (db : float) : result AudioSegment :=
  rbind (db_to_float db) (fun factor =>
  rbind (check_size (sample_width seg)) (fun _ =>
  Ok (_spawn seg (map (fun s => fbound (sample_width seg) (of_int s * factor))
                      (samples seg))))).

(** Modelled from the spec: the additive mix (spec 4.4, "a sample-wise add
    with saturation clamping"), [audioop.add] over the common prefix; the
    rest of the first fragment is kept. *)
Fixpoint add_samples (w : Z) (xs ys : list Z) : list Z :=
  match xs, ys with
  | x :: xs', y :: ys' => clamp w (x + y) :: add_samples w xs' ys'
  | _, [] => xs
  | [], _ => []
  end.

(** Modelled from the spec: [AudioSegment.overlay] is pydub's.
    Spec 4.4: "mix it additively (overlay) onto the original at the same
    time offset (starting at sample 0, full buffer length).  Mixing is a
    sample-wise add with saturation clamping to the valid integer
    range". *)
Definition overlay (seg other : AudioSegment) : result AudioSegment :=
  if same_format seg other then
    rbind (check_size (sample_width seg)) (fun _ =>
    Ok (_spawn seg (add_samples (sample_width seg) (samples seg) (samples other))))
  else not_covered.

(** [seg1 + seg2], that is [append(seg2, crossfade=0)], for two segments
    of one format: pydub returns [seg1._spawn(seg1._data + seg2._data)].
    Segments of different formats pydub first converts to a common one,
    by a resampling that this model does not contain: there the model
    answers with an error, and no statement is made at such segments. *)
Definition append (seg other : AudioSegment) : result AudioSegment :=
  if same_format seg other then Ok (_spawn seg (samples seg ++ samples other))
  else not_covered.

(** [audioop.rms]: the integer part of the root of the mean square. *)
Definition rms (seg : AudioSegment) : Z :=
  match samples seg with
  | [] => 0
  | _ =>
      let sum_squares :=
        fold_left (fun acc s => acc + of_int s * of_int s)%float (samples seg) 0%float in
      match trunc (PrimFloat.sqrt (sum_squares / of_int (Z.of_nat (List.length (samples seg))))) with
      | Some r => r
      | None => 0
      end
  end.

(** [audioop.max]: the largest absolute sample. *)
Definition max (seg : AudioSegment) : Z :=
  fold_left (fun m s => Z.max m (Z.abs s)) (samples seg) 0.

Definition max_possible_amplitude (seg : AudioSegment) : float :=
  (of_int (2 ^ (8 * sample_width seg)) / 2)%float.

(** [utils.ratio_to_db(ratio)]. *)
Definition ratio_to_db (ratio : float) : float :=
  if (ratio =? 0)%float then neg_infinity
  else (20 * RefLibm.log10 ratio)%float.

(** The property [AudioSegment.dBFS]: the RMS level. *)
Definition dBFS (seg : AudioSegment) : result float :=
  rbind (check_size (sample_width seg)) (fun _ =>
  if rms seg =? 0 then Ok neg_infinity
  else Ok (ratio_to_db (of_int (rms seg) / max_possible_amplitude seg))).

(** The property [AudioSegment.max_dBFS]: the peak level. *)
Definition max_dBFS (seg : AudioSegment) : float :=
  ratio_to_db (of_int (max seg) / max_possible_amplitude seg).

Definition ref : Pydub :=
  Build_Pydub high_pass_filter low_pass_filter set_sample_width apply_gain
              overlay append dBFS.

End RefPydub.

(* ================================================================== *)
(** ** Vocabulary of the statements *)

(** The exact value of a finite float, as a fraction [n / d] with [d] a
    positive power of two. *)
Definition exact (x : float) : option (Z * Z) :=
  match Prim2SF x with
  | S754_zero _ => Some (0, 1)
  | S754_finite s m e =>
      let n := if s then Z.neg m else Zpos m in
      Some (if 0 <=? e then (n * 2 ^ e, 1) else (n, 2 ^ (- e)))
  | S754_infinity _ | S754_nan => None
  end.

(** [z] is [x] with its fraction discarded (rounding toward zero). *)
Definition truncationb (x : float) (z : Z) : bool :=
  match exact x with
  | Some (n, d) =>
      (Z.abs z * d <=? Z.abs n) && (Z.abs n <? (Z.abs z + 1) * d) && (0 <=? z * n)
  | None => false
  end.

(** [z] is an integer nearest to [x] (either neighbour at a tie). *)
Definition nearestb (x : float) (z : Z) : bool :=
  match exact x with
  | Some (n, d) => 2 * Z.abs (n - z * d) <=? d
  | None => false
  end.

(** The requantized copy of a sample: to 8 bits and back to [w] bytes
    (the 8-bit original is left as it is). *)
Definition requantize (w : Z) (s : Z) : Z :=
  if w =? 1 then s else RefPydub.lin2lin 1 w (RefPydub.lin2lin w 1 s).

(** The amplitude factor of -20 dB: the literal [0.1]. *)
Definition minus_20_dB : float := 0x1.999999999999ap-4%float.

(** One sample of the artifact stage: the original plus the attenuated
    requantized copy, saturated. *)
Definition artifact_sample (w : Z) (s : Z) : Z :=
  clamp w (s + RefPydub.fbound w (of_int (requantize w s) * minus_20_dB)%float).

(** Peak absolute amplitude of a buffer. *)
Definition peak (a : list Z) : Z :=
  fold_left (fun m s => Z.max m (Z.abs s)) a 0.

(** The binary64 value nearest to tanh(1) = 0.76159415595576488... *)
Definition tanh_one : float := 0x1.85efab514f394p-1%float.

(** The [n] integers from [start] upwards. *)
Fixpoint zrange (start : Z) (n : nat) : list Z :=
  match n with
  | O => []
  | S n' => start :: zrange (start + 1) n'
  end.

(** The 16-bit amplitudes [1 .. 32767]. *)
Definition amplitudes16 : list Z := zrange 1 (Z.to_nat 32767).

(** What [_enhance_harmonics] does at factor 1.0 to a sample equal to
    the peak [M], once [np.tanh(1.0)] is known to be [t]: the check that
    the normalized sample is 1.0 and that the result lies in
    (0.609 M - 1, 0.610 M]. *)
Definition peak_sample_at_one (t : float) (M : Z) : Z :=
  astype 2 (t * of_int M * c08)%float.

Definition peak_check (t : float) (M : Z) : bool :=
  let v := peak_sample_at_one t M in
  PrimFloat.Leibniz.eqb (of_int M / of_int M * 1)%float 1%float
  && (609 * M - 1000 <? 1000 * v)
  && (1000 * v <=? 610 * M).

(* ================================================================== *)
(** ** The utility operations and the engine's wrapper *)

(** The further [AudioSegment] methods behind [fade_in_out] and
    [TTSEngine.apply_robotic_effects]: [seg.fade_in(ms)],
    [seg.fade_out(ms)], [seg.export(buffer, format='wav')] and [len(seg)]
    (milliseconds; it decides the truth value of a segment). *)
Class PydubUtil : Type := {
  fade_in : AudioSegment -> Z -> result AudioSegment;
  fade_out : AudioSegment -> Z -> result AudioSegment;
  export_wav : AudioSegment -> result (list Z);
  seg_len : AudioSegment -> result Z
}.

Section Utilities.

Context {pydub : Pydub} {decoder : Decoder} {numpy : Numpy} {util : PydubUtil}.

(** [fade_in_out(audio, fade_in_ms, fade_out_ms)]. *)
Definition fade_in_out (audio : AudioSegment) (fade_in_ms fade_out_ms : Z)
  : Logged AudioSegment :=
  let body : Try AudioSegment AudioSegment :=
    (when (0 <? fade_in_ms)
          (assign (fun audio => fade_in audio fade_in_ms)) ;;
     when (0 <? fade_out_ms)
          (assign (fun audio => fade_out audio fade_out_ms)) ;;
     read)%try in
  match body audio with
  | (Ok r, _) => ret r
  | (Raise e, audio) => log_then (warning "Error applying fade" e) audio
  end.

(** [TTSEngine.apply_robotic_effects(audio_data)] of [tts_engine.py]: the
    processed segment exported as WAV bytes, or the argument itself when
    the processor returned [None] or a segment that is false (of length
    0).  An exception of [len] or [export] is not caught here. *)
Definition engine_apply_robotic_effects (PYDUB_AVAILABLE SCIPY_AVAILABLE : bool)
           (effects_params : EffectsParams) (data : audio_data)
  : Logged (result audio_data) :=
  (audio_segment <- apply_robotic_effects PYDUB_AVAILABLE SCIPY_AVAILABLE
                                          effects_params data ;;
   ret (match audio_segment with
        | None => Ok data
        | Some seg =>
            rbind (seg_len seg) (fun n =>
            if n =? 0 then Ok data
            else rmap Bytes (export_wav seg))
        end))%logged.

End Utilities.

(** A decoder that rejects every byte string, and a host on which the
    further segment methods all fail: the environments the statements are
    instantiated at when the decoder and these methods play no part. *)
Definition rejecting_decoder : Decoder :=
  {| from_wav := fun _ => Raise CouldntDecodeError |}.

Definition failing_util : PydubUtil :=
  {| fade_in := fun _ _ => Raise (AudioopError "not available");
     fade_out := fun _ _ => Raise (AudioopError "not available");
     export_wav := fun _ => Raise (AudioopError "not available");
     seg_len := fun _ => Raise (AudioopError "not available") |}.

(* ================================================================== *)
(** ** Dynamically typed Python values

    The configuration and the voice presets are what [yaml.safe_load] and
    [json.load] return: dicts with string keys whose values are scalars,
    lists or further dicts.  A dict is the list of its items in insertion
    order; every operation below keeps the keys distinct.  No two entries
    share one object (the files use no YAML alias), so a value stands for
    the object and a write into a nested dict is a write at its key. *)

Module Py.

(** The exceptions the operators of this layer raise. *)
Inductive error : Type := TypeError | AttributeError | KeyError.

Inductive outcome (A : Type) : Type :=
| Return (a : A)
| Throw (e : error).
Arguments Return {A} a.
Arguments Throw {A} e.

Definition obind {A B} (r : outcome A) (k : A -> outcome B) : outcome B :=
  match r with
  | Return a => k a
  | Throw e => Throw e
  end.

#[warnings="-register-all"] Inductive value : Type :=
| VNone
| VBool (b : bool)
| VInt (z : Z)
| VFloat (x : float)
| VStr (s : string)
| VList (l : list value)
| VDict (d : list (string * value)).

Definition dict : Type := list (string * value).

Section Items.

Variable V : Type.

(** [d.get(k)] as an option. *)
Fixpoint lookup (d : list (string * V)) (k : string) : option V :=
  match d with
  | [] => None
  | (k', v) :: d' => if String.eqb k' k then Some v else lookup d' k
  end.

(** [d[k] = v]: an existing key keeps its place, a new one goes last. *)
Fixpoint store (d : list (string * V)) (k : string) (v : V) : list (string * V) :=
  match d with
  | [] => [(k, v)]
  | (k', v') :: d' =>
      if String.eqb k' k then (k, v) :: d' else (k', v') :: store d' k v
  end.

(** [del d[k]] and [d.pop(k, None)]. *)
Definition remove (d : list (string * V)) (k : string) : list (string * V) :=
  filter (fun kv => negb (String.eqb (fst kv) k)) d.

(** [k in d]. *)
Definition mem (d : list (string * V)) (k : string) : bool :=
  match lookup d k with Some _ => true | None => false end.

(** [list(d.keys())]. *)
Definition keys (d : list (string * V)) : list string := map fst d.

(** [d.update(other)]. *)
Definition update (d other : list (string * V)) : list (string * V) :=
  fold_left (fun acc kv => store acc (fst kv) (snd kv)) other d.

End Items.

Arguments lookup {V} d k.
Arguments store {V} d k v.
Arguments remove {V} d k.
Arguments mem {V} d k.
Arguments keys {V} d.
Arguments update {V} d other.

(** [isinstance(x, int)]: [bool] is a subclass of [int]. *)
Definition as_int (v : value) : option Z :=
  match v with
  | VInt z => Some z
  | VBool b => Some (Z.b2z b)
  | _ => None
  end.

(** [v < a] and [v > a] for an int [a]; against a float the int is
    converted, which is exact for the literals of the code. *)
Definition lt_int (v : value) (a : Z) : outcome bool :=
  match v with
  | VInt z => Return (z <? a)
  | VBool b => Return (Z.b2z b <? a)
  | VFloat x => Return (x <? of_int a)%float
  | _ => Throw TypeError
  end.

Definition gt_int (v : value) (a : Z) : outcome bool :=
  match v with
  | VInt z => Return (a <? z)
  | VBool b => Return (a <? Z.b2z b)
  | VFloat x => Return (of_int a <? x)%float
  | _ => Throw TypeError
  end.

(** [v == a] for an int [a], and [v == s] for a str [s]; [==] between
    unrelated types is false, it does not raise. *)
Definition eq_int (v : value) (a : Z) : bool :=
  match v with
  | VInt z => z =? a
  | VBool b => Z.b2z b =? a
  | VFloat x => (x =? of_int a)%float
  | _ => false
  end.

Definition eq_str (v : value) (s : string) : bool :=
  match v with
  | VStr s' => String.eqb s' s
  | _ => false
  end.

(** The builtin [min(a, v)] and [max(a, v)] with an int first: the first
    argument unless the second compares strictly beyond it. *)
Definition min_int (a : Z) (v : value) : outcome value :=
  obind (lt_int v a) (fun below => Return (if below then v else VInt a)).

Definition max_int (a : Z) (v : value) : outcome value :=
  obind (gt_int v a) (fun above => Return (if above then v else VInt a)).

(** [k in v] for a str [k]. *)
Definition contains (v : value) (k : string) : outcome bool :=
  match v with
  | VDict d => Return (mem d k)
  | VStr s => Return (match String.index 0 k s with Some _ => true | None => false end)
  | VList l => Return (existsb (fun x => eq_str x k) l)
  | _ => Throw TypeError
  end.

(** [v[k]] for a str [k]. *)
Definition getitem (v : value) (k : string) : outcome value :=
  match v with
  | VDict d => match lookup d k with Some x => Return x | None => Throw KeyError end
  | _ => Throw TypeError
  end.

(** [v[k] = x] for a str [k]. *)
Definition setitem (v : value) (k : string) (x : value) : outcome value :=
  match v with
  | VDict d => Return (VDict (store d k x))
  | _ => Throw TypeError
  end.

(** [v.get(k, default)]. *)
Definition get_method (v : value) (k : string) (default : value) : outcome value :=
  match v with
  | VDict d => Return (get (lookup d k) default)
  | _ => Throw AttributeError
  end.

(** [x in numbers] for a list of int literals. *)
Definition in_ints (v : value) (numbers : list Z) : bool :=
  existsb (eq_int v) numbers.

(** The number a value stands for, when it is an int or a bool. *)
Definition int_between (lo hi : Z) (v : value) : bool :=
  match as_int v with
  | Some z => (lo <=? z) && (z <=? hi)
  | None => false
  end.

(** A number within [lo, hi]: an int or bool between them, or a float
    that is neither below [lo] nor above [hi]. *)
Definition number_between (lo hi : Z) (v : value) : bool :=
  match v with
  | VFloat x => (of_int lo <=? x)%float && (x <=? of_int hi)%float
  | _ => int_between lo hi v
  end.

(** The truth value of a value: [if v:] and [not v]. *)
Definition truthy (v : value) : bool :=
  match v with
  | VNone => false
  | VBool b => b
  | VInt z => negb (z =? 0)
  | VFloat x => negb (x =? 0)%float
  | VStr s => negb (String.eqb s EmptyString)
  | VList l => match l with [] => false | _ => true end
  | VDict d => match d with [] => false | _ => true end
  end.

(** [v.copy()]: dicts and lists have the method. *)
Definition copy (v : value) : outcome value :=
  match v with
  | VDict d => Return (VDict d)
  | VList l => Return (VList l)
  | _ => Throw AttributeError
  end.

(** [v.pop(k, None)] for a str [k], for its effect on [v]: a dict loses
    the key; [list.pop] takes at most one argument. *)
Definition pop (v : value) (k : string) : outcome value :=
  match v with
  | VDict d => Return (VDict (remove d k))
  | VList _ => Throw TypeError
  | _ => Throw AttributeError
  end.

(** [v.update(other)] for a dict [other]. *)
Definition update_method (v : value) (other : dict) : outcome value :=
  match v with
  | VDict d => Return (VDict (update d other))
  | _ => Throw AttributeError
  end.

End Py.

Declare Scope py_scope.
Delimit Scope py_scope with py.
Notation "x <- c ;; k" := (Py.obind c (fun x => k))
  (at level 61, c at next level, right associativity) : py_scope.

(* ================================================================== *)
(** ** class ConfigManager ([src/config_manager.py]) *)

Module ConfigManager.

Import Py.

(** [_get_fallback_config()]. *)
Definition _get_fallback_config : dict :=
  [ ("audio", VDict [ ("sample_rate", VInt 22050); ("channels", VInt 1);
                      ("bit_depth", VInt 16); ("buffer_size", VInt 1024) ]);
    ("synthesis", VDict [ ("speed", VInt 140); ("pitch", VInt 35);
                          ("amplitude", VInt 100); ("gap", VInt 8);
                          ("voice", VStr "classic_robot") ]);
    ("effects", VDict [ ("enable_by_default", VBool false);
                        ("frequency_filter",
                         VDict [ ("low_cutoff", VInt 300); ("high_cutoff", VInt 3000) ]);
                        ("harmonic_enhancement", VFloat 0x1.3333333333333p+0);
                        ("mechanical_artifacts", VBool true) ]);
    ("output", VDict [ ("default_format", VStr "wav"); ("quality", VStr "high");
                       ("normalize_audio", VBool true) ]);
    ("performance", VDict [ ("max_text_length", VInt 10000);
                            ("synthesis_timeout", VInt 30);
                            ("cache_size", VInt 50);
                            ("real_time_factor_target", VFloat 0.5) ]);
    ("logging", VDict [ ("level", VStr "INFO"); ("file_logging", VBool false) ]);
    ("system", VDict [ ("espeak_path", VNone); ("temp_directory", VNone);
                       ("max_memory_usage", VInt 100) ]) ].

(** One turn of the loop of [_deep_merge]: [base[key]] is merged in
    place when it and [value] are both dicts, and replaced otherwise. *)
Definition merge_item (merge : value -> dict -> dict)
           (base : dict) (key : string) (value : value) : dict :=
  match lookup base key, value with
  | Some (VDict b), VDict _ => store base key (VDict (merge value b))
  | _, _ => store base key value
  end.

(** [_deep_merge(base, override)] with the override as a value: the
    recursion descends into the override. *)
Fixpoint merge_into (override : value) (base : dict) {struct override} : dict :=
  match override with
  | VDict items =>
      (fix loop (items : list (string * value)) (base : dict) {struct items} : dict :=
         match items with
         | [] => base
         | (key, value) :: rest =>
             loop rest (merge_item merge_into base key value)
         end) items base
  | _ => base
  end.

(** [_deep_merge(base, override)]: the merged [base]. *)
Definition _deep_merge (base override : dict) : dict :=
  merge_into (VDict override) base.

(** [get_effects_params()]. *)
Definition get_effects_params (config : dict) : value :=
  get (lookup config "effects") (VDict []).

(** One guarded assignment of [_validate_config]:
    [if key in section: section[key] = max(lo, min(hi, section[key]))]. *)
Definition clamp_key (lo hi : Z) (key : string) (section : value) : outcome value :=
  (present <- contains section key ;;
   if present then
     v <- getitem section key ;;
     m <- min_int hi v ;;
     M <- max_int lo m ;;
     setitem section key M
   else Return section)%py.

Definition valid_rates : list Z := [8000; 11025; 16000; 22050; 44100; 48000].

(** [if 'sample_rate' in audio: if audio['sample_rate'] not in valid_rates:
    audio['sample_rate'] = 22050]. *)
Definition fix_sample_rate (audio : value) : outcome value :=
  (present <- contains audio "sample_rate" ;;
   if present then
     v <- getitem audio "sample_rate" ;;
     if negb (in_ints v valid_rates) then setitem audio "sample_rate" (VInt 22050)
     else Return audio
   else Return audio)%py.

(** A section read with [self.config.get(name, {})] and mutated in place:
    the change is visible in [config] when the key exists; the default
    [{}] is a fresh dict that belongs to nobody. *)
Definition section_of (config : dict) (name : string) : value :=
  get (lookup config name) (VDict []).

Definition write_back (config : dict) (name : string) (section : value) : dict :=
  if mem config name then store config name section else config.

(** [_validate_config()]: the validated [self.config], when no
    comparison raises. *)
Definition _validate_config (config : dict) : outcome dict :=
  (synthesis <- clamp_key 80 300 "speed" (section_of config "synthesis") ;;
   synthesis <- clamp_key 0 99 "pitch" synthesis ;;
   synthesis <- clamp_key 0 200 "amplitude" synthesis ;;
   synthesis <- clamp_key 0 100 "gap" synthesis ;;
   let config := write_back config "synthesis" synthesis in
   audio <- fix_sample_rate (section_of config "audio") ;;
   audio <- clamp_key 1 2 "channels" audio ;;
   let config := write_back config "audio" audio in
   performance <- clamp_key 1 100000 "max_text_length"
                            (section_of config "performance") ;;
   performance <- clamp_key 1 1000 "cache_size" performance ;;
   Return (write_back config "performance" performance))%py.

(** [reset_to_defaults()]. *)
Definition reset_to_defaults : outcome dict :=
  _validate_config _get_fallback_config.

(** [get(section, key, default)]; [key] is [None] when omitted. *)
Definition get (config : dict) (section : string) (key : option string)
           (default : value) : outcome value :=
  match key with
  | None => Return (get (lookup config section) default)
  | Some k => get_method (get (lookup config section) (VDict [])) k default
  end.

(** [set(section, key, value)]: the updated [self.config]. *)
Definition set (config : dict) (section key : string) (v : value) : outcome dict :=
  let config := if mem config section then config
                else store config section (VDict []) in
  (sec <- getitem (VDict config) section ;;
   sec' <- setitem sec key v ;;
   Return (store config section sec'))%py.

End ConfigManager.

(* ================================================================== *)
(** ** Vocabulary of the statements about the configuration *)

(** [max(lo, min(hi, v))]. *)
Definition clamp_value (lo hi : Z) (v : Py.value) : Py.outcome Py.value :=
  (m <- Py.min_int hi v ;; Py.max_int lo m)%py.

(** The value [_validate_config] leaves under ['sample_rate']. *)
Definition rate_value (v : Py.value) : Py.outcome Py.value :=
  Py.Return (if negb (Py.in_ints v ConfigManager.valid_rates) then Py.VInt 22050 else v).

(** [if key in section: section[key] = f(section[key])]. *)
Definition guarded (key : string) (f : Py.value -> Py.outcome Py.value)
           (section : Py.value) : Py.outcome Py.value :=
  (present <- Py.contains section key ;;
   if present then
     v <- Py.getitem section key ;;
     v' <- f v ;;
     Py.setitem section key v'
   else Py.Return section)%py.

(** Guarded assignments one after the other. *)
Fixpoint chain (rules : list (string * (Py.value -> Py.outcome Py.value)))
         (section : Py.value) : Py.outcome Py.value :=
  match rules with
  | [] => Py.Return section
  | (key, f) :: rest => (s <- guarded key f section ;; chain rest s)%py
  end.

(** The keys [_validate_config] rewrites, section by section. *)
Definition synthesis_rules : list (string * (Py.value -> Py.outcome Py.value)) :=
  [ ("speed", clamp_value 80 300); ("pitch", clamp_value 0 99);
    ("amplitude", clamp_value 0 200); ("gap", clamp_value 0 100) ].

Definition audio_rules : list (string * (Py.value -> Py.outcome Py.value)) :=
  [ ("sample_rate", rate_value); ("channels", clamp_value 1 2) ].

Definition performance_rules : list (string * (Py.value -> Py.outcome Py.value)) :=
  [ ("max_text_length", clamp_value 1 100000); ("cache_size", clamp_value 1 1000) ].

Definition validated_sections
  : list (string * list (string * (Py.value -> Py.outcome Py.value))) :=
  [ ("synthesis", synthesis_rules); ("audio", audio_rules);
    ("performance", performance_rules) ].

(** The numeric ranges of the validated keys. *)
Definition validated_ranges : list (string * string * Z * Z) :=
  [ ("synthesis", "speed", 80, 300); ("synthesis", "pitch", 0, 99);
    ("synthesis", "amplitude", 0, 200); ("synthesis", "gap", 0, 100);
    ("audio", "channels", 1, 2);
    ("performance", "max_text_length", 1, 100000);
    ("performance", "cache_size", 1, 1000) ].

(** One section validated and written back. *)
Definition validate_section (config : Py.dict) (name : string)
           (rules : list (string * (Py.value -> Py.outcome Py.value)))
  : Py.outcome Py.dict :=
  (s <- chain rules (ConfigManager.section_of config name) ;;
   Py.Return (ConfigManager.write_back config name s))%py.

(** Is the pair one of the validated keys? *)
Definition is_validated (section key : string) : bool :=
  match Py.lookup validated_sections section with
  | Some rules => Py.mem rules key
  | None => false
  end.

(** A rule that leaves its own results alone. *)
Definition settles (f : Py.value -> Py.outcome Py.value) : Prop :=
  forall v v', f v = Py.Return v' -> f v' = Py.Return v'.

(** [isinstance(v, dict)]. *)
Definition is_dict (v : Py.value) : bool :=
  match v with Py.VDict _ => true | _ => false end.

(** [isinstance(v, (int, float))]. *)
Definition is_number (v : Py.value) : bool :=
  match v with Py.VBool _ | Py.VInt _ | Py.VFloat _ => true | _ => false end.

(** A configuration with one out-of-range entry. *)
Definition fast_config : Py.dict :=
  [ ("synthesis", Py.VDict [ ("speed", Py.VInt 500); ("voice", Py.VStr "deep_robot") ]);
    ("audio", Py.VDict [ ("sample_rate", Py.VInt 12345) ]) ].

(* ================================================================== *)
(** ** Helpers of [src/utils.py] *)

Module Utils.

Import Py.

(** [clamp(value, min_val, max_val)], that is
    [max(min_val, min(value, max_val))], with the int bounds every caller
    passes.  [min] keeps [value] unless [max_val < value]; [max] keeps
    [min_val] unless the result of [min] is greater. *)
Definition clamp (value : value) (min_val max_val : Z) : outcome Py.value :=
  (above <- gt_int value max_val ;;
   max_int min_val (if above then VInt max_val else value))%py.

(** The nine characters of the class that [re.sub] replaces by an
    underscore in [sanitize_filename]: the quotation mark is character
    34, the backslash character 92. *)
Definition invalid_chars : list ascii :=
  [ "<"%char; ">"%char; ":"%char; ascii_of_nat 34; "/"%char;
    ascii_of_nat 92; "|"%char; "?"%char; "*"%char ].

(** [c in chars]. *)
Definition among (chars : list ascii) (c : ascii) : bool :=
  existsb (Ascii.eqb c) chars.

(** [re.sub(r'[...]', '_', s)] for a class of single characters. *)
Fixpoint sub_chars (chars : list ascii) (s : string) : string :=
  match s with
  | EmptyString => EmptyString
  | String c rest =>
      String (if among chars c then "_"%char else c) (sub_chars chars rest)
  end.

(** [s.lstrip(chars)], [s.rstrip(chars)] and [s.strip(chars)]. *)
Fixpoint lstrip (chars : list ascii) (s : string) : string :=
  match s with
  | EmptyString => EmptyString
  | String c rest => if among chars c then lstrip chars rest else s
  end.

Fixpoint rstrip (chars : list ascii) (s : string) : string :=
  match s with
  | EmptyString => EmptyString
  | String c rest =>
      match rstrip chars rest with
      | EmptyString => if among chars c then EmptyString else String c EmptyString
      | kept => String c kept
      end
  end.

Definition strip (chars : list ascii) (s : string) : string :=
  rstrip chars (lstrip chars s).

(** [sanitize_filename(filename)], on the bytes of the name: the
    characters it looks for are ASCII, so it treats every other
    character alike. *)
Definition sanitize_filename (filename : string) : string :=
  let filename := sub_chars invalid_chars filename in
  let filename := strip [ "."%char; " "%char ] filename in
  if String.eqb filename EmptyString then "output" else filename.

End Utils.

(** The first and the last character of a string, and its characters. *)
Definition first_char (s : string) : option ascii :=
  match s with
  | EmptyString => None
  | String c _ => Some c
  end.

Fixpoint last_char (s : string) : option ascii :=
  match s with
  | EmptyString => None
  | String c rest => match last_char rest with None => Some c | found => found end
  end.

(** Does the string hold the character? *)
Fixpoint holds (s : string) (c : ascii) : bool :=
  match s with
  | EmptyString => false
  | String c' rest => Ascii.eqb c' c || holds rest c
  end.

(* ================================================================== *)
(** ** class VoiceManager ([src/voice_manager.py])

    The presets are what [json.load] returned: a dict from voice ids to
    values, which the loader does not check to be dicts.  The methods
    change the manager in steps, and an exception leaves the steps
    already taken in place, so a method maps a state to its result and
    the state it leaves behind.  [copy()] is shallow, and no method of
    the class writes into a nested value, so values stand for the
    objects.  The logger calls are left out. *)

(** [str(v)], as an f-string interpolates a value: the text of a str is
    the str itself; the text of any other value is the instance's. *)
Class Formatter : Type := {
  str : Py.value -> string;
  str_of_str : forall s, str (Py.VStr s) = s
}.

(** The formatter the statements are instantiated at. *)
Definition text_formatter : Formatter :=
  {| str := fun v => match v with Py.VStr s => s | _ => EmptyString end;
     str_of_str := fun s => eq_refl |}.

Module VoiceManager.

Import Py.

Record state : Type := mkState {
  voice_presets : dict;
  current_voice : option string;
  current_parameters : value
}.

(** A method: its result, or the exception it raised, and the state
    afterwards. *)
Definition method (A : Type) : Type := state -> outcome A * state.

Definition set_current_voice (s : state) (voice_id : string) : state :=
  mkState (voice_presets s) (Some voice_id) (current_parameters s).

Definition set_current_parameters (s : state) (p : value) : state :=
  mkState (voice_presets s) (current_voice s) p.

Definition set_voice_presets (s : state) (presets : dict) : state :=
  mkState presets (current_voice s) (current_parameters s).

(** The manager before a voice is selected ([__init__] up to the
    loading of the presets). *)
Definition initial (presets : dict) : state := mkState presets None (VDict []).

(** [_create_fallback_presets()]: the presets it installs. *)
Definition _create_fallback_presets : dict :=
  [ ("classic_robot",
     VDict [ ("name", VStr "Classic Robot");
             ("description", VStr "Standard computer robot voice");
             ("espeak_voice", VStr "en");
             ("speed", VInt 140); ("pitch", VInt 35);
             ("amplitude", VInt 100); ("gap", VInt 8);
             ("variant", VStr "m3");
             ("effects",
              VDict [ ("frequency_filter", VBool true);
                      ("harmonic_enhancement", VFloat 0x1.199999999999ap+0);
                      ("mechanical_artifacts", VBool true) ]);
             ("_source", VStr "fallback") ]) ].

(** [list_voices()] and [get_voice(voice_id)]. *)
Definition list_voices (s : state) : list string := keys (voice_presets s).

Definition get_voice (s : state) (voice_id : string) : option value :=
  lookup (voice_presets s) voice_id.

(** [self.current_parameters = self.voice_presets[voice_id].copy()]
    followed by [self.current_parameters.pop('_source', None)]. *)
Definition load_parameters (voice_id : string) : method unit :=
  fun s =>
    match (preset <- getitem (VDict (voice_presets s)) voice_id ;; copy preset)%py with
    | Throw e => (Throw e, s)
    | Return parameters =>
        let s := set_current_parameters s parameters in
        match pop parameters "_source" with
        | Throw e => (Throw e, s)
        | Return parameters => (Return tt, set_current_parameters s parameters)
        end
    end.

(** [set_voice(voice_id)]. *)
Definition set_voice (voice_id : string) : method bool :=
  fun s =>
    if negb (mem (voice_presets s) voice_id) then (Return false, s)
    else
      match load_parameters voice_id (set_current_voice s voice_id) with
      | (Return _, s) => (Return true, s)
      | (Throw e, s) => (Throw e, s)
      end.

(** [get_current_voice_name()]. *)
Definition get_current_voice_name (s : state) : outcome value :=
  match current_voice s with
  | None => Return (VStr "Unknown")
  | Some voice_id => get_method (current_parameters s) "name" (VStr voice_id)
  end.

(** The table of [_validate_parameter]. *)
Definition validation_rules : list (string * (value -> bool)) :=
  [ ("speed", int_between 80 300);
    ("pitch", int_between 0 99);
    ("amplitude", int_between 0 200);
    ("gap", int_between 0 100);
    ("espeak_voice",
     fun x => match x with VStr s => (0 <? String.length s)%nat | _ => false end);
    ("variant", fun x => match x with VStr _ => true | _ => false end) ].

(** [_validate_parameter(parameter, value)]. *)
Definition _validate_parameter (parameter : string) (v : value) : bool :=
  match lookup validation_rules parameter with
  | Some rule => rule v
  | None => true
  end.

(** [update_parameter(parameter, value)]. *)
Definition update_parameter (parameter : string) (v : value) : method bool :=
  fun s =>
    match current_voice s with
    | None => (Return false, s)
    | Some _ =>
        if negb (_validate_parameter parameter v) then (Return false, s)
        else
          match setitem (current_parameters s) parameter v with
          | Throw e => (Throw e, s)
          | Return parameters => (Return true, set_current_parameters s parameters)
          end
    end.

(** [get_espeak_parameters()]. *)
Definition get_espeak_parameters (s : state) : outcome dict :=
  let p := current_parameters s in
  if negb (truthy p) then Return []
  else
    (voice <- get_method p "espeak_voice" (VStr "en") ;;
     speed <- get_method p "speed" (VInt 140) ;;
     pitch <- get_method p "pitch" (VInt 35) ;;
     amplitude <- get_method p "amplitude" (VInt 100) ;;
     gap <- get_method p "gap" (VInt 8) ;;
     variant <- get_method p "variant" (VStr "m3") ;;
     Return [ ("voice", voice); ("speed", speed); ("pitch", pitch);
              ("amplitude", amplitude); ("gap", gap); ("variant", variant) ])%py.

(** [get_effects_parameters()]. *)
Definition get_effects_parameters (s : state) : outcome value :=
  let p := current_parameters s in
  if negb (truthy p) then Return (VDict [])
  else get_method p "effects" (VDict []).

(** The voice [create_custom_voice] starts from without a base. *)
Definition plain_voice : value :=
  VDict [ ("espeak_voice", VStr "en");
          ("speed", VInt 140); ("pitch", VInt 35);
          ("amplitude", VInt 100); ("gap", VInt 8);
          ("variant", VStr "m3");
          ("effects",
           VDict [ ("frequency_filter", VBool true);
                   ("harmonic_enhancement", VFloat 0x1.199999999999ap+0);
                   ("mechanical_artifacts", VBool true) ]) ].

(** [create_custom_voice(voice_id, name, base_voice, **parameters)];
    [base_voice] is [None] when omitted.  The keyword arguments cannot
    be named [voice_id], [name] or [base_voice]. *)
Definition create_custom_voice (voice_id name : string) (base_voice : option string)
           (parameters : dict) : method bool :=
  fun s =>
    if mem (voice_presets s) voice_id then (Return false, s)
    else
      let start :=
        match base_voice with
        | Some base =>
            if negb (String.eqb base EmptyString) && mem (voice_presets s) base then
              (preset <- getitem (VDict (voice_presets s)) base ;;
               voice_config <- copy preset ;;
               pop voice_config "_source")%py
            else Return plain_voice
        | None => Return plain_voice
        end in
      match
        (voice_config <- start ;;
         voice_config <- setitem voice_config "name" (VStr name) ;;
         voice_config <- setitem voice_config "description"
                                 (VStr ("Custom voice: " ++ name)) ;;
         voice_config <- update_method voice_config parameters ;;
         setitem voice_config "_source" (VStr "custom"))%py
      with
      | Throw e => (Throw e, s)
      | Return voice_config =>
          if forallb (fun kv => _validate_parameter (fst kv) (snd kv)) parameters
          then (Return true,
                set_voice_presets s (store (voice_presets s) voice_id voice_config))
          else (Return false, s)
      end.

(** [delete_voice(voice_id)]. *)
Definition delete_voice (voice_id : string) : method bool :=
  fun s =>
    if negb (mem (voice_presets s) voice_id) then (Return false, s)
    else
      match (voice_config <- getitem (VDict (voice_presets s)) voice_id ;;
             get_method voice_config "_source" VNone)%py with
      | Throw e => (Throw e, s)
      | Return source =>
          if negb (eq_str source "custom" || eq_str source "user") then (Return false, s)
          else
            let s := set_voice_presets s (remove (voice_presets s) voice_id) in
            match current_voice s with
            | Some current =>
                if String.eqb current voice_id then
                  match set_voice "classic_robot" s with
                  | (Return _, s) => (Return true, s)
                  | (Throw e, s) => (Throw e, s)
                  end
                else (Return true, s)
            | None => (Return true, s)
            end
      end.

(** [clone_voice(source_voice_id, new_voice_id, new_name)].  The
    description is formatted from [source_config.get('name', ...)] after
    ['name'] has been assigned. *)
Definition clone_voice {formatter : Formatter}
           (source_voice_id new_voice_id new_name : string) : method bool :=
  fun s =>
    if negb (mem (voice_presets s) source_voice_id) then (Return false, s)
    else if mem (voice_presets s) new_voice_id then (Return false, s)
    else
      match
        (preset <- getitem (VDict (voice_presets s)) source_voice_id ;;
         source_config <- copy preset ;;
         source_config <- pop source_config "_source" ;;
         source_config <- setitem source_config "name" (VStr new_name) ;;
         shown <- get_method source_config "name" (VStr source_voice_id) ;;
         source_config <- setitem source_config "description"
                                  (VStr ("Clone of " ++ str shown)) ;;
         setitem source_config "_source" (VStr "custom"))%py
      with
      | Throw e => (Throw e, s)
      | Return source_config =>
          (Return true,
           set_voice_presets s (store (voice_presets s) new_voice_id source_config))
      end.

(** [reset_voice_parameters()]: [if self.current_voice:] is false for
    [None] and for the empty id. *)
Definition reset_voice_parameters : method unit :=
  fun s =>
    match current_voice s with
    | Some voice_id =>
        if negb (String.eqb voice_id EmptyString) then load_parameters voice_id s
        else (Return tt, s)
    | None => (Return tt, s)
    end.

End VoiceManager.

(* ================================================================== *)
(** ** The parameter setters of class TTSEngine ([src/tts_engine.py]) *)

Module TTSEngine.

Import Py.

(** The part of the engine the setters touch. *)
Record engine : Type := mkEngine {
  current_speed : value;
  current_pitch : value;
  current_amplitude : value;
  current_gap : value;
  voice_manager : VoiceManager.state
}.

(** [self.voice_manager.update_parameter(parameter, v)]; the answer of
    the voice manager is dropped. *)
Definition update_voice (parameter : string) (v : value) (e : engine)
  : outcome unit * engine :=
  let (r, vm) := VoiceManager.update_parameter parameter v (voice_manager e) in
  (obind r (fun _ => Return tt),
   mkEngine (current_speed e) (current_pitch e) (current_amplitude e)
            (current_gap e) vm).

(** [set_speed(speed)]. *)
Definition set_speed (speed : value) (e : engine) : outcome unit * engine :=
  match Utils.clamp speed 80 300 with
  | Throw err => (Throw err, e)
  | Return c =>
      update_voice "speed" c
        (mkEngine c (current_pitch e) (current_amplitude e) (current_gap e)
                  (voice_manager e))
  end.

(** [set_pitch(pitch)]. *)
Definition set_pitch (pitch : value) (e : engine) : outcome unit * engine :=
  match Utils.clamp pitch 0 99 with
  | Throw err => (Throw err, e)
  | Return c =>
      update_voice "pitch" c
        (mkEngine (current_speed e) c (current_amplitude e) (current_gap e)
                  (voice_manager e))
  end.

(** [set_amplitude(amplitude)]. *)
Definition set_amplitude (amplitude : value) (e : engine) : outcome unit * engine :=
  match Utils.clamp amplitude 0 200 with
  | Throw err => (Throw err, e)
  | Return c =>
      update_voice "amplitude" c
        (mkEngine (current_speed e) (current_pitch e) c (current_gap e)
                  (voice_manager e))
  end.

(** [set_gap(gap)]. *)
Definition set_gap (gap : value) (e : engine) : outcome unit * engine :=
  match Utils.clamp gap 0 100 with
  | Throw err => (Throw err, e)
  | Return c =>
      update_voice "gap" c
        (mkEngine (current_speed e) (current_pitch e) (current_amplitude e) c
                  (voice_manager e))
  end.

End TTSEngine.

(* ================================================================== *)
(** ** Vocabulary of the statements about the voice manager *)

(** A run of [update_parameter] calls, whatever each one answers. *)
Fixpoint update_all (updates : list (string * Py.value)) (s : VoiceManager.state)
  : VoiceManager.state :=
  match updates with
  | [] => s
  | (parameter, v) :: rest =>
      update_all rest (snd (VoiceManager.update_parameter parameter v s))
  end.

(** Every entry of a parameter dict passes [_validate_parameter]. *)
Definition all_valid (parameters : Py.dict) : bool :=
  forallb (fun kv => VoiceManager._validate_parameter (fst kv) (snd kv)) parameters.

(** The key of the voice parameters behind a key of the dict that
    [get_espeak_parameters] returns. *)
Definition parameter_of (espeak_key : string) : string :=
  if String.eqb espeak_key "voice" then "espeak_voice" else espeak_key.

(** A manager with the fallback preset and one custom voice, which is
    the voice in use. *)
Definition custom_presets : Py.dict :=
  [ ("deep_robot",
     Py.VDict [ ("name", Py.VStr "Deep Robot"); ("speed", Py.VInt 120);
                ("pitch", Py.VInt 20); ("_source", Py.VStr "custom") ]) ].

Definition custom_in_use : VoiceManager.state :=
  VoiceManager.mkState custom_presets (Some "deep_robot")
    (Py.VDict [ ("name", Py.VStr "Deep Robot"); ("speed", Py.VInt 120);
                ("pitch", Py.VInt 20) ]).

Definition fallback_manager : VoiceManager.state :=
  VoiceManager.initial VoiceManager._create_fallback_presets.

Definition custom_engine : TTSEngine.engine :=
  TTSEngine.mkEngine (Py.VInt 120) (Py.VInt 20) (Py.VInt 100) (Py.VInt 8) custom_in_use.

(* ================================================================== *)
(** * Properties *)

(** ** The orchestrator and the guards of the stages *)

Section Orchestrator.

Context {pydub : Pydub} {decoder : Decoder} {resampler : Resampler}
        {numpy : Numpy}.

(** The orchestrator hands back a buffer for every decoded input: no
    stage can make it return [None]. *)
Lemma apply_robotic_effects_segment scipy effects audio :
  fst (apply_robotic_effects true scipy effects (Segment audio))
  = Some (fst (run_stages scipy effects audio)).
Proof.
  unfold apply_robotic_effects. simpl.
  destruct (run_stages scipy effects audio) as [a l]. reflexivity.
Qed.

(** C2: with the frequency filter disabled, [harmonic_enhancement] equal
    to 1.0 and the mechanical artifacts disabled, [apply_robotic_effects]
    returns the very buffer it was given and logs nothing, whatever the
    cutoffs in the configuration and whatever the library methods would
    do; given WAV bytes, it returns the decoded buffer untouched.
    ([PYDUB_AVAILABLE] is true: without pydub there is no buffer.) *)
Theorem C2_all_stages_disabled_identity :
  forall (scipy : bool) (lo hi : option Z) (audio : AudioSegment) (wav : list Z),
    let effects := mkEffects (Some (mkFilter (Some false) lo hi))
                             (Some 1%float) (Some false) in
    apply_robotic_effects true scipy effects (Segment audio) = (Some audio, [])
    /\ fst (apply_robotic_effects true scipy effects (Bytes wav))
       = to_option (from_wav wav).
Proof.
  intros scipy lo hi audio wav effects. split.
  - reflexivity.
  - unfold apply_robotic_effects. simpl.
    destruct (from_wav wav) as [a | e]; reflexivity.
Qed.

(** C5: with [low_cutoff] 0 and [high_cutoff] at least 20000 the filter
    stage calls neither [high_pass_filter] nor [low_pass_filter]: for
    every implementation of the two methods it returns its input,
    exactly, and logs nothing. *)
Theorem C5_filter_stage_noop :
  forall (en : option bool) (h : Z) (he : option float) (ma : option bool)
         (audio : AudioSegment),
    20000 <= h ->
    _apply_frequency_filter
      (mkEffects (Some (mkFilter en (Some 0) (Some h))) he ma) audio
    = (audio, []).
Proof.
  intros en h he ma audio Hh.
  unfold _apply_frequency_filter, tbind, when, read. simpl.
  destruct (Z.ltb_spec h 20000) as [Hlt | _]; [lia | reflexivity].
Qed.

(** C9: [adjust_speed] with [speed_factor] exactly 1.0 returns its input
    before any frame-rate arithmetic or resampling: the result does not
    depend on the resampler. *)
Theorem C9_adjust_speed_one_identity :
  forall audio : AudioSegment, adjust_speed audio 1%float = (audio, []).
Proof. intros audio. reflexivity. Qed.

(** The loop of [concatenate_audio] is a left fold of [+]. *)
Lemma concat_loop_fold :
  forall rest acc,
    concat_loop acc rest
    = fold_left (fun r seg => rbind r (fun a => append a seg)) rest (Ok acc).
Proof.
  induction rest as [| seg rest IH]; intros acc; simpl; [reflexivity |].
  destruct (append acc seg) as [acc' | e]; simpl.
  - apply IH.
  - clear IH. induction rest as [| s r IHr]; simpl; [reflexivity | exact IHr].
Qed.

(** The loop of [concatenate_audio] over segments in the format of the
    accumulator, for a library whose [+] joins the data of two segments
    of one format: every [+] succeeds and the data pile up in order. *)
Lemma concat_loop_joins :
  (forall a b : AudioSegment,
      RefPydub.same_format a b = true ->
      append a b = Ok (_spawn a (samples a ++ samples b))) ->
  forall (rest : list AudioSegment) (acc : AudioSegment),
    Forall (fun seg => RefPydub.same_format acc seg = true) rest ->
    concat_loop acc rest
    = Ok (_spawn acc (samples acc ++ List.concat (map samples rest))).
Proof.
  intros Hjoin. induction rest as [| seg rest IH]; intros acc Hall; simpl.
  - rewrite app_nil_r. now destruct acc.
  - inversion Hall as [| ? ? Hseg Hrest]; subst.
    rewrite (Hjoin acc seg Hseg). simpl.
    rewrite IH.
    + unfold _spawn. simpl. now rewrite app_assoc.
    + eapply Forall_impl; [| exact Hrest]. intros s Hs.
      unfold RefPydub.same_format, _spawn in *. exact Hs.
Qed.

(** C10: [concatenate_audio] of the empty list is [None], with no log.
    A list of one segment gives that segment back.  Of any non-empty
    list the result is the left-to-right fold of [+] over the remaining
    segments, starting from the first one: the buffer it ends in, or
    [None] with one error record when a [+] raises.  And for a library
    whose [+] joins the data of two segments of one format, which is
    what pydub's [+] does there, segments that share the format of the
    first one always give a buffer, and nothing is logged: it has the
    format of the first segment, and its samples are the samples of the
    segments, in the order of the list. *)
Theorem C10_concatenate_audio :
  concatenate_audio [] = (None, [])
  /\ (forall first : AudioSegment, concatenate_audio [first] = (Some first, []))
  /\ (forall (first : AudioSegment) (rest : list AudioSegment),
        concatenate_audio (first :: rest)
        = match fold_left (fun r seg => rbind r (fun a => append a seg)) rest (Ok first)
          with
          | Ok joined => (Some joined, [])
          | Raise e => (None, [error "Error concatenating audio" e])
          end)
  /\ (forall (first : AudioSegment) (rest : list AudioSegment),
        (forall a b : AudioSegment,
            RefPydub.same_format a b = true ->
            append a b = Ok (_spawn a (samples a ++ samples b))) ->
        Forall (fun seg => RefPydub.same_format first seg = true) rest ->
        concatenate_audio (first :: rest)
        = (Some (mkSegment (sample_width first) (frame_rate first) (channels first)
                           (samples first ++ List.concat (map samples rest))),
           [])).
Proof.
  split; [reflexivity |].
  split; [reflexivity |].
  split.
  - intros first rest. unfold concatenate_audio.
    rewrite <- concat_loop_fold.
    destruct (concat_loop first rest); reflexivity.
  - intros first rest Hjoin Hall. unfold concatenate_audio.
    rewrite (@concat_loop_joins Hjoin rest first Hall). reflexivity.
Qed.

End Orchestrator.

(** ** The distortion stage *)

Section Distortion.

Context {numpy : Numpy}.

(** A non-empty all-zero channel has peak 0. *)
Lemma np_max_zeros w samples :
  samples <> [] -> Forall (fun s => s = 0) samples ->
  np_max (map (np_abs w) samples) = Ok 0.
Proof.
  intros Hne Hz. destruct samples as [| x r]; [congruence |].
  inversion Hz as [| ? ? Hx Hr]; subst. simpl.
  assert (Habs : np_abs w 0 = 0) by (unfold np_abs; destruct (0 =? minval w); reflexivity).
  rewrite Habs. f_equal. clear Hz Hne.
  induction Hr as [| y r Hy Hr IH]; simpl; [reflexivity |].
  subst y. rewrite Habs. exact IH.
Qed.

(** C7: when the peak [M = np.max(np.abs(samples))] is 0,
    [_enhance_harmonics] returns the samples unchanged and logs nothing,
    for every factor; so does the stage [_apply_harmonic_enhancement] on
    a mono buffer holding them. *)
Theorem C7_zero_peak_unchanged :
  forall (w : Z) (samples : list Z) (factor : float) (rate : Z),
    np_max (map (np_abs w) samples) = Ok 0 ->
    _enhance_harmonics w samples factor = (samples, [])
    /\ _apply_harmonic_enhancement true (mkSegment w rate 1 samples) factor
       = (mkSegment w rate 1 samples, []).
Proof.
  intros w samples factor rate HM.
  assert (H1 : _enhance_harmonics w samples factor = (samples, []))
    by (unfold _enhance_harmonics; rewrite HM; reflexivity).
  split; [exact H1 |].
  unfold _apply_harmonic_enhancement. simpl. rewrite H1. reflexivity.
Qed.

(** With a positive peak every sample goes through the float64 chain
    and the cast. *)
Lemma _enhance_harmonics_positive w samples factor M :
  np_max (map (np_abs w) samples) = Ok M -> 0 < M ->
  _enhance_harmonics w samples factor
  = (map (fun s => astype w (np_tanh (of_int s / of_int M * factor)
                             * of_int M * c08)%float) samples, []).
Proof.
  intros HM Hpos. unfold _enhance_harmonics. rewrite HM. simpl.
  destruct (Z.ltb_spec 0 M) as [_ | Hle]; [| lia].
  unfold ret. f_equal. rewrite !map_map. reflexivity.
Qed.

End Distortion.

(** [trunc] discards the fraction. *)
Lemma truncation_of_quotient (n d q : Z) :
  0 < d -> 0 <= n -> q = n / d ->
  (Z.abs q * d <=? Z.abs n) && (Z.abs n <? (Z.abs q + 1) * d) && (0 <=? q * n) = true
  /\ (Z.abs (- q) * d <=? Z.abs (- n)) && (Z.abs (- n) <? (Z.abs (- q) + 1) * d)
     && (0 <=? - q * - n) = true.
Proof.
  intros Hd Hn ->.
  pose proof (Z.mul_div_le n d Hd) as Hlo.
  pose proof (Z.mul_succ_div_gt n d Hd) as Hhi.
  assert (Hq : 0 <= n / d) by (apply Z.div_pos; lia).
  rewrite !Z.abs_opp, Z.mul_opp_opp, !(Z.abs_eq (n / d)), !(Z.abs_eq n) by lia.
  assert (Hs : 0 <= n / d * n) by (apply Z.mul_nonneg_nonneg; lia).
  rewrite !andb_true_iff, !Z.leb_le, Z.ltb_lt. lia.
Qed.

Lemma trunc_truncation x z : trunc x = Some z -> truncationb x z = true.
Proof.
  unfold trunc, truncationb, exact.
  destruct (Prim2SF x) as [s | s | | s m e]; try discriminate.
  - intros [= <-]. reflexivity.
  - intros [= <-].
    destruct (Z.leb_spec 0 e) as [He | He].
    + assert (Hp : 0 < 2 ^ e) by (apply Z.pow_pos_nonneg; lia).
      assert (Hn : 0 <= Zpos m * 2 ^ e) by lia.
      destruct (@truncation_of_quotient (Zpos m * 2 ^ e) 1 (Zpos m * 2 ^ e))
        as [Hpos Hneg]; [lia | exact Hn | now rewrite Z.div_1_r |].
      destruct s.
      * change (Z.neg m) with (- Zpos m). rewrite Z.mul_opp_l. exact Hneg.
      * exact Hpos.
    + assert (Hd : 0 < 2 ^ (- e)) by (apply Z.pow_pos_nonneg; lia).
      destruct (@truncation_of_quotient (Zpos m) (2 ^ (- e)) (Zpos m / 2 ^ (- e)))
        as [Hpos Hneg]; [exact Hd | lia | reflexivity |].
      destruct s.
      * change (Z.neg m) with (- Zpos m). exact Hneg.
      * exact Hpos.
Qed.

(** A value that fits the target width is stored as it is. *)
Lemma wrap_in_range w t : 1 <= w -> in_range w t -> wrap w t = t.
Proof.
  intros Hw [Hlo Hhi]. unfold wrap, minval, maxval in *.
  assert (Hp : 2 ^ (8 * w) = 2 * 2 ^ (8 * w - 1)).
  { rewrite <- Z.pow_succ_r by lia. f_equal. lia. }
  rewrite Z.mod_small; lia.
Qed.

Lemma in_rangeb_iff w t : in_rangeb w t = true <-> in_range w t.
Proof.
  unfold in_rangeb, in_range. rewrite andb_true_iff, !Z.leb_le. tauto.
Qed.

Lemma in_range_widen w t : 1 <= w <= 4 -> in_range w t -> in_range 4 t.
Proof.
  intros Hw [Hlo Hhi]. unfold in_range, minval, maxval in *.
  assert (2 ^ (8 * w - 1) <= 2 ^ (8 * 4 - 1)) by (apply Z.pow_le_mono_r; lia).
  lia.
Qed.

Lemma astype_in_range w x t :
  1 <= w <= 4 -> trunc x = Some t -> in_range w t -> astype w x = t.
Proof.
  intros Hw Ht Hr. unfold astype. rewrite Ht.
  rewrite (proj2 (in_rangeb_iff 4 t) (in_range_widen Hw Hr)).
  apply wrap_in_range; [lia | exact Hr].
Qed.

(** The table behind [peak_check]: all 16-bit amplitudes, by evaluation. *)
Lemma peak_check_table : forallb (peak_check tanh_one) amplitudes16 = true.
Proof. vm_compute. reflexivity. Qed.

Lemma in_zrange (n : nat) :
  forall start M, start <= M < start + Z.of_nat n -> In M (zrange start n).
Proof.
  induction n as [| n IH]; intros start M HM; [lia |].
  simpl. destruct (Z.eq_dec start M) as [-> | Hne]; [now left | right].
  apply IH. lia.
Qed.

Lemma peak_check_all M : 0 < M <= 32767 -> peak_check tanh_one M = true.
Proof.
  intros HM.
  pose proof peak_check_table as Htab.
  rewrite forallb_forall in Htab. apply Htab.
  unfold amplitudes16. apply in_zrange. lia.
Qed.

(** A sample of a valid buffer is within the bounds of the width. *)
Lemma nth_error_in_range w samples i s :
  Forall (in_range w) samples -> nth_error samples i = Some s -> in_range w s.
Proof.
  intros Hall Hi. rewrite Forall_forall in Hall.
  apply Hall. eapply nth_error_In; eassumption.
Qed.

(** C3 (as the code has it): a distortion step with [harmonic_enhancement]
    equal to 1.0 leaves the buffer, hence its peak, untouched because the
    orchestrator does not call the stage; the stage function itself has no
    special case for 1.0: in every valid 16-bit buffer a sample equal to
    the peak [M] comes out as the integer part of tanh(1.0) * M * 0.8,
    which lies in (0.609 M - 1, 0.610 M]. *)
Theorem C3_factor_one_guarded_by_orchestrator :
  (forall (numpy : Numpy) (scipy : bool) (ff : option FilterParams)
          (ma : option bool) (audio : AudioSegment),
      harmonic_step scipy (mkEffects ff (Some 1%float) ma) audio = (audio, []))
  /\ (forall (numpy : Numpy) (samples : list Z) (M : Z) (i : nat),
        np_tanh 1%float = tanh_one ->
        Forall (in_range 2) samples ->
        np_max (map (np_abs 2) samples) = Ok M -> 0 < M ->
        nth_error samples i = Some M ->
        exists v,
          nth_error (fst (_enhance_harmonics 2 samples 1)) i = Some v
          /\ 609 * M - 1000 < 1000 * v <= 610 * M).
Proof.
  split.
  - intros numpy scipy ff ma audio. reflexivity.
  - intros numpy samples M i Htanh Hvalid Hmax Hpos Hi.
    assert (HM : 0 < M <= 32767).
    { pose proof (nth_error_in_range _ Hvalid Hi) as [_ Hhi].
      unfold maxval in Hhi. simpl in Hhi. lia. }
    pose proof (peak_check_all HM) as Hchk.
    unfold peak_check in Hchk. cbv zeta in Hchk.
    rewrite !andb_true_iff, Z.ltb_lt, Z.leb_le in Hchk.
    destruct Hchk as [[Hone Hlo] Hhi].
    apply FloatAxioms.Leibniz.eqb_spec in Hone.
    exists (peak_sample_at_one tanh_one M). split; [| lia].
    rewrite (@_enhance_harmonics_positive numpy 2 samples 1%float M Hmax Hpos).
    simpl. rewrite nth_error_map, Hi. simpl.
    rewrite Hone, Htanh. reflexivity.
Qed.

(** The witness of C3: the buffer [1000; -250; 40] under the reference
    [np.tanh]. *)
Lemma C3_factor_one_witness :
  exists v,
    nth_error (fst (_enhance_harmonics (numpy := RefNumpy) 2 [1000; -250; 40] 1)) 0
    = Some v
    /\ 609 * 1000 - 1000 < 1000 * v <= 610 * 1000.
Proof.
  apply (proj2 C3_factor_one_guarded_by_orchestrator RefNumpy [1000; -250; 40] 1000 0%nat).
  - vm_compute. reflexivity.
  - repeat constructor; vm_compute; discriminate.
  - reflexivity.
  - lia.
  - reflexivity.
Defined.

(** C3, the claim as stated, fails: at factor 1.0 the stage maps the
    one-sample buffer [1000] to [609], so the peaks differ by 391, far
    beyond one unit of rounding. *)
Lemma C3_near_identity_fails :
  fst (_enhance_harmonics (numpy := RefNumpy) 2 [1000] 1) = [609]
  /\ peak [1000] = 1000 /\ peak [609] = 609
  /\ ~ (forall samples : list Z,
          Forall (in_range 2) samples ->
          Z.abs (peak (fst (_enhance_harmonics (numpy := RefNumpy) 2 samples 1))
                 - peak samples) <= 1).
Proof.
  assert (Hrun : fst (_enhance_harmonics (numpy := RefNumpy) 2 [1000] 1) = [609])
    by (vm_compute; reflexivity).
  repeat split; try reflexivity; try exact Hrun.
  intros Hclaim.
  assert (Hvalid : Forall (in_range 2) [1000])
    by (repeat constructor; vm_compute; discriminate).
  specialize (Hclaim [1000] Hvalid). rewrite Hrun in Hclaim.
  vm_compute in Hclaim. apply Hclaim. reflexivity.
Qed.

(** C6 (as the code has it): the intermediate arithmetic is float64, and
    the final cast [astype] discards the fraction: whenever the float64
    value [y] computed for a sample is finite and its integer part [t]
    fits the sample width, the output sample is [t], the truncation of [y]
    toward zero. *)
Theorem C6_cast_truncates :
  forall (numpy : Numpy) (w : Z) (samples : list Z) (factor : float)
         (M : Z) (i : nat) (s t : Z),
    1 <= w <= 4 ->
    np_max (map (np_abs w) samples) = Ok M -> 0 < M ->
    nth_error samples i = Some s ->
    trunc (np_tanh (of_int s / of_int M * factor) * of_int M * c08)%float = Some t ->
    in_range w t ->
    nth_error (fst (_enhance_harmonics w samples factor)) i = Some t
    /\ truncationb (np_tanh (of_int s / of_int M * factor) * of_int M * c08)%float t
       = true.
Proof.
  intros numpy w samples factor M i s t Hw Hmax Hpos Hi Ht Hr. split.
  - rewrite (@_enhance_harmonics_positive numpy w samples factor M Hmax Hpos).
    simpl. rewrite nth_error_map, Hi. simpl.
    f_equal. apply astype_in_range; assumption.
  - apply trunc_truncation. exact Ht.
Qed.

(** The witness of C6: the first sample of [3; 2] at factor 1.0, whose
    float64 value is about 1.83 and comes out as 1. *)
Lemma C6_cast_truncates_witness :
  nth_error (fst (_enhance_harmonics (numpy := RefNumpy) 2 [3; 2] 1)) 0 = Some 1
  /\ truncationb (RefLibm.tanh (of_int 3 / of_int 3 * 1) * of_int 3 * c08)%float 1
     = true.
Proof.
  apply (@C6_cast_truncates RefNumpy 2 [3; 2] 1%float 3 0%nat 3 1).
  - lia.
  - reflexivity.
  - lia.
  - reflexivity.
  - vm_compute. reflexivity.
  - vm_compute. split; discriminate.
Defined.

(** C6, the claim as stated, fails: for the buffer [1] at factor 1.0 the
    float64 value before the cast is about 0.609; the nearest integer is 1
    and the stage returns 0. *)
Lemma C6_cast_does_not_round :
  fst (_enhance_harmonics (numpy := RefNumpy) 2 [1] 1) = [0]
  /\ nearestb (RefLibm.tanh (of_int 1 / of_int 1 * 1) * of_int 1 * c08)%float 0 = false
  /\ nearestb (RefLibm.tanh (of_int 1 / of_int 1 * 1) * of_int 1 * c08)%float 1 = true.
Proof. repeat split; vm_compute; reflexivity. Qed.

Lemma repeat_nonempty (x : Z) (n : nat) : (0 < n)%nat -> repeat x n <> [].
Proof. destruct n; [lia | discriminate]. Qed.

(** The witness of C7: one second of 16-bit mono silence at 22050 Hz,
    factor 1.5. *)
Lemma C7_zero_peak_unchanged_witness :
  _enhance_harmonics (numpy := RefNumpy) 2 (repeat 0 (Z.to_nat 22050)) 1.5
  = (repeat 0 (Z.to_nat 22050), [])
  /\ _apply_harmonic_enhancement (numpy := RefNumpy) true
       (mkSegment 2 22050 1 (repeat 0 (Z.to_nat 22050))) 1.5
     = (mkSegment 2 22050 1 (repeat 0 (Z.to_nat 22050)), []).
Proof.
  apply (@C7_zero_peak_unchanged RefNumpy 2 (repeat 0 (Z.to_nat 22050)) 1.5%float 22050).
  apply np_max_zeros.
  - apply repeat_nonempty. lia.
  - apply Forall_forall. intros x Hx. apply repeat_spec in Hx. exact Hx.
Defined.

(** ** The artifact stage on the reference model *)

Lemma minval_le_maxval w : 1 <= w -> minval w <= maxval w.
Proof.
  intros Hw. unfold minval, maxval.
  assert (0 < 2 ^ (8 * w - 1)) by (apply Z.pow_pos_nonneg; lia). lia.
Qed.

Lemma clamp_in_range w s : 1 <= w -> in_range w (clamp w s).
Proof.
  intros Hw. pose proof (minval_le_maxval Hw) as Hmm.
  unfold clamp, in_range.
  destruct (Z.ltb_spec (maxval w) s); [lia |].
  destruct (Z.ltb_spec s (minval w)); lia.
Qed.

Lemma add_samples_in_range w xs :
  1 <= w -> Forall (in_range w) xs ->
  forall ys, Forall (in_range w) (RefPydub.add_samples w xs ys).
Proof.
  intros Hw Hxs. induction Hxs as [| x xs Hx Hxs IH]; intros ys.
  - destruct ys; constructor.
  - destruct ys as [| y ys]; simpl.
    + constructor; assumption.
    + constructor; [apply clamp_in_range; exact Hw | apply IH].
Qed.

Lemma add_samples_map w (f : Z -> Z) xs :
  RefPydub.add_samples w xs (map f xs) = map (fun x => clamp w (x + f x)) xs.
Proof. induction xs as [| x xs IH]; simpl; [reflexivity | now rewrite IH]. Qed.

Lemma db_to_float_minus_20 :
  RefPydub.db_to_float (of_int (Z.opp 20)) = Ok minus_20_dB.
Proof. vm_compute. reflexivity. Qed.

Lemma check_size_ok w : 1 <= w <= 4 -> RefPydub.check_size w = Ok tt.
Proof.
  intros Hw. unfold RefPydub.check_size.
  destruct (Z.leb_spec 1 w); [| lia]. destruct (Z.leb_spec w 4); [| lia]. reflexivity.
Qed.

Lemma check_size_bad w :
  ~ 1 <= w <= 4 ->
  RefPydub.check_size w = Raise (AudioopError "Size should be 1, 2, 3 or 4").
Proof.
  intros Hw. unfold RefPydub.check_size.
  destruct (Z.leb_spec 1 w); destruct (Z.leb_spec w 4); simpl; try reflexivity. lia.
Qed.

Lemma set_sample_width_same seg w :
  w = sample_width seg -> RefPydub.set_sample_width seg w = Ok seg.
Proof. intros ->. unfold RefPydub.set_sample_width. now rewrite Z.eqb_refl. Qed.

Lemma set_sample_width_other seg w :
  w <> sample_width seg -> 1 <= sample_width seg <= 4 -> 1 <= w <= 4 ->
  RefPydub.set_sample_width seg w
  = Ok (mkSegment w (frame_rate seg) (channels seg)
                  (map (RefPydub.lin2lin (sample_width seg) w) (samples seg))).
Proof.
  intros Hne Hs Hw. unfold RefPydub.set_sample_width.
  destruct (Z.eqb_spec w (sample_width seg)); [contradiction |].
  rewrite !check_size_ok by assumption. reflexivity.
Qed.

Lemma set_sample_width_refused seg w :
  w <> sample_width seg -> ~ 1 <= sample_width seg <= 4 ->
  RefPydub.set_sample_width seg w
  = Raise (AudioopError "Size should be 1, 2, 3 or 4").
Proof.
  intros Hne Hs. unfold RefPydub.set_sample_width.
  destruct (Z.eqb_spec w (sample_width seg)); [contradiction |].
  rewrite (check_size_bad Hs). reflexivity.
Qed.

Lemma apply_gain_minus_20 seg :
  1 <= sample_width seg <= 4 ->
  RefPydub.apply_gain seg (of_int (Z.opp 20))
  = Ok (_spawn seg (map (fun s => RefPydub.fbound (sample_width seg)
                                    (of_int s * minus_20_dB)%float) (samples seg))).
Proof.
  intros Hw. unfold RefPydub.apply_gain.
  rewrite db_to_float_minus_20. simpl. rewrite (check_size_ok Hw). reflexivity.
Qed.

Lemma same_format_metadata a w r c xs :
  w = sample_width a -> r = frame_rate a -> c = channels a ->
  RefPydub.same_format a (mkSegment w r c xs) = true.
Proof.
  intros -> -> ->. unfold RefPydub.same_format. cbn [sample_width frame_rate channels].
  now rewrite !Z.eqb_refl.
Qed.

Lemma overlay_same_format seg other :
  RefPydub.same_format seg other = true -> 1 <= sample_width seg <= 4 ->
  RefPydub.overlay seg other
  = Ok (_spawn seg (RefPydub.add_samples (sample_width seg) (samples seg) (samples other))).
Proof.
  intros Hf Hw. unfold RefPydub.overlay. rewrite Hf, (check_size_ok Hw). reflexivity.
Qed.

(** On a supported width the stage is the sample-wise saturated sum. *)
Lemma artifacts_supported (audio : AudioSegment) :
  1 <= sample_width audio <= 4 ->
  _apply_mechanical_artifacts (pydub := RefPydub.ref) audio
  = (_spawn audio (map (artifact_sample (sample_width audio)) (samples audio)), []).
Proof.
  intros Hw. unfold _apply_mechanical_artifacts, seg_sub.
  cbn [set_sample_width apply_gain overlay RefPydub.ref].
  unfold artifact_sample, requantize.
  destruct (Z.eqb_spec (sample_width audio) 1) as [H1 | H1].
  - rewrite (@set_sample_width_same audio 1 (eq_sym H1)). cbn [rbind].
    rewrite (@set_sample_width_same audio (sample_width audio) eq_refl). cbn [rbind].
    rewrite (apply_gain_minus_20 audio Hw). cbn [rbind].
    rewrite overlay_same_format;
      [| unfold _spawn; now apply same_format_metadata | exact Hw].
    cbn [_spawn samples sample_width]. rewrite add_samples_map. reflexivity.
  - rewrite set_sample_width_other; [| congruence | exact Hw | lia]. cbn [rbind].
    rewrite set_sample_width_other;
      [| cbn [sample_width]; congruence | cbn [sample_width]; lia | exact Hw].
    cbn [rbind sample_width frame_rate channels samples].
    rewrite apply_gain_minus_20 by exact Hw. cbn [rbind].
    rewrite overlay_same_format;
      [| unfold _spawn; now apply same_format_metadata | exact Hw].
    cbn [_spawn samples sample_width frame_rate channels].
    rewrite !map_map, add_samples_map. reflexivity.
Qed.

(** On any other width [audioop] refuses the requantization and the
    stage hands back its input. *)
Lemma artifacts_unsupported (audio : AudioSegment) :
  ~ 1 <= sample_width audio <= 4 ->
  fst (_apply_mechanical_artifacts (pydub := RefPydub.ref) audio) = audio.
Proof.
  intros Hw. unfold _apply_mechanical_artifacts.
  cbn [set_sample_width RefPydub.ref].
  rewrite (@set_sample_width_refused audio 1) by lia. reflexivity.
Qed.

(** C4: on the reference model of the library, every sample of the
    artifact stage's output lies in the signed range of the buffer's width
    whenever the input's samples do; the width and the number of samples
    are unchanged; and on the widths the library supports each output
    sample is the saturated sum [clamp (s + attenuated requantized s)], so an
    overflowing sum stops at the bound instead of wrapping. *)
Theorem C4_artifact_stage_in_range :
  forall audio : AudioSegment,
    valid audio ->
    let out := fst (_apply_mechanical_artifacts (pydub := RefPydub.ref) audio) in
    valid out
    /\ sample_width out = sample_width audio
    /\ List.length (samples out) = List.length (samples audio)
    /\ (1 <= sample_width audio <= 4 ->
        samples out = map (artifact_sample (sample_width audio)) (samples audio)).
Proof.
  intros audio Hvalid out. subst out.
  destruct (Z_le_dec 1 (sample_width audio)) as [Hlo | Hlo];
    [destruct (Z_le_dec (sample_width audio) 4) as [Hhi | Hhi] |].
  - rewrite (artifacts_supported audio (conj Hlo Hhi)). cbn [fst].
    unfold valid. cbn [_spawn samples sample_width].
    split; [| split; [| split]].
    + apply Forall_forall. intros y Hy. apply in_map_iff in Hy.
      destruct Hy as [s [<- _]]. apply clamp_in_range. exact Hlo.
    + reflexivity.
    + apply length_map.
    + intros _. reflexivity.
  - rewrite artifacts_unsupported by lia.
    split; [exact Hvalid | split; [reflexivity | split; [reflexivity | lia]]].
  - rewrite artifacts_unsupported by lia.
    split; [exact Hvalid | split; [reflexivity | split; [reflexivity | lia]]].
Qed.

(** The witness of C4: a 16-bit buffer whose last two samples overflow
    the sum and stop at the bounds. *)
Lemma C4_artifact_stage_in_range_witness :
  let audio := mkSegment 2 22050 1 [1000; -500; 32767; -32768] in
  let out := fst (_apply_mechanical_artifacts (pydub := RefPydub.ref) audio) in
  valid out
  /\ sample_width out = 2
  /\ List.length (samples out) = 4%nat
  /\ (1 <= 2 <= 4 -> samples out = map (artifact_sample 2) [1000; -500; 32767; -32768]).
Proof.
  apply (@C4_artifact_stage_in_range (mkSegment 2 22050 1 [1000; -500; 32767; -32768])).
  repeat constructor; vm_compute; discriminate.
Defined.

(** The saturation at work: 32767 + 3251 and -32768 - 3277 stay at the
    bounds. *)
Lemma artifact_stage_saturates :
  _apply_mechanical_artifacts (pydub := RefPydub.ref)
    (mkSegment 2 22050 1 [1000; -500; 32767; -32768])
  = (mkSegment 2 22050 1 [1076; -552; 32767; -32768], []).
Proof. vm_compute. reflexivity. Qed.

(** ** Failure inside a stage *)

Section StageFailure.

Context {pydub : Pydub} {numpy : Numpy}.

(** The artifact stage never rebinds [audio]: whenever it logs a
    failure it returns its input. *)
Lemma artifacts_failure_returns_input audio :
  snd (_apply_mechanical_artifacts audio) <> [] ->
  fst (_apply_mechanical_artifacts audio) = audio.
Proof.
  unfold _apply_mechanical_artifacts.
  destruct (rbind (set_sample_width audio 1) _) as [mixed | e]; simpl.
  - intros H. now contradiction H.
  - reflexivity.
Qed.

Lemma reshape2_columns_bounded (n : nat) :
  forall a c0 c1,
    (List.length a <= n)%nat -> reshape2 a = Ok (c0, c1) ->
    List.length c0 = List.length c1 /\ (c0 = [] -> a = []).
Proof.
  induction n as [| n IH]; intros a c0 c1 Hn.
  - destruct a; [| simpl in Hn; lia]. simpl. intros [= <- <-]. split; reflexivity.
  - destruct a as [| l [| r rest]]; simpl.
    + intros [= <- <-]. split; reflexivity.
    + discriminate.
    + destruct (reshape2 rest) as [[d0 d1] | e] eqn:Hrest; simpl; [| discriminate].
      intros [= <- <-]. simpl. split; [| discriminate].
      f_equal. apply (IH rest d0 d1); [simpl in Hn; lia | exact Hrest].
Qed.

Lemma reshape2_columns a c0 c1 :
  reshape2 a = Ok (c0, c1) ->
  List.length c0 = List.length c1 /\ (c0 = [] -> a = []).
Proof. apply (@reshape2_columns_bounded (List.length a)). lia. Qed.

Lemma _enhance_harmonics_logs w samples factor :
  snd (_enhance_harmonics w samples factor) <> [] -> samples = [].
Proof.
  unfold _enhance_harmonics. destruct samples as [| x r]; [reflexivity |].
  simpl. destruct (0 <? fold_left Z.max (map (np_abs w) r) (np_abs w x));
    simpl; intros H; now contradiction H.
Qed.

Lemma _enhance_harmonics_empty w factor :
  fst (_enhance_harmonics w [] factor) = [].
Proof. reflexivity. Qed.

Lemma spawn_same audio : _spawn audio (samples audio) = audio.
Proof. destruct audio. reflexivity. Qed.

(** The distortion stage builds its result in fresh variables: whenever
    it logs a failure it returns a buffer equal to its input. *)
Lemma harmonic_failure_returns_input scipy audio factor :
  snd (_apply_harmonic_enhancement scipy audio factor) <> [] ->
  fst (_apply_harmonic_enhancement scipy audio factor) = audio.
Proof.
  unfold _apply_harmonic_enhancement.
  destruct scipy; simpl; [| reflexivity].
  destruct (channels audio =? 2).
  - destruct (reshape2 (samples audio)) as [[c0 c1] | e] eqn:Hre; [| reflexivity].
    destruct (reshape2_columns _ Hre) as [Hlen Hnil].
    destruct (_enhance_harmonics (sample_width audio) c0 factor) as [e0 l0] eqn:H0.
    destruct (_enhance_harmonics (sample_width audio) c1 factor) as [e1 l1] eqn:H1.
    unfold bind, ret. simpl. rewrite app_nil_r. intros Hlog.
    assert (Hc0 : c0 = []).
    { destruct l0 as [| r0 l0'].
      - destruct l1 as [| r1 l1']; [now contradiction Hlog |].
        assert (Hc1 : c1 = []).
        { apply (@_enhance_harmonics_logs (sample_width audio) c1 factor).
          rewrite H1. discriminate. }
        subst c1. destruct c0; [reflexivity | discriminate]. 
      - apply (@_enhance_harmonics_logs (sample_width audio) c0 factor).
        rewrite H0. discriminate. }
    subst c0. pose proof (_enhance_harmonics_empty (sample_width audio) factor) as He.
    rewrite H0 in He. simpl in He. subst e0. simpl.
    rewrite <- (Hnil eq_refl). apply spawn_same.
  - destruct (_enhance_harmonics (sample_width audio) (samples audio) factor)
      as [s l] eqn:Hs.
    unfold bind, ret. simpl. rewrite app_nil_r. intros Hlog.
    assert (Hnil : samples audio = []).
    { apply (@_enhance_harmonics_logs (sample_width audio) (samples audio) factor).
      rewrite Hs. exact Hlog. }
    revert Hs. rewrite Hnil. intros Hs.
    pose proof (_enhance_harmonics_empty (sample_width audio) factor) as He.
    rewrite Hs in He. simpl in He. subst s.
    rewrite <- Hnil. apply spawn_same.
Qed.

(** The filter stage rebinds [audio] after the high-pass: when the
    high-pass raises, the handler still sees the input ... *)
Lemma filter_high_pass_failure en lc hc he ma audio e :
  0 < lc -> high_pass_filter audio lc = Raise e ->
  _apply_frequency_filter
    (mkEffects (Some (mkFilter en (Some lc) (Some hc))) he ma) audio
  = (audio, [warning "Error applying frequency filter" e]).
Proof.
  intros Hlc Hhp. unfold _apply_frequency_filter, tbind, when, assign, read. simpl.
  destruct (Z.ltb_spec 0 lc) as [_ | ?]; [| lia].
  rewrite Hhp. reflexivity.
Qed.

(** ... and when the low-pass raises after a successful high-pass, the
    handler sees, and returns, the high-passed buffer. *)
Lemma filter_low_pass_failure en lc hc he ma audio filtered e :
  0 < lc -> hc < 20000 ->
  high_pass_filter audio lc = Ok filtered ->
  low_pass_filter filtered hc = Raise e ->
  _apply_frequency_filter
    (mkEffects (Some (mkFilter en (Some lc) (Some hc))) he ma) audio
  = (filtered, [warning "Error applying frequency filter" e]).
Proof.
  intros Hlc Hhc Hhp Hlp.
  unfold _apply_frequency_filter, tbind, when, assign, read. simpl.
  destruct (Z.ltb_spec 0 lc) as [_ | ?]; [| lia].
  destruct (Z.ltb_spec hc 20000) as [_ | ?]; [| lia].
  rewrite Hhp, Hlp. reflexivity.
Qed.

End StageFailure.

(** C1, at a configuration the code accepts ([low_cutoff] 300,
    [high_cutoff] 0, which no validation rejects): the high-pass succeeds,
    pydub's low-pass divides by the zero cutoff, and the filter stage
    returns the high-passed samples, not the buffer it was given; the
    orchestrator passes that buffer on and returns it. *)
Theorem C1_filter_failure_returns_filtered_buffer :
  forall (decoder : Decoder) (numpy : Numpy),
    let effects := mkEffects (Some (mkFilter (Some true) (Some 300) (Some 0)))
                             (Some 1%float) (Some false) in
    let audio := mkSegment 2 22050 1 [1000; 1000; 1000] in
    let filtered := mkSegment 2 22050 1 [1000; 921; 848] in
    RefPydub.high_pass_filter audio 300 = Ok filtered
    /\ RefPydub.low_pass_filter filtered 0 = Raise ZeroDivisionError
    /\ _apply_frequency_filter (pydub := RefPydub.ref) effects audio
       = (filtered, [warning "Error applying frequency filter" ZeroDivisionError])
    /\ filtered <> audio
    /\ apply_robotic_effects (pydub := RefPydub.ref) true true effects (Segment audio)
       = (Some filtered,
          [warning "Error applying frequency filter" ZeroDivisionError]).
Proof.
  intros decoder numpy. cbv zeta. split; [vm_compute; reflexivity |].
  split; [vm_compute; reflexivity |].
  split; [vm_compute; reflexivity |].
  split; [discriminate | vm_compute; reflexivity].
Qed.

(** The witness of C5, on the reference model. *)
Lemma C5_filter_stage_noop_witness :
  _apply_frequency_filter (pydub := RefPydub.ref)
    (mkEffects (Some (mkFilter (Some true) (Some 0) (Some 20000))) None None)
    (mkSegment 2 22050 1 [1000; -500; 32767; -32768])
  = (mkSegment 2 22050 1 [1000; -500; 32767; -32768], []).
Proof.
  apply (@C5_filter_stage_noop RefPydub.ref (Some true) 20000 None None). lia.
Defined.

(** C8, at the buffer [1000; 0; 0; 0] and the default target: pydub's
    [dBFS] is the RMS level (500 of 32768, -36.3 dB), the gain is
    +16.3 dB, and the output peaks at 6553, that is at -13.98 dBFS, six dB
    above the target; it is the RMS level of the output that sits at
    -20 dBFS. *)
Theorem C8_normalize_sets_rms_level_not_peak :
  let audio := mkSegment 2 22050 1 [1000; 0; 0; 0] in
  let out := mkSegment 2 22050 1 [6553; 0; 0; 0] in
  normalize_audio (pydub := RefPydub.ref) audio (-20)%float = (out, [])
  /\ ((-14 <=? RefPydub.max_dBFS out) && (RefPydub.max_dBFS out <=? -13.5))%float = true
  /\ match RefPydub.dBFS out with
     | Ok level => ((-20.25 <=? level) && (level <=? -19.75))%float
     | Raise _ => false
     end = true
  /\ RefPydub.max out = 6553 /\ RefPydub.rms out = 3276.
Proof. cbv zeta. repeat split; vm_compute; reflexivity. Qed.

(** The witness of C10, on the reference model: three 16-bit mono
    segments at 22050 Hz. *)
Lemma C10_concatenate_audio_witness :
  concatenate_audio (pydub := RefPydub.ref)
    [ mkSegment 2 22050 1 [1000; -500]; mkSegment 2 22050 1 [250];
      mkSegment 2 22050 1 [0; 32767] ]
  = (Some (mkSegment 2 22050 1 [1000; -500; 250; 0; 32767]), []).
Proof.
  apply (proj2 (proj2 (proj2 (@C10_concatenate_audio RefPydub.ref)))
           (mkSegment 2 22050 1 [1000; -500])
           [ mkSegment 2 22050 1 [250]; mkSegment 2 22050 1 [0; 32767] ]).
  - intros a b Hsame. cbn [append RefPydub.ref]. unfold RefPydub.append.
    rewrite Hsame. reflexivity.
  - repeat constructor.
Defined.

(* ================================================================== *)
(** * Further properties of the audio processor *)

(** ** Shape of the distortion stage *)

Lemma reshape2_shape_bounded (n : nat) :
  forall a c0 c1,
    (List.length a <= n)%nat -> reshape2 a = Ok (c0, c1) ->
    a = flatten2 c0 c1 /\ List.length c0 = List.length c1.
Proof.
  induction n as [| n IH]; intros a c0 c1 Hn.
  - destruct a; [| simpl in Hn; lia]. simpl. intros [= <- <-]. split; reflexivity.
  - destruct a as [| l [| r rest]]; simpl.
    + intros [= <- <-]. split; reflexivity.
    + discriminate.
    + destruct (reshape2 rest) as [[d0 d1] | e] eqn:Hrest; simpl; [| discriminate].
      intros [= <- <-]. simpl.
      destruct (IH rest d0 d1) as [Hflat Hlen]; [simpl in Hn; lia | exact Hrest |].
      split; [now rewrite <- Hflat | now rewrite Hlen].
Qed.

(** [reshape] followed by [flatten] gives the array back. *)
Lemma reshape2_flatten2 a c0 c1 :
  reshape2 a = Ok (c0, c1) ->
  a = flatten2 c0 c1 /\ List.length c0 = List.length c1.
Proof. apply (@reshape2_shape_bounded (List.length a)). lia. Qed.

(** Two columns of one length are what [reshape] reads back. *)
Lemma flatten2_reshape2 :
  forall c0 c1,
    List.length c0 = List.length c1 -> reshape2 (flatten2 c0 c1) = Ok (c0, c1).
Proof.
  induction c0 as [| l c0 IH]; intros [| r c1] Hlen; simpl in *; try discriminate.
  - reflexivity.
  - rewrite IH by lia. reflexivity.
Qed.

Lemma flatten2_length :
  forall c0 c1,
    List.length c0 = List.length c1 ->
    List.length (flatten2 c0 c1) = (2 * List.length c0)%nat.
Proof.
  induction c0 as [| l c0 IH]; intros [| r c1] Hlen; simpl in *; try discriminate.
  - reflexivity.
  - rewrite IH by lia. lia.
Qed.

Section DistortionShape.

Context {numpy : Numpy}.

Lemma _enhance_harmonics_length w samples factor :
  List.length (fst (_enhance_harmonics w samples factor)) = List.length samples.
Proof.
  unfold _enhance_harmonics.
  destruct (np_max (map (np_abs w) samples)) as [M | e]; simpl; [| reflexivity].
  destruct (0 <? M); simpl; [| reflexivity].
  now rewrite !length_map.
Qed.

(** The distortion stage never changes the shape of a buffer: for
    every factor, mono or stereo, processed or handed back after a failure,
    the result has the sample width, frame rate, channel count and number
    of samples of the input. *)
Theorem harmonic_stage_preserves_shape :
  forall (scipy : bool) (audio : AudioSegment) (factor : float),
    let out := fst (_apply_harmonic_enhancement scipy audio factor) in
    sample_width out = sample_width audio
    /\ frame_rate out = frame_rate audio
    /\ channels out = channels audio
    /\ List.length (samples out) = List.length (samples audio).
Proof.
  intros scipy audio factor. unfold _apply_harmonic_enhancement.
  destruct scipy; simpl; [| now repeat split].
  destruct (channels audio =? 2).
  - destruct (reshape2 (samples audio)) as [[c0 c1] | e] eqn:Hre;
      [| now repeat split].
    destruct (reshape2_flatten2 _ Hre) as [Hflat Hlen].
    pose proof (_enhance_harmonics_length (sample_width audio) c0 factor) as H0.
    pose proof (_enhance_harmonics_length (sample_width audio) c1 factor) as H1.
    destruct (_enhance_harmonics (sample_width audio) c0 factor) as [e0 l0].
    destruct (_enhance_harmonics (sample_width audio) c1 factor) as [e1 l1].
    simpl in *. repeat split.
    rewrite Hflat, !flatten2_length by lia. lia.
  - pose proof (_enhance_harmonics_length (sample_width audio) (samples audio) factor)
      as Hs.
    destruct (_enhance_harmonics (sample_width audio) (samples audio) factor) as [s l].
    simpl in *. now repeat split.
Qed.

(** A stereo buffer is processed channel by channel: the left column
    of the output is [_enhance_harmonics] of the left column of the input
    alone, and likewise on the right; no sample of one channel influences
    the other. *)
Theorem harmonic_stage_channels_independent :
  forall (audio : AudioSegment) (factor : float) (left right : list Z),
    channels audio = 2 ->
    reshape2 (samples audio) = Ok (left, right) ->
    reshape2 (samples (fst (_apply_harmonic_enhancement true audio factor)))
    = Ok (fst (_enhance_harmonics (sample_width audio) left factor),
          fst (_enhance_harmonics (sample_width audio) right factor)).
Proof.
  intros audio factor left right Hch Hre.
  unfold _apply_harmonic_enhancement. simpl. rewrite Hch, Hre. simpl.
  destruct (reshape2_flatten2 _ Hre) as [_ Hlen].
  pose proof (_enhance_harmonics_length (sample_width audio) left factor) as H0.
  pose proof (_enhance_harmonics_length (sample_width audio) right factor) as H1.
  destruct (_enhance_harmonics (sample_width audio) left factor) as [e0 l0].
  destruct (_enhance_harmonics (sample_width audio) right factor) as [e1 l1].
  simpl in *. apply flatten2_reshape2. lia.
Qed.

(** A channel that sits at the most negative sample value throughout
    is handed back unchanged for every factor, although it is at full
    scale: [np.abs] leaves the minimum negative, so the peak test
    [max_val > 0] fails. *)
Theorem enhance_harmonics_all_minimum_unchanged :
  forall (w : Z) (n : nat) (factor : float),
    fst (_enhance_harmonics w (repeat (minval w) n) factor) = repeat (minval w) n.
Proof.
  intros w n factor. unfold _enhance_harmonics.
  destruct n as [| n]; [reflexivity |].
  assert (Habs : np_abs w (minval w) = minval w)
    by (unfold np_abs; now rewrite Z.eqb_refl).
  assert (Hmax : np_max (map (np_abs w) (repeat (minval w) (S n))) = Ok (minval w)).
  { simpl. rewrite Habs. f_equal.
    induction n as [| n IH]; simpl; [reflexivity |].
    rewrite Habs, Z.max_id. exact IH. }
  rewrite Hmax. simpl.
  assert (Hneg : minval w <= 0).
  { unfold minval. pose proof (Z.pow_nonneg 2 (8 * w - 1)). lia. }
  destruct (Z.ltb_spec 0 (minval w)); [lia | reflexivity].
Qed.

End DistortionShape.

(** The witness of [harmonic_stage_channels_independent]: a four-sample
    stereo buffer. *)
Lemma harmonic_stage_channels_independent_witness :
  reshape2 (samples (fst (_apply_harmonic_enhancement (numpy := RefNumpy) true
                            (mkSegment 2 22050 2 [1000; 0; -500; 0]) 1.5)))
  = Ok (fst (_enhance_harmonics (numpy := RefNumpy) 2 [1000; -500] 1.5),
        fst (_enhance_harmonics (numpy := RefNumpy) 2 [0; 0] 1.5)).
Proof.
  apply (@harmonic_stage_channels_independent RefNumpy
           (mkSegment 2 22050 2 [1000; 0; -500; 0]) 1.5%float [1000; -500] [0; 0]);
    reflexivity.
Defined.

(** The witness of [harmonic_failure_returns_input]: a stereo
    buffer with an odd number of samples cannot be reshaped. *)
Lemma harmonic_failure_returns_input_witness :
  fst (_apply_harmonic_enhancement (numpy := RefNumpy) true
         (mkSegment 2 22050 2 [1000; 0; -500]) 1.5)
  = mkSegment 2 22050 2 [1000; 0; -500].
Proof.
  apply (@harmonic_failure_returns_input RefNumpy true
           (mkSegment 2 22050 2 [1000; 0; -500]) 1.5%float).
  discriminate.
Defined.

(** ** Guards, defaults and failures of the other operations *)

Section UtilityGuards.

Context {pydub : Pydub} {decoder : Decoder} {resampler : Resampler}
        {numpy : Numpy} {util : PydubUtil}.

(** [fade_in_out] with both durations zero or negative calls neither
    [fade_in] nor [fade_out]: it returns its input and logs nothing. *)
Theorem fade_in_out_nonpositive_identity :
  forall (audio : AudioSegment) (fade_in_ms fade_out_ms : Z),
    fade_in_ms <= 0 -> fade_out_ms <= 0 ->
    fade_in_out audio fade_in_ms fade_out_ms = (audio, []).
Proof.
  intros audio fi fo Hfi Hfo. unfold fade_in_out, tbind, when, read.
  destruct (Z.ltb_spec 0 fi); [lia |]. destruct (Z.ltb_spec 0 fo); [lia |].
  reflexivity.
Qed.

(** With no ['frequency_filter'] key, or with one that holds no cutoffs,
    the filter stage high-passes at 300 Hz and then low-passes the result
    at 3000 Hz; and because a missing ['enable'] counts as true and a
    missing ['harmonic_enhancement'] as 1.0, the orchestrator run on an
    effects dict that only switches the artifacts off returns exactly that
    band-passed buffer. *)
Theorem filter_defaults_300_3000 :
  forall (audio hp lp : AudioSegment) (en : option bool) (he : option float)
         (ma : option bool) (scipy : bool),
    high_pass_filter audio 300 = Ok hp ->
    low_pass_filter hp 3000 = Ok lp ->
    _apply_frequency_filter (mkEffects None he ma) audio = (lp, [])
    /\ _apply_frequency_filter (mkEffects (Some (mkFilter en None None)) he ma) audio
       = (lp, [])
    /\ apply_robotic_effects true scipy (mkEffects None None (Some false))
                             (Segment audio)
       = (Some lp, []).
Proof.
  intros audio hp lp en he ma scipy Hhp Hlp.
  assert (H1 : forall ff, get ff empty_filter = mkFilter en None None \/
                          get ff empty_filter = empty_filter ->
                          _apply_frequency_filter (mkEffects ff he ma) audio = (lp, [])).
  { intros ff Hff. unfold _apply_frequency_filter, tbind, when, assign, read.
    cbn [frequency_filter].
    destruct Hff as [-> | ->]; cbn [low_cutoff high_cutoff empty_filter get];
      simpl; rewrite Hhp, Hlp; reflexivity. }
  split; [apply H1; now right |].
  split; [apply H1; now left |].
  unfold apply_robotic_effects, run_stages, filter_step, harmonic_step, artifact_step.
  cbn [negb frequency_filter harmonic_enhancement mechanical_artifacts get
       empty_filter enable].
  assert (H2 : _apply_frequency_filter (mkEffects None None (Some false)) audio
               = (lp, [])).
  { unfold _apply_frequency_filter, tbind, when, assign, read. simpl.
    rewrite Hhp, Hlp. reflexivity. }
  rewrite H2. reflexivity.
Qed.

(** [adjust_speed] with a NaN speed factor: [int()] of the scaled frame
    rate raises [ValueError], so the input comes back with a warning and
    the resampler is never reached. *)
Theorem adjust_speed_nan_returns_input :
  forall audio : AudioSegment,
    adjust_speed audio nan
    = (audio, [warning "Error adjusting audio speed"
                       (ValueError "cannot convert float NaN to integer")]).
Proof.
  intros audio. unfold adjust_speed.
  change (nan =? 1)%float with false. cbv iota.
  assert (Hnan : Prim2SF (of_int (frame_rate audio) * nan)%float = S754_nan).
  { rewrite mul_spec. change (Prim2SF nan) with S754_nan.
    unfold SF64mul, SFmul. destruct (Prim2SF (of_int (frame_rate audio))); reflexivity. }
  unfold py_int. rewrite Hnan. reflexivity.
Qed.

(** When the processor yields no segment, [TTSEngine.apply_robotic_effects]
    hands its argument back unchanged (and raises nothing): effects that
    cannot be applied are skipped, not fatal. *)
Theorem engine_falls_back_to_input :
  forall (pydub_available scipy : bool) (effects : EffectsParams) (data : audio_data),
    fst (apply_robotic_effects pydub_available scipy effects data) = None ->
    fst (engine_apply_robotic_effects pydub_available scipy effects data) = Ok data
    /\ snd (engine_apply_robotic_effects pydub_available scipy effects data)
       = snd (apply_robotic_effects pydub_available scipy effects data).
Proof.
  intros pa scipy effects data Hnone. unfold engine_apply_robotic_effects.
  destruct (apply_robotic_effects pa scipy effects data) as [seg l].
  simpl in Hnone. subst seg. simpl. now rewrite app_nil_r.
Qed.

End UtilityGuards.

(** The witness of [fade_in_out_nonpositive_identity]. *)
Lemma fade_in_out_nonpositive_identity_witness :
  fade_in_out (util := failing_util) (mkSegment 2 22050 1 [1000; -500; 250]) 0 (-5)
  = (mkSegment 2 22050 1 [1000; -500; 250], []).
Proof.
  apply (@fade_in_out_nonpositive_identity failing_util
           (mkSegment 2 22050 1 [1000; -500; 250]) 0 (-5)); lia.
Defined.

(** The witness of [filter_defaults_300_3000], on the reference model of
    pydub: three samples band-passed with the default cutoffs. *)
Lemma filter_defaults_300_3000_witness :
  _apply_frequency_filter (pydub := RefPydub.ref) (mkEffects None None None)
                          (mkSegment 2 22050 1 [1000; 1000; 1000])
  = (mkSegment 2 22050 1 [1000; 963; 910], [])
  /\ _apply_frequency_filter (pydub := RefPydub.ref)
       (mkEffects (Some (mkFilter None None None)) None None)
       (mkSegment 2 22050 1 [1000; 1000; 1000])
     = (mkSegment 2 22050 1 [1000; 963; 910], [])
  /\ apply_robotic_effects (pydub := RefPydub.ref) (decoder := rejecting_decoder)
       (numpy := RefNumpy) true true (mkEffects None None (Some false))
       (Segment (mkSegment 2 22050 1 [1000; 1000; 1000]))
     = (Some (mkSegment 2 22050 1 [1000; 963; 910]), []).
Proof.
  apply (@filter_defaults_300_3000 RefPydub.ref rejecting_decoder RefNumpy
           (mkSegment 2 22050 1 [1000; 1000; 1000])
           (mkSegment 2 22050 1 [1000; 921; 848])
           (mkSegment 2 22050 1 [1000; 963; 910]) None None None true);
    vm_compute; reflexivity.
Defined.

(** The witness of [engine_falls_back_to_input]: without pydub the
    processor yields nothing and the bytes come back. *)
Lemma engine_falls_back_to_input_witness :
  fst (engine_apply_robotic_effects (pydub := RefPydub.ref)
         (decoder := rejecting_decoder) (numpy := RefNumpy) (util := failing_util)
         false true (mkEffects None None None) (Bytes [82; 73; 70; 70]))
  = Ok (Bytes [82; 73; 70; 70])
  /\ snd (engine_apply_robotic_effects (pydub := RefPydub.ref)
           (decoder := rejecting_decoder) (numpy := RefNumpy) (util := failing_util)
           false true (mkEffects None None None) (Bytes [82; 73; 70; 70]))
     = snd (apply_robotic_effects (pydub := RefPydub.ref)
              (decoder := rejecting_decoder) (numpy := RefNumpy)
              false true (mkEffects None None None) (Bytes [82; 73; 70; 70])).
Proof.
  apply (@engine_falls_back_to_input RefPydub.ref rejecting_decoder RefNumpy
           failing_util false true (mkEffects None None None) (Bytes [82; 73; 70; 70])).
  reflexivity.
Defined.

(* ================================================================== *)
(** * Properties of the configuration manager *)

(** ** Dict items *)

Section ItemsFacts.

Variable V : Type.
Implicit Types (d : list (string * V)) (k : string) (v : V).

Lemma lookup_store_same d k v : Py.lookup (Py.store d k v) k = Some v.
Proof.
  induction d as [| [k' v'] d IH]; simpl.
  - now rewrite String.eqb_refl.
  - destruct (String.eqb k' k) eqn:E; simpl.
    + now rewrite String.eqb_refl.
    + now rewrite E.
Qed.

Lemma lookup_store_other d k k' v :
  k <> k' -> Py.lookup (Py.store d k v) k' = Py.lookup d k'.
Proof.
  intros Hne. induction d as [| [k0 v0] d IH]; simpl.
  - destruct (String.eqb_spec k k'); [contradiction | reflexivity].
  - destruct (String.eqb_spec k0 k) as [-> | Hk0]; simpl.
    + destruct (String.eqb_spec k k'); [contradiction | reflexivity].
    + destruct (String.eqb k0 k'); [reflexivity | exact IH].
Qed.

Lemma keys_store_present d k v :
  Py.mem d k = true -> Py.keys (Py.store d k v) = Py.keys d.
Proof.
  unfold Py.mem. induction d as [| [k' v'] d IH]; simpl; [discriminate |].
  destruct (String.eqb_spec k' k) as [-> | Hne]; simpl; [reflexivity |].
  intros H. now rewrite IH.
Qed.

Lemma keys_store_absent d k v :
  Py.mem d k = false -> Py.keys (Py.store d k v) = Py.keys d ++ [k].
Proof.
  unfold Py.mem. induction d as [| [k' v'] d IH]; simpl; [reflexivity |].
  destruct (String.eqb_spec k' k) as [-> | Hne]; simpl; [discriminate |].
  intros H. now rewrite IH.
Qed.

Lemma store_same d k v : Py.lookup d k = Some v -> Py.store d k v = d.
Proof.
  induction d as [| [k' v'] d IH]; simpl; [discriminate |].
  destruct (String.eqb_spec k' k) as [-> | Hne].
  - now intros [= ->].
  - intros H. now rewrite IH.
Qed.

Lemma lookup_none_not_in d k : Py.lookup d k = None <-> ~ In k (Py.keys d).
Proof.
  induction d as [| [k' v'] d IH]; simpl; [tauto |].
  destruct (String.eqb_spec k' k) as [-> | Hne].
  - split; [discriminate | intros H; exfalso; apply H; now left].
  - rewrite IH. split; [intros H [? | ?]; [contradiction | now apply H] | tauto].
Qed.

Lemma lookup_remove_same d k : Py.lookup (Py.remove d k) k = None.
Proof.
  unfold Py.remove. induction d as [| [k' v'] d IH]; simpl; [reflexivity |].
  destruct (String.eqb_spec k' k) as [-> | Hne]; simpl; [exact IH |].
  destruct (String.eqb_spec k' k); [contradiction | exact IH].
Qed.

Lemma lookup_remove_other d k k' :
  k <> k' -> Py.lookup (Py.remove d k) k' = Py.lookup d k'.
Proof.
  intros Hne. unfold Py.remove.
  induction d as [| [k0 v0] d IH]; simpl; [reflexivity |].
  destruct (String.eqb_spec k0 k) as [-> | Hk0]; simpl.
  - destruct (String.eqb_spec k k'); [contradiction | exact IH].
  - destruct (String.eqb k0 k'); [reflexivity | exact IH].
Qed.

Lemma keys_store_nodup d k v : NoDup (Py.keys d) -> NoDup (Py.keys (Py.store d k v)).
Proof.
  intros Hnd. destruct (Py.mem d k) eqn:Hm.
  - now rewrite keys_store_present.
  - rewrite keys_store_absent by exact Hm.
    assert (Hk : ~ In k (Py.keys d)).
    { unfold Py.mem in Hm. destruct (Py.lookup d k) eqn:El; [discriminate |].
      now apply lookup_none_not_in in El. }
    clear Hm. induction (Py.keys d) as [| x l IHl]; simpl.
    + constructor; [intros [] | constructor].
    + inversion Hnd as [| ? ? Hx Hl]; subst. constructor.
      * rewrite in_app_iff. intros [? | [<- | []]]; [contradiction |].
        apply Hk. now left.
      * apply IHl; [exact Hl | intros ?; apply Hk; now right].
Qed.

End ItemsFacts.

(** ** [_deep_merge] *)

Lemma _deep_merge_nil base : ConfigManager._deep_merge base [] = base.
Proof. reflexivity. Qed.

Lemma _deep_merge_cons base key value rest :
  ConfigManager._deep_merge base ((key, value) :: rest)
  = ConfigManager._deep_merge
      (ConfigManager.merge_item ConfigManager.merge_into base key value) rest.
Proof. reflexivity. Qed.

(** What one turn of the loop leaves under each key. *)
Lemma merge_item_lookup base key value k :
  Py.lookup (ConfigManager.merge_item ConfigManager.merge_into base key value) k
  = if String.eqb key k
    then Some (match Py.lookup base key, value with
               | Some (Py.VDict b), Py.VDict o =>
                   Py.VDict (ConfigManager._deep_merge b o)
               | _, _ => value
               end)
    else Py.lookup base k.
Proof.
  unfold ConfigManager.merge_item.
  destruct (String.eqb_spec key k) as [<- | Hne].
  - destruct (Py.lookup base key) as [[] |]; destruct value;
      now rewrite lookup_store_same.
  - destruct (Py.lookup base key) as [[] |]; destruct value;
      now rewrite lookup_store_other.
Qed.

(** [_deep_merge] read key by key: a key the override does not have keeps
    the value of the base; a key it has takes the override's value, unless
    both sides hold a dict there, which are merged recursively. *)
Theorem deep_merge_lookup :
  forall (override base : Py.dict) (k : string),
    NoDup (Py.keys override) ->
    Py.lookup (ConfigManager._deep_merge base override) k
    = match Py.lookup override k with
      | None => Py.lookup base k
      | Some v =>
          Some (match Py.lookup base k, v with
                | Some (Py.VDict b), Py.VDict o =>
                    Py.VDict (ConfigManager._deep_merge b o)
                | _, _ => v
                end)
      end.
Proof.
  induction override as [| [key value] rest IH]; intros base k Hnd.
  - reflexivity.
  - rewrite _deep_merge_cons. simpl in Hnd. inversion Hnd as [| ? ? Hnotin Hnd']; subst.
    rewrite IH by exact Hnd'. simpl Py.lookup.
    rewrite !merge_item_lookup.
    destruct (String.eqb_spec key k) as [<- | Hne].
    + apply lookup_none_not_in in Hnotin. rewrite Hnotin. reflexivity.
    + reflexivity.
Qed.

(** No key of the base is lost by a merge, and the keys stay distinct. *)
Theorem deep_merge_keeps_keys :
  forall (override base : Py.dict),
    NoDup (Py.keys base) ->
    NoDup (Py.keys (ConfigManager._deep_merge base override))
    /\ forall k, In k (Py.keys base) ->
                 In k (Py.keys (ConfigManager._deep_merge base override)).
Proof.
  induction override as [| [key value] rest IH]; intros base Hnd.
  - split; [exact Hnd | auto].
  - rewrite _deep_merge_cons.
    assert (Hstep : NoDup (Py.keys (ConfigManager.merge_item ConfigManager.merge_into
                                      base key value))
                    /\ forall k, In k (Py.keys base) ->
                                 In k (Py.keys (ConfigManager.merge_item
                                                  ConfigManager.merge_into base key value))).
    { unfold ConfigManager.merge_item.
      assert (Hgen : forall v, NoDup (Py.keys (Py.store base key v))
                               /\ forall k, In k (Py.keys base) ->
                                            In k (Py.keys (Py.store base key v))).
      { intros v. split; [now apply keys_store_nodup |].
        intros k Hk. destruct (Py.mem base key) eqn:Hm.
        - now rewrite keys_store_present.
        - rewrite keys_store_absent by exact Hm. apply in_or_app. now left. }
      destruct (Py.lookup base key) as [[] |]; destruct value; apply Hgen. }
    destruct Hstep as [Hnd1 Hin1].
    destruct (IH _ Hnd1) as [Hnd2 Hin2].
    split; [exact Hnd2 | intros k Hk; apply Hin2, Hin1, Hk].
Qed.

(** The witness of [deep_merge_lookup]: a user file that changes the
    speed merges into the synthesis section of the fallback
    configuration and leaves the pitch alone. *)
Lemma deep_merge_lookup_witness :
  Py.lookup (ConfigManager._deep_merge ConfigManager._get_fallback_config
               [("synthesis", Py.VDict [("speed", Py.VInt 200)])]) "synthesis"
  = match Py.lookup [("synthesis", Py.VDict [("speed", Py.VInt 200)])] "synthesis" with
    | None => Py.lookup ConfigManager._get_fallback_config "synthesis"
    | Some v =>
        Some (match Py.lookup ConfigManager._get_fallback_config "synthesis", v with
              | Some (Py.VDict b), Py.VDict o =>
                  Py.VDict (ConfigManager._deep_merge b o)
              | _, _ => v
              end)
    end.
Proof.
  apply (@deep_merge_lookup [("synthesis", Py.VDict [("speed", Py.VInt 200)])]
           ConfigManager._get_fallback_config "synthesis").
  repeat constructor. intros [].
Defined.

(** The witness of [deep_merge_keeps_keys]: a user file with a new
    section merged into the fallback configuration. *)
Lemma deep_merge_keeps_keys_witness :
  NoDup (Py.keys (ConfigManager._deep_merge ConfigManager._get_fallback_config
                    [("paths", Py.VDict [("cache_directory", Py.VStr "/var/cache")])]))
  /\ forall k, In k (Py.keys ConfigManager._get_fallback_config) ->
               In k (Py.keys (ConfigManager._deep_merge
                                ConfigManager._get_fallback_config
                                [("paths", Py.VDict [("cache_directory",
                                                      Py.VStr "/var/cache")])])).
Proof.
  apply (@deep_merge_keeps_keys
           [("paths", Py.VDict [("cache_directory", Py.VStr "/var/cache")])]
           ConfigManager._get_fallback_config).
  repeat constructor; simpl; intuition discriminate.
Defined.

(** ** [get] and [set] *)

(** A value written with [set] is what [get] reads back, and no other
    entry of the configuration reads differently afterwards. *)
Theorem config_set_then_get :
  forall (config config' : Py.dict) (section key : string) (v default : Py.value),
    ConfigManager.set config section key v = Py.Return config' ->
    ConfigManager.get config' section (Some key) default = Py.Return v
    /\ forall (s k : string) (d : Py.value),
         (s <> section \/ k <> key) ->
         ConfigManager.get config' s (Some k) d
         = ConfigManager.get config s (Some k) d.
Proof.
  intros config config' section key v default.
  unfold ConfigManager.set, ConfigManager.get, Py.getitem, Py.mem.
  destruct (Py.lookup config section) as [sec |] eqn:Hsec.
  - simpl. rewrite Hsec. simpl.
    destruct sec; simpl; try discriminate.
    intros [= <-]. split.
    + rewrite lookup_store_same. simpl. now rewrite lookup_store_same.
    + intros s k d0 Hne.
      destruct (String.eqb_spec section s) as [<- | Hs].
      * rewrite lookup_store_same, Hsec. simpl.
        destruct Hne as [? | Hk]; [contradiction |].
        rewrite lookup_store_other by congruence. reflexivity.
      * now rewrite lookup_store_other.
  - simpl. rewrite lookup_store_same. simpl.
    intros [= <-]. split.
    + rewrite lookup_store_same. simpl. now rewrite String.eqb_refl.
    + intros s k d0 Hne.
      destruct (String.eqb_spec section s) as [<- | Hs].
      * rewrite lookup_store_same, Hsec. simpl.
        destruct Hne as [? | Hk]; [contradiction |].
        destruct (String.eqb_spec key k); [congruence | reflexivity].
      * now rewrite !lookup_store_other.
Qed.

(** The witness of [config_set_then_get]: a key set in a section that
    does not exist yet. *)
Lemma config_set_then_get_witness :
  ConfigManager.get [("paths", Py.VDict [("cache_directory", Py.VStr "/var/cache")])]
                    "paths" (Some "cache_directory") Py.VNone
  = Py.Return (Py.VStr "/var/cache")
  /\ forall (s k : string) (d : Py.value),
       (s <> "paths" \/ k <> "cache_directory") ->
       ConfigManager.get [("paths", Py.VDict [("cache_directory", Py.VStr "/var/cache")])]
                         s (Some k) d
       = ConfigManager.get [] s (Some k) d.
Proof.
  apply (@config_set_then_get [] _ "paths" "cache_directory"
           (Py.VStr "/var/cache") Py.VNone).
  reflexivity.
Defined.

(** ** [_validate_config] *)

Lemma clamp_key_guarded lo hi key section :
  ConfigManager.clamp_key lo hi key section = guarded key (clamp_value lo hi) section.
Proof.
  unfold ConfigManager.clamp_key, guarded, clamp_value.
  destruct (Py.contains section key) as [[] | e]; simpl; try reflexivity.
  destruct (Py.getitem section key) as [v | e]; simpl; try reflexivity.
  destruct (Py.min_int hi v) as [m | e]; reflexivity.
Qed.

Lemma mem_lookup (V : Type) (d : list (string * V)) k :
  Py.mem d k = true -> exists v, Py.lookup d k = Some v.
Proof. unfold Py.mem. destruct (Py.lookup d k) as [v |]; [eauto | discriminate]. Qed.

Lemma fix_sample_rate_guarded section :
  ConfigManager.fix_sample_rate section = guarded "sample_rate" rate_value section.
Proof.
  unfold ConfigManager.fix_sample_rate, guarded, rate_value.
  destruct (Py.contains section "sample_rate") as [[] | e] eqn:Hc;
    cbn [Py.obind]; try reflexivity.
  destruct (Py.getitem section "sample_rate") as [v | e] eqn:Hg;
    cbn [Py.obind]; try reflexivity.
  destruct (negb (Py.in_ints v ConfigManager.valid_rates)); [reflexivity |].
  destruct section; cbn [Py.getitem Py.setitem] in *; try discriminate.
  destruct (Py.lookup d "sample_rate") as [x |] eqn:Hl; [| discriminate].
  injection Hg as ->. now rewrite (store_same _ _ Hl).
Qed.

Lemma _validate_config_sections config :
  ConfigManager._validate_config config
  = (c1 <- validate_section config "synthesis" synthesis_rules ;;
     c2 <- validate_section c1 "audio" audio_rules ;;
     validate_section c2 "performance" performance_rules)%py.
Proof.
  unfold ConfigManager._validate_config, validate_section, synthesis_rules,
    audio_rules, performance_rules, chain.
  rewrite !clamp_key_guarded.
  destruct (guarded "speed" _ _) as [s1 | e]; simpl; [| reflexivity].
  rewrite !clamp_key_guarded.
  destruct (guarded "pitch" _ _) as [s2 | e]; simpl; [| reflexivity].
  rewrite !clamp_key_guarded.
  destruct (guarded "amplitude" _ _) as [s3 | e]; simpl; [| reflexivity].
  rewrite !clamp_key_guarded.
  destruct (guarded "gap" _ _) as [s4 | e]; simpl; [| reflexivity].
  rewrite !fix_sample_rate_guarded.
  destruct (guarded "sample_rate" _ _) as [a1 | e]; simpl; [| reflexivity].
  rewrite !clamp_key_guarded.
  destruct (guarded "channels" _ _) as [a2 | e]; simpl; [| reflexivity].
  rewrite !clamp_key_guarded.
  destruct (guarded "max_text_length" _ _) as [p1 | e]; simpl; [| reflexivity].
  rewrite !clamp_key_guarded.
  destruct (guarded "cache_size" _ _) as [p2 | e]; reflexivity.
Qed.

Lemma clamp_int_settles lo hi z :
  lo <= hi ->
  clamp_value lo hi
    (if lo <? (if z <? hi then z else hi) then Py.VInt (if z <? hi then z else hi)
     else Py.VInt lo)
  = Py.Return (if lo <? (if z <? hi then z else hi)
               then Py.VInt (if z <? hi then z else hi) else Py.VInt lo).
Proof.
  intros Hle. unfold clamp_value, Py.min_int, Py.max_int.
  destruct (Z.ltb_spec z hi); destruct (Z.ltb_spec lo z); destruct (Z.ltb_spec lo hi);
    simpl;
    repeat match goal with
           | |- context [?a <? ?b] => destruct (Z.ltb_spec a b); simpl; try lia
           end;
    try reflexivity; f_equal; f_equal; lia.
Qed.

Lemma clamp_value_settles lo hi : lo <= hi -> settles (clamp_value lo hi).
Proof.
  intros Hle v v'. unfold clamp_value at 1. unfold Py.min_int, Py.max_int.
  destruct v; simpl; try discriminate.
  - destruct (Z.ltb_spec (Z.b2z b) hi) as [H1 | H1]; simpl.
    + destruct (Z.ltb_spec lo (Z.b2z b)) as [H2 | H2]; intros [= <-].
      * unfold clamp_value, Py.min_int, Py.max_int. simpl.
        destruct (Z.ltb_spec (Z.b2z b) hi); [simpl | lia].
        destruct (Z.ltb_spec lo (Z.b2z b)); [reflexivity | lia].
      * pose proof (clamp_int_settles lo Hle) as Hs.
        destruct (Z.ltb_spec lo lo); [lia |].
        destruct (Z.ltb_spec lo hi); [| assert (lo = hi) by lia; subst].
        -- clear Hs. unfold clamp_value, Py.min_int, Py.max_int. simpl.
           destruct (Z.ltb_spec lo hi); [simpl | lia].
           destruct (Z.ltb_spec lo lo); [lia | reflexivity].
        -- clear Hs. unfold clamp_value, Py.min_int, Py.max_int. simpl.
           destruct (Z.ltb_spec hi hi); [lia | simpl].
           destruct (Z.ltb_spec hi hi); [lia | reflexivity].
    + intros H. pose proof (clamp_int_settles hi Hle) as Hs.
      destruct (Z.ltb_spec hi hi); [lia |]. simpl in H.
      injection H as <-. exact Hs.
  - intros H. pose proof (clamp_int_settles z Hle) as Hs.
    destruct (Z.ltb_spec z hi); simpl in H; injection H as <-; exact Hs.
  - destruct (x <? of_int hi)%float eqn:Hx; simpl.
    + destruct (of_int lo <? x)%float eqn:Hy; intros [= <-].
      * unfold clamp_value, Py.min_int, Py.max_int. simpl.
        rewrite Hx. simpl. now rewrite Hy.
      * unfold clamp_value, Py.min_int, Py.max_int. simpl.
        destruct (Z.ltb_spec lo hi); simpl;
          destruct (Z.ltb_spec lo lo); try lia; try reflexivity.
        assert (lo = hi) by lia. subst.
        destruct (Z.ltb_spec hi hi); [lia | reflexivity].
    + intros H. pose proof (clamp_int_settles hi Hle) as Hs.
      destruct (Z.ltb_spec hi hi); [lia |]. simpl in H.
      injection H as <-. exact Hs.
Qed.

Lemma rate_value_settles : settles rate_value.
Proof.
  intros v v'. unfold rate_value.
  destruct (Py.in_ints v ConfigManager.valid_rates) eqn:Hin; cbn [negb];
    intros [= <-].
  - now rewrite Hin.
  - reflexivity.
Qed.

Lemma mem_false_not_in (V : Type) (d : list (string * V)) k :
  Py.mem d k = false <-> ~ In k (map fst d).
Proof.
  unfold Py.mem. rewrite <- (lookup_none_not_in d k).
  destruct (Py.lookup d k); split; congruence.
Qed.

Lemma guarded_dict key f d section' :
  guarded key f (Py.VDict d) = Py.Return section' ->
  exists d', section' = Py.VDict d'
             /\ Py.keys d' = Py.keys d
             /\ (forall k, k <> key -> Py.lookup d' k = Py.lookup d k)
             /\ (forall v', Py.lookup d' key = Some v' ->
                            exists v, Py.lookup d key = Some v /\ f v = Py.Return v').
Proof.
  unfold guarded. cbn [Py.contains Py.obind Py.getitem].
  destruct (Py.mem d key) eqn:Hm.
  - destruct (mem_lookup _ _ Hm) as [v Hv]. rewrite Hv. cbn [Py.obind].
    destruct (f v) as [v' | e] eqn:Hf; cbn [Py.obind Py.setitem]; [| discriminate].
    intros [= <-]. exists (Py.store d key v').
    split; [reflexivity |]. split; [now apply keys_store_present |].
    split; [intros k Hk; now apply lookup_store_other |].
    intros v0. rewrite lookup_store_same. intros [= <-]. eauto.
  - intros [= <-]. exists d. repeat split; try reflexivity.
    intros v' Hv'. unfold Py.mem in Hm. rewrite Hv' in Hm. discriminate.
Qed.

Lemma guarded_dict_fixed key f d :
  (forall v, Py.lookup d key = Some v -> f v = Py.Return v) ->
  guarded key f (Py.VDict d) = Py.Return (Py.VDict d).
Proof.
  intros Hfix. unfold guarded. cbn [Py.contains Py.obind Py.getitem].
  destruct (Py.mem d key) eqn:Hm; [| reflexivity].
  destruct (mem_lookup _ _ Hm) as [v Hv]. rewrite Hv. cbn [Py.obind].
  rewrite (Hfix v Hv). cbn [Py.obind Py.setitem].
  now rewrite (store_same _ _ Hv).
Qed.

Lemma guarded_other key f section section' :
  is_dict section = false ->
  guarded key f section = Py.Return section' -> section' = section.
Proof.
  unfold guarded. destruct section; try discriminate; intros _;
    cbn [Py.contains Py.obind]; try discriminate.
  - destruct (String.index 0 key s); cbn [Py.getitem Py.obind];
      [discriminate | now intros [= <-]].
  - destruct (existsb _ l); cbn [Py.getitem Py.obind];
      [discriminate | now intros [= <-]].
Qed.

Lemma chain_dict :
  forall rules d section',
    NoDup (map fst rules) ->
    Forall (fun r => settles (snd r)) rules ->
    chain rules (Py.VDict d) = Py.Return section' ->
    exists d', section' = Py.VDict d'
               /\ Py.keys d' = Py.keys d
               /\ (forall k, ~ In k (map fst rules) -> Py.lookup d' k = Py.lookup d k)
               /\ (forall k f v, In (k, f) rules -> Py.lookup d' k = Some v ->
                                 f v = Py.Return v).
Proof.
  induction rules as [| [key f] rest IH]; intros d section' Hnd Hset; simpl.
  - intros [= <-]. exists d. repeat split; try reflexivity. intros k f v [].
  - destruct (guarded key f (Py.VDict d)) as [s1 | e] eqn:Hg; cbn [Py.obind];
      [| discriminate].
    destruct (guarded_dict _ _ _ Hg) as [d1 [-> [Hk1 [Hframe1 Hpost1]]]].
    inversion Hnd as [| ? ? Hnotin Hnd']; subst.
    inversion Hset as [| ? ? Hf Hset']; subst. simpl in Hf.
    intros Hc. destruct (IH d1 section' Hnd' Hset' Hc) as [d' [-> [Hk [Hframe Hpost]]]].
    exists d'. split; [reflexivity |]. split; [congruence |]. split.
    + intros k Hk0. simpl in Hk0.
      rewrite Hframe by tauto. apply Hframe1. intros ->. apply Hk0. now left.
    + intros k f0 v [[= <- <-] | Hin] Hv.
      * rewrite (Hframe key Hnotin) in Hv.
        destruct (Hpost1 v Hv) as [v0 [_ Hfv]]. exact (Hf _ _ Hfv).
      * exact (Hpost k f0 v Hin Hv).
Qed.

Lemma chain_dict_fixed :
  forall rules d,
    (forall k f v, In (k, f) rules -> Py.lookup d k = Some v -> f v = Py.Return v) ->
    chain rules (Py.VDict d) = Py.Return (Py.VDict d).
Proof.
  induction rules as [| [key f] rest IH]; intros d Hfix; simpl; [reflexivity |].
  rewrite guarded_dict_fixed by (intros v Hv; apply (Hfix key f v); [now left | exact Hv]).
  cbn [Py.obind]. apply IH. intros k f0 v Hin. apply Hfix. now right.
Qed.

Lemma chain_other :
  forall rules section section',
    is_dict section = false ->
    chain rules section = Py.Return section' -> section' = section.
Proof.
  induction rules as [| [key f] rest IH]; intros section section' Hnd; simpl.
  - now intros [= <-].
  - destruct (guarded key f section) as [s1 | e] eqn:Hg; cbn [Py.obind]; [| discriminate].
    pose proof (guarded_other _ _ _ Hnd Hg) as ->. now apply IH.
Qed.

(** What validating one section does to the configuration. *)
Lemma validate_section_spec config name rules config' :
  NoDup (map fst rules) ->
  Forall (fun r => settles (snd r)) rules ->
  validate_section config name rules = Py.Return config' ->
  Py.keys config' = Py.keys config
  /\ (forall n, n <> name -> Py.lookup config' n = Py.lookup config n)
  /\ validate_section config' name rules = Py.Return config'
  /\ (forall k default,
         ~ In k (map fst rules) ->
         Py.get_method (ConfigManager.section_of config' name) k default
         = Py.get_method (ConfigManager.section_of config name) k default)
  /\ (forall d' k f v,
         Py.lookup config' name = Some (Py.VDict d') -> In (k, f) rules ->
         Py.lookup d' k = Some v -> f v = Py.Return v).
Proof.
  intros Hnd Hset. unfold validate_section, ConfigManager.section_of,
    ConfigManager.write_back, Py.mem.
  destruct (Py.lookup config name) as [x |] eqn:Hx; cbn [get].
  - destruct (chain rules x) as [s | e] eqn:Hc; cbn [Py.obind]; [| discriminate].
    intros [= <-].
    assert (Hl : Py.lookup (Py.store config name s) name = Some s)
      by apply lookup_store_same.
    rewrite Hl. cbn [get].
    split; [apply keys_store_present; unfold Py.mem; now rewrite Hx |].
    split; [intros n Hn; apply lookup_store_other; congruence |].
    destruct (is_dict x) eqn:Hd.
    + destruct x; try discriminate.
      destruct (chain_dict _ Hnd Hset Hc) as [d' [-> [Hk [Hframe Hpost]]]].
      split.
      * rewrite (chain_dict_fixed rules d' Hpost). cbn [Py.obind].
        now rewrite (store_same _ _ Hl).
      * split.
        -- intros k default Hk0. cbn [Py.get_method]. now rewrite Hframe.
        -- intros d0 k f v [= <-]. apply Hpost.
    + pose proof (chain_other _ _ Hd Hc) as ->.
      split; [rewrite Hc; cbn [Py.obind]; now rewrite (store_same _ _ Hl) |].
      split; [reflexivity |].
      intros d0 k f v [= ->]. discriminate.
  - destruct (chain rules (Py.VDict [])) as [s | e] eqn:Hc; cbn [Py.obind];
      [| discriminate].
    intros [= <-]. rewrite Hx. cbn [get]. rewrite Hc. cbn [Py.obind].
    repeat split; try reflexivity. intros d0 k f v [=].
Qed.

(** A section that is already settled stays so in any configuration that
    holds the same section. *)
Lemma validate_section_transfer config config2 name rules :
  validate_section config name rules = Py.Return config ->
  Py.lookup config2 name = Py.lookup config name ->
  validate_section config2 name rules = Py.Return config2.
Proof.
  unfold validate_section, ConfigManager.section_of, ConfigManager.write_back, Py.mem.
  intros H Heq. rewrite Heq.
  destruct (chain rules (get (Py.lookup config name) (Py.VDict []))) as [s | e];
    cbn [Py.obind] in *; [| discriminate].
  destruct (Py.lookup config name) as [x |] eqn:Hx; [| reflexivity].
  injection H as H.
  assert (Hs : Py.lookup config name = Some s)
    by (rewrite <- H at 1; apply lookup_store_same).
  rewrite Hx in Hs. injection Hs as ->.
  now rewrite (store_same _ _ Heq).
Qed.

Lemma synthesis_rules_ok :
  NoDup (map fst synthesis_rules) /\ Forall (fun r => settles (snd r)) synthesis_rules.
Proof.
  split.
  - repeat constructor; simpl; intuition discriminate.
  - repeat constructor; simpl; apply clamp_value_settles; lia.
Qed.

Lemma audio_rules_ok :
  NoDup (map fst audio_rules) /\ Forall (fun r => settles (snd r)) audio_rules.
Proof.
  split.
  - repeat constructor; simpl; intuition discriminate.
  - repeat constructor; simpl;
      [apply rate_value_settles | apply clamp_value_settles; lia].
Qed.

Lemma performance_rules_ok :
  NoDup (map fst performance_rules)
  /\ Forall (fun r => settles (snd r)) performance_rules.
Proof.
  split.
  - repeat constructor; simpl; intuition discriminate.
  - repeat constructor; simpl; apply clamp_value_settles; lia.
Qed.

(** The three steps of a successful validation. *)
Lemma _validate_config_steps config config' :
  ConfigManager._validate_config config = Py.Return config' ->
  exists c1 c2,
    validate_section config "synthesis" synthesis_rules = Py.Return c1
    /\ validate_section c1 "audio" audio_rules = Py.Return c2
    /\ validate_section c2 "performance" performance_rules = Py.Return config'.
Proof.
  rewrite _validate_config_sections.
  destruct (validate_section config "synthesis" synthesis_rules) as [c1 | e] eqn:H1;
    cbn [Py.obind]; [| discriminate].
  destruct (validate_section c1 "audio" audio_rules) as [c2 | e] eqn:H2;
    cbn [Py.obind]; [| discriminate].
  intros H. exists c1, c2. split; [reflexivity |]. split; [exact H2 | exact H].
Qed.

(** After a successful validation every section is settled. *)
Lemma _validate_config_settled config config' :
  ConfigManager._validate_config config = Py.Return config' ->
  validate_section config' "synthesis" synthesis_rules = Py.Return config'
  /\ validate_section config' "audio" audio_rules = Py.Return config'
  /\ validate_section config' "performance" performance_rules = Py.Return config'.
Proof.
  intros H. destruct (_validate_config_steps _ H) as [c1 [c2 [H1 [H2 H3]]]].
  destruct synthesis_rules_ok as [Sn Ss].
  destruct audio_rules_ok as [An As].
  destruct performance_rules_ok as [Pn Ps].
  destruct (validate_section_spec _ _ Sn Ss H1) as [_ [_ [F1 _]]].
  destruct (validate_section_spec _ _ An As H2) as [_ [B2 [F2 _]]].
  destruct (validate_section_spec _ _ Pn Ps H3) as [_ [B3 [F3 _]]].
  split; [| split; [| exact F3]].
  - apply validate_section_transfer with (config := c1); [exact F1 |].
    rewrite B3 by discriminate. apply B2. discriminate.
  - apply validate_section_transfer with (config := c2); [exact F2 |].
    apply B3. discriminate.
Qed.

Lemma ltb_leb (x y : float) : (x <? y)%float = true -> (x <=? y)%float = true.
Proof.
  rewrite ltb_spec, leb_spec. unfold SFltb, SFleb.
  destruct (SFcompare (Prim2SF x) (Prim2SF y)) as [[] |]; congruence.
Qed.

Lemma clamp_value_fixed_between lo hi v :
  lo <= hi -> clamp_value lo hi v = Py.Return v -> Py.number_between lo hi v = true.
Proof.
  intros Hle. unfold clamp_value, Py.min_int, Py.max_int, Py.number_between,
    Py.int_between.
  destruct v; simpl; try discriminate.
  - destruct (Z.ltb_spec (Z.b2z b) hi); simpl.
    + destruct (Z.ltb_spec lo (Z.b2z b)); [intros _ | discriminate].
      apply andb_true_intro. split; apply Z.leb_le; lia.
    + destruct (lo <? hi); discriminate.
  - destruct (Z.ltb_spec z hi); simpl.
    + destruct (Z.ltb_spec lo z); intros Heq; inversion Heq;
        apply andb_true_intro; split; apply Z.leb_le; lia.
    + destruct (Z.ltb_spec lo hi); intros Heq; inversion Heq;
        apply andb_true_intro; split; apply Z.leb_le; lia.
  - destruct (x <? of_int hi)%float eqn:Hx; simpl.
    + destruct (of_int lo <? x)%float eqn:Hy; [intros _ | discriminate].
      now rewrite (ltb_leb Hx), (ltb_leb Hy).
    + destruct (lo <? hi); discriminate.
Qed.

Lemma rate_value_fixed v :
  rate_value v = Py.Return v -> Py.in_ints v ConfigManager.valid_rates = true.
Proof.
  unfold rate_value.
  destruct (Py.in_ints v ConfigManager.valid_rates) eqn:Hin; [reflexivity |].
  cbn [negb]. intros [= <-]. rewrite <- Hin. reflexivity.
Qed.

(** [_validate_config]: validating a validated configuration changes
    nothing. *)
Theorem validate_config_idempotent config config' :
  ConfigManager._validate_config config = Py.Return config' ->
  ConfigManager._validate_config config' = Py.Return config'.
Proof.
  intros H. destruct (_validate_config_settled _ H) as [F1 [F2 F3]].
  rewrite _validate_config_sections, F1. cbn [Py.obind].
  rewrite F2. cbn [Py.obind]. exact F3.
Qed.

(** The witness of [validate_config_idempotent]: a configuration with a
    speed and a sample rate out of range. *)
Lemma validate_config_idempotent_witness :
  ConfigManager._validate_config fast_config
  = Py.Return
      [ ("synthesis", Py.VDict [ ("speed", Py.VInt 300);
                                 ("voice", Py.VStr "deep_robot") ]);
        ("audio", Py.VDict [ ("sample_rate", Py.VInt 22050) ]) ]
  /\ ConfigManager._validate_config
       [ ("synthesis", Py.VDict [ ("speed", Py.VInt 300);
                                  ("voice", Py.VStr "deep_robot") ]);
         ("audio", Py.VDict [ ("sample_rate", Py.VInt 22050) ]) ]
     = Py.Return
         [ ("synthesis", Py.VDict [ ("speed", Py.VInt 300);
                                    ("voice", Py.VStr "deep_robot") ]);
           ("audio", Py.VDict [ ("sample_rate", Py.VInt 22050) ]) ].
Proof.
  split; [reflexivity |].
  apply (@validate_config_idempotent fast_config). reflexivity.
Defined.

(** [_validate_config]: in the validated configuration every clamped key
    that is present holds a number within its range. *)
Theorem validate_config_ranges config config' section key lo hi d v :
  ConfigManager._validate_config config = Py.Return config' ->
  In (section, key, lo, hi) validated_ranges ->
  Py.lookup config' section = Some (Py.VDict d) ->
  Py.lookup d key = Some v ->
  Py.number_between lo hi v = true.
Proof.
  intros H Hin Hs Hk. destruct (_validate_config_settled _ H) as [F1 [F2 F3]].
  destruct synthesis_rules_ok as [Sn Ss].
  destruct audio_rules_ok as [An As].
  destruct performance_rules_ok as [Pn Ps].
  destruct (validate_section_spec _ _ Sn Ss F1) as [_ [_ [_ [_ E1]]]].
  destruct (validate_section_spec _ _ An As F2) as [_ [_ [_ [_ E2]]]].
  destruct (validate_section_spec _ _ Pn Ps F3) as [_ [_ [_ [_ E3]]]].
  simpl in Hin.
  destruct Hin as [Hin | [Hin | [Hin | [Hin | [Hin | [Hin | [Hin | []]]]]]]];
    injection Hin as <- <- <- <-;
    (apply clamp_value_fixed_between; [lia |]);
    first [ eapply (E1 d _ _ v Hs); [simpl; tauto | exact Hk]
          | eapply (E2 d _ _ v Hs); [simpl; tauto | exact Hk]
          | eapply (E3 d _ _ v Hs); [simpl; tauto | exact Hk] ].
Qed.

(** The witness of [validate_config_ranges]: the speed of that
    configuration. *)
Lemma validate_config_ranges_witness :
  Py.number_between 80 300 (Py.VInt 300) = true.
Proof.
  apply (@validate_config_ranges fast_config
           [ ("synthesis", Py.VDict [ ("speed", Py.VInt 300);
                                      ("voice", Py.VStr "deep_robot") ]);
             ("audio", Py.VDict [ ("sample_rate", Py.VInt 22050) ]) ]
           "synthesis" "speed" 80 300
           [ ("speed", Py.VInt 300); ("voice", Py.VStr "deep_robot") ]
           (Py.VInt 300)).
  - reflexivity.
  - simpl. left. reflexivity.
  - reflexivity.
  - reflexivity.
Defined.

(** [_validate_config]: in the validated configuration a sample rate that
    is present equals one of the six supported rates. *)
Theorem validate_config_sample_rate config config' d v :
  ConfigManager._validate_config config = Py.Return config' ->
  Py.lookup config' "audio" = Some (Py.VDict d) ->
  Py.lookup d "sample_rate" = Some v ->
  Py.in_ints v ConfigManager.valid_rates = true.
Proof.
  intros H Hs Hk. destruct (_validate_config_settled _ H) as [_ [F2 _]].
  destruct audio_rules_ok as [An As].
  destruct (validate_section_spec _ _ An As F2) as [_ [_ [_ [_ E2]]]].
  apply rate_value_fixed.
  eapply (E2 d _ _ v Hs); [simpl; tauto | exact Hk].
Qed.

(** The witness of [validate_config_sample_rate]: its sample rate. *)
Lemma validate_config_sample_rate_witness :
  Py.in_ints (Py.VInt 22050) ConfigManager.valid_rates = true.
Proof.
  apply (@validate_config_sample_rate fast_config
           [ ("synthesis", Py.VDict [ ("speed", Py.VInt 300);
                                      ("voice", Py.VStr "deep_robot") ]);
             ("audio", Py.VDict [ ("sample_rate", Py.VInt 22050) ]) ]
           [ ("sample_rate", Py.VInt 22050) ] (Py.VInt 22050));
    reflexivity.
Defined.

Lemma get_section_of config section key default :
  ConfigManager.get config section (Some key) default
  = Py.get_method (ConfigManager.section_of config section) key default.
Proof. reflexivity. Qed.

Lemma section_of_lookup config config' name :
  Py.lookup config' name = Py.lookup config name ->
  ConfigManager.section_of config' name = ConfigManager.section_of config name.
Proof. unfold ConfigManager.section_of. now intros ->. Qed.

(** [_validate_config]: the sections keep their names and order, and
    every entry other than the eight validated ones reads as before. *)
Theorem validate_config_frame config config' :
  ConfigManager._validate_config config = Py.Return config' ->
  Py.keys config' = Py.keys config
  /\ forall section key default,
      is_validated section key = false ->
      ConfigManager.get config' section (Some key) default
      = ConfigManager.get config section (Some key) default.
Proof.
  intros H. destruct (_validate_config_steps _ H) as [c1 [c2 [H1 [H2 H3]]]].
  destruct synthesis_rules_ok as [Sn Ss].
  destruct audio_rules_ok as [An As].
  destruct performance_rules_ok as [Pn Ps].
  destruct (validate_section_spec _ _ Sn Ss H1) as [K1 [B1 [_ [D1 _]]]].
  destruct (validate_section_spec _ _ An As H2) as [K2 [B2 [_ [D2 _]]]].
  destruct (validate_section_spec _ _ Pn Ps H3) as [K3 [B3 [_ [D3 _]]]].
  split; [congruence |].
  intros section key default Hv. rewrite !get_section_of.
  unfold is_validated in Hv.
  destruct (String.eqb_spec section "synthesis") as [-> | N1].
  - simpl in Hv. apply mem_false_not_in in Hv.
    rewrite <- (D1 key default Hv). f_equal. apply section_of_lookup.
    rewrite B3 by discriminate. apply B2. discriminate.
  - destruct (String.eqb_spec section "audio") as [-> | N2].
    + simpl in Hv. apply mem_false_not_in in Hv.
      rewrite (section_of_lookup _ _ _ (B3 "audio" ltac:(discriminate))).
      rewrite (D2 key default Hv). f_equal. apply section_of_lookup.
      apply B1. discriminate.
    + destruct (String.eqb_spec section "performance") as [-> | N3].
      * simpl in Hv. apply mem_false_not_in in Hv.
        rewrite (D3 key default Hv). f_equal. apply section_of_lookup.
        rewrite B2 by discriminate. apply B1. discriminate.
      * f_equal. apply section_of_lookup.
        rewrite (B3 _ N3), (B2 _ N2). apply B1. exact N1.
Qed.

(** The witness of [validate_config_frame]: its voice. *)
Lemma validate_config_frame_witness :
  ConfigManager.get
    [ ("synthesis", Py.VDict [ ("speed", Py.VInt 300);
                               ("voice", Py.VStr "deep_robot") ]);
      ("audio", Py.VDict [ ("sample_rate", Py.VInt 22050) ]) ]
    "synthesis" (Some "voice") Py.VNone
  = ConfigManager.get fast_config "synthesis" (Some "voice") Py.VNone.
Proof.
  apply (@validate_config_frame fast_config); reflexivity.
Defined.

(** [_validate_config]: a speed that is not a number makes the
    validation raise [TypeError]. *)
Theorem validate_config_rejects_non_number config d v :
  Py.lookup config "synthesis" = Some (Py.VDict d) ->
  Py.lookup d "speed" = Some v ->
  is_number v = false ->
  ConfigManager._validate_config config = Py.Throw Py.TypeError.
Proof.
  intros Hs Hk Hn. rewrite _validate_config_sections.
  unfold validate_section, ConfigManager.section_of, synthesis_rules.
  rewrite Hs. cbn [get chain]. unfold guarded at 1.
  cbn [Py.contains Py.getitem]. unfold Py.mem. rewrite Hk. cbn [Py.obind].
  destruct v; try discriminate; reflexivity.
Qed.

(** The witness of [validate_config_rejects_non_number]: a speed given as
    text. *)
Lemma validate_config_rejects_non_number_witness :
  ConfigManager._validate_config
    [ ("synthesis", Py.VDict [ ("speed", Py.VStr "fast") ]) ]
  = Py.Throw Py.TypeError.
Proof.
  apply (@validate_config_rejects_non_number
           [ ("synthesis", Py.VDict [ ("speed", Py.VStr "fast") ]) ]
           [ ("speed", Py.VStr "fast") ] (Py.VStr "fast")); reflexivity.
Defined.

(** * Properties of the helpers, the voice manager and the setters *)

(** ** [clamp] *)

Lemma gt_int_as_int v z a : Py.as_int v = Some z -> Py.gt_int v a = Py.Return (a <? z).
Proof.
  destruct v; simpl; try discriminate; intros [= <-]; reflexivity.
Qed.

Lemma clamp_as_int (v : Py.value) (z lo hi : Z) :
  lo <= hi ->
  Py.as_int v = Some z ->
  exists r,
    Utils.clamp v lo hi = Py.Return r
    /\ Py.as_int r = Some (Z.max lo (Z.min z hi))
    /\ Py.int_between lo hi r = true.
Proof.
  intros Hle Hv. unfold Utils.clamp, Py.max_int, Py.int_between.
  rewrite (@gt_int_as_int v z hi Hv). cbn [Py.obind].
  destruct (Z.ltb_spec hi z) as [Hhi | Hhi].
  - simpl. destruct (Z.ltb_spec lo hi) as [Hlo | Hlo].
    + exists (Py.VInt hi). split; [reflexivity |]. simpl.
      split; [f_equal; lia | apply andb_true_intro; split; apply Z.leb_le; lia].
    + exists (Py.VInt lo). split; [reflexivity |]. simpl.
      split; [f_equal; lia | apply andb_true_intro; split; apply Z.leb_le; lia].
  - rewrite (@gt_int_as_int v z lo Hv). cbn [Py.obind].
    destruct (Z.ltb_spec lo z) as [Hlo | Hlo].
    + exists v. split; [reflexivity |]. rewrite Hv.
      split; [f_equal; lia | apply andb_true_intro; split; apply Z.leb_le; lia].
    + exists (Py.VInt lo). split; [reflexivity |]. simpl.
      split; [f_equal; lia | apply andb_true_intro; split; apply Z.leb_le; lia].
Qed.

(** [clamp] of an int (or a bool, which Python counts as one) with
    ordered int bounds raises nothing and returns a value that counts as
    the nearest int within the bounds; a value above the lower bound and
    not above the upper one is returned as it is. *)
Theorem clamp_int_within_bounds :
  forall (v : Py.value) (z lo hi : Z),
    lo <= hi ->
    Py.as_int v = Some z ->
    exists r,
      Utils.clamp v lo hi = Py.Return r
      /\ Py.as_int r = Some (Z.max lo (Z.min z hi))
      /\ Py.int_between lo hi r = true
      /\ (lo < z <= hi -> r = v).
Proof.
  intros v z lo hi Hle Hv.
  destruct (@clamp_as_int v z lo hi Hle Hv) as [r [H1 [H2 H3]]].
  exists r. split; [exact H1 |]. split; [exact H2 |]. split; [exact H3 |].
  intros [Hlo Hhi]. revert H1. unfold Utils.clamp, Py.max_int.
  rewrite (@gt_int_as_int v z hi Hv). cbn [Py.obind].
  destruct (Z.ltb_spec hi z); [lia |].
  rewrite (@gt_int_as_int v z lo Hv). cbn [Py.obind].
  destruct (Z.ltb_spec lo z); [| lia].
  now intros [= <-].
Qed.

(** The witness of [clamp_int_within_bounds]: a speed of 500. *)
Lemma clamp_int_within_bounds_witness :
  exists r,
    Utils.clamp (Py.VInt 500) 80 300 = Py.Return r
    /\ Py.as_int r = Some (Z.max 80 (Z.min 500 300))
    /\ Py.int_between 80 300 r = true
    /\ (80 < 500 <= 300 -> r = Py.VInt 500).
Proof.
  apply (@clamp_int_within_bounds (Py.VInt 500) 500 80 300); [lia | reflexivity].
Defined.

(** ** [sanitize_filename] *)

Lemma among_underscore : Utils.among Utils.invalid_chars "_"%char = false.
Proof. reflexivity. Qed.

Lemma holds_sub_chars chars s c :
  Utils.among chars "_"%char = false ->
  Utils.among chars c = true ->
  holds (Utils.sub_chars chars s) c = false.
Proof.
  intros Hu Hc. induction s as [| c' rest IH]; simpl; [reflexivity |].
  rewrite IH, orb_false_r.
  destruct (Utils.among chars c') eqn:Hc'.
  - destruct (Ascii.eqb_spec "_"%char c) as [<- | ?]; [congruence | reflexivity].
  - destruct (Ascii.eqb_spec c' c) as [<- | ?]; [congruence | reflexivity].
Qed.

Lemma holds_lstrip chars s c :
  holds s c = false -> holds (Utils.lstrip chars s) c = false.
Proof.
  induction s as [| c' rest IH]; simpl; [reflexivity |].
  intros H. apply orb_false_elim in H. destruct H as [H1 H2].
  destruct (Utils.among chars c'); [now apply IH |].
  simpl. now rewrite H1, H2.
Qed.

Lemma holds_rstrip chars s c :
  holds s c = false -> holds (Utils.rstrip chars s) c = false.
Proof.
  induction s as [| c' rest IH]; simpl; [reflexivity |].
  intros H. apply orb_false_elim in H. destruct H as [H1 H2].
  specialize (IH H2).
  destruct (Utils.rstrip chars rest) as [| k kept].
  - destruct (Utils.among chars c'); simpl; [reflexivity | now rewrite H1].
  - simpl in *. now rewrite H1, IH.
Qed.

Lemma lstrip_first chars s :
  match first_char (Utils.lstrip chars s) with
  | Some c => Utils.among chars c = false
  | None => True
  end.
Proof.
  induction s as [| c rest IH]; simpl; [exact I |].
  destruct (Utils.among chars c) eqn:Hc; [exact IH | simpl; exact Hc].
Qed.

Lemma rstrip_first chars s :
  Utils.rstrip chars s <> EmptyString ->
  first_char (Utils.rstrip chars s) = first_char s.
Proof.
  destruct s as [| c rest]; simpl; [reflexivity |].
  destruct (Utils.rstrip chars rest); [| reflexivity].
  destruct (Utils.among chars c); [intros H; now contradiction H | reflexivity].
Qed.

Lemma rstrip_last chars s :
  match last_char (Utils.rstrip chars s) with
  | Some c => Utils.among chars c = false
  | None => True
  end.
Proof.
  induction s as [| c rest IH]; simpl; [exact I |].
  destruct (Utils.rstrip chars rest) as [| k kept] eqn:Hr.
  - destruct (Utils.among chars c) eqn:Hc; simpl; [exact I | exact Hc].
  - change (last_char (String c (String k kept)))
      with (match last_char (String k kept) with None => Some c | found => found end).
    destruct (last_char (String k kept)) eqn:Hl; [exact IH |].
    simpl in Hl. destruct (last_char kept); discriminate.
Qed.

Lemma last_char_none s : last_char s = None -> s = EmptyString.
Proof.
  destruct s as [| c rest]; [reflexivity |]. simpl.
  destruct (last_char rest); discriminate.
Qed.

Lemma lstrip_fixed chars s :
  match first_char s with
  | Some c => Utils.among chars c = false
  | None => True
  end ->
  Utils.lstrip chars s = s.
Proof. destruct s as [| c rest]; simpl; [reflexivity |]. now intros ->. Qed.

Lemma rstrip_fixed chars s :
  match last_char s with
  | Some c => Utils.among chars c = false
  | None => True
  end ->
  Utils.rstrip chars s = s.
Proof.
  induction s as [| c rest IH]; simpl; [reflexivity |].
  destruct (last_char rest) as [l |] eqn:Hl.
  - intros H. rewrite (IH H). destruct rest; [discriminate | reflexivity].
  - intros H. apply last_char_none in Hl. subst rest. simpl. now rewrite H.
Qed.

Lemma sub_chars_fixed chars s :
  (forall c, Utils.among chars c = true -> holds s c = false) ->
  Utils.sub_chars chars s = s.
Proof.
  induction s as [| c rest IH]; simpl; [reflexivity |].
  intros H. rewrite IH.
  - destruct (Utils.among chars c) eqn:Hc; [| reflexivity].
    specialize (H c Hc). now rewrite Ascii.eqb_refl in H.
  - intros c' Hc'. specialize (H c' Hc'). now apply orb_false_elim in H.
Qed.

(** What [strip] leaves: no character of the set at either end. *)
Lemma strip_ends chars s :
  match first_char (Utils.strip chars s) with
  | Some c => Utils.among chars c = false
  | None => True
  end
  /\ match last_char (Utils.strip chars s) with
     | Some c => Utils.among chars c = false
     | None => True
     end.
Proof.
  unfold Utils.strip. split; [| apply rstrip_last].
  destruct (Utils.rstrip chars (Utils.lstrip chars s)) as [| c rest] eqn:Hr;
    [exact I |].
  rewrite <- Hr, rstrip_first by (rewrite Hr; discriminate).
  apply lstrip_first.
Qed.

(** [sanitize_filename] returns a usable name for every input: it is not
    empty, it holds none of the nine characters that are invalid in file
    names, and it neither starts nor ends with a dot or a space. *)
Theorem sanitize_filename_safe :
  forall filename : string,
    let name := Utils.sanitize_filename filename in
    name <> EmptyString
    /\ (forall c, In c Utils.invalid_chars -> holds name c = false)
    /\ (forall c, first_char name = Some c -> c <> "."%char /\ c <> " "%char)
    /\ (forall c, last_char name = Some c -> c <> "."%char /\ c <> " "%char).
Proof.
  intros filename. cbv zeta. unfold Utils.sanitize_filename.
  set (s := Utils.strip [ "."%char; " "%char ]
                        (Utils.sub_chars Utils.invalid_chars filename)).
  assert (Hinv : forall c, In c Utils.invalid_chars -> holds s c = false).
  { intros c Hc. unfold s, Utils.strip. apply holds_rstrip, holds_lstrip.
    apply holds_sub_chars; [reflexivity |].
    unfold Utils.among. apply existsb_exists. exists c.
    split; [exact Hc | apply Ascii.eqb_refl]. }
  destruct (strip_ends [ "."%char; " "%char ]
                       (Utils.sub_chars Utils.invalid_chars filename))
    as [Hfirst Hlast].
  fold s in Hfirst, Hlast.
  assert (Hends : forall c, Utils.among [ "."%char; " "%char ] c = false ->
                            c <> "."%char /\ c <> " "%char).
  { intros c Hc. split; intros ->; discriminate. }
  destruct (String.eqb_spec s EmptyString) as [He | Hne].
  - split; [discriminate |].
    split; [intros c Hc; simpl in Hc; intuition (subst; reflexivity) |].
    split; intros c [= <-]; split; discriminate.
  - split; [exact Hne |]. split; [exact Hinv |].
    split; intros c Hc; apply Hends.
    + now rewrite Hc in Hfirst.
    + now rewrite Hc in Hlast.
Qed.

(** [sanitize_filename] is idempotent: a sanitized name is left as it
    is. *)
Theorem sanitize_filename_idempotent :
  forall filename : string,
    Utils.sanitize_filename (Utils.sanitize_filename filename)
    = Utils.sanitize_filename filename.
Proof.
  intros filename.
  set (s := Utils.strip [ "."%char; " "%char ]
                        (Utils.sub_chars Utils.invalid_chars filename)).
  assert (Hcases : Utils.sanitize_filename filename = "output"
                   \/ (Utils.sanitize_filename filename = s /\ s <> EmptyString)).
  { unfold Utils.sanitize_filename. fold s.
    destruct (String.eqb_spec s EmptyString); [now left | now right]. }
  destruct Hcases as [-> | [-> Hne]]; [reflexivity |].
  unfold Utils.sanitize_filename.
  assert (Hsub : Utils.sub_chars Utils.invalid_chars s = s).
  { apply sub_chars_fixed. intros c Hc. unfold s, Utils.strip.
    apply holds_rstrip, holds_lstrip, holds_sub_chars; [reflexivity | exact Hc]. }
  rewrite Hsub.
  destruct (strip_ends [ "."%char; " "%char ]
                       (Utils.sub_chars Utils.invalid_chars filename))
    as [Hfirst Hlast].
  fold s in Hfirst, Hlast.
  assert (Hstrip : Utils.strip [ "."%char; " "%char ] s = s).
  { unfold Utils.strip. rewrite (lstrip_fixed _ _ Hfirst). now apply rstrip_fixed. }
  rewrite Hstrip.
  destruct (String.eqb_spec s EmptyString); [contradiction | reflexivity].
Qed.

(** ** The voice manager *)

Lemma keys_remove (V : Type) (d : list (string * V)) k :
  Py.keys (Py.remove d k) = filter (fun k' => negb (String.eqb k' k)) (Py.keys d).
Proof.
  unfold Py.keys, Py.remove. induction d as [| [k' v] rest IH]; simpl; [reflexivity |].
  destruct (String.eqb k' k); simpl; now rewrite IH.
Qed.

Lemma lookup_update (V : Type) :
  forall (other d : list (string * V)) k,
    NoDup (Py.keys other) ->
    Py.lookup (Py.update d other) k
    = match Py.lookup other k with
      | Some v => Some v
      | None => Py.lookup d k
      end.
Proof.
  unfold Py.update.
  induction other as [| [k0 v0] rest IH]; intros d k Hnd; simpl; [reflexivity |].
  inversion Hnd as [| ? ? Hnotin Hnd']; subst.
  rewrite IH by exact Hnd'.
  destruct (String.eqb_spec k0 k) as [<- | Hne].
  - apply lookup_none_not_in in Hnotin. rewrite Hnotin. apply lookup_store_same.
  - now rewrite lookup_store_other.
Qed.

Lemma all_valid_lookup d k v :
  all_valid d = true -> Py.lookup d k = Some v ->
  VoiceManager._validate_parameter k v = true.
Proof.
  unfold all_valid. induction d as [| [k' v'] rest IH]; simpl; [discriminate |].
  intros H. apply andb_prop in H. destruct H as [H1 H2].
  destruct (String.eqb_spec k' k) as [<- | Hne]; [now intros [= <-] | now apply IH].
Qed.

Lemma all_valid_store d k v :
  all_valid d = true -> VoiceManager._validate_parameter k v = true ->
  all_valid (Py.store d k v) = true.
Proof.
  unfold all_valid. intros Hd Hv.
  induction d as [| [k' v'] rest IH]; simpl in *; [now rewrite Hv |].
  apply andb_prop in Hd. destruct Hd as [H1 H2].
  destruct (String.eqb k' k); simpl.
  - now rewrite Hv, H2.
  - now rewrite H1, IH.
Qed.

Lemma set_voice_dict s voice_id d :
  Py.lookup (VoiceManager.voice_presets s) voice_id = Some (Py.VDict d) ->
  VoiceManager.set_voice voice_id s
  = (Py.Return true,
     VoiceManager.mkState (VoiceManager.voice_presets s) (Some voice_id)
                          (Py.VDict (Py.remove d "_source"))).
Proof.
  intros H. unfold VoiceManager.set_voice, VoiceManager.load_parameters, Py.mem.
  rewrite H. simpl. rewrite H. reflexivity.
Qed.

Lemma update_parameter_dict presets current d parameter v :
  exists d',
    snd (VoiceManager.update_parameter parameter v
           (VoiceManager.mkState presets current (Py.VDict d)))
    = VoiceManager.mkState presets current (Py.VDict d')
    /\ (all_valid d = true -> all_valid d' = true).
Proof.
  unfold VoiceManager.update_parameter. simpl.
  destruct current as [voice_id |]; [| exists d; split; [reflexivity | auto]].
  destruct (VoiceManager._validate_parameter parameter v) eqn:Hv; simpl.
  - exists (Py.store d parameter v). split; [reflexivity |].
    intros Hd. now apply all_valid_store.
  - exists d. split; [reflexivity | auto].
Qed.

Lemma update_all_dict :
  forall updates presets current d,
  exists d',
    update_all updates (VoiceManager.mkState presets current (Py.VDict d))
    = VoiceManager.mkState presets current (Py.VDict d')
    /\ (all_valid d = true -> all_valid d' = true).
Proof.
  induction updates as [| [parameter v] rest IH]; intros presets current d; simpl.
  - exists d. split; [reflexivity | auto].
  - destruct (update_parameter_dict presets current d parameter v) as [d1 [-> H1]].
    destruct (IH presets current d1) as [d2 [-> H2]].
    exists d2. split; [reflexivity | auto].
Qed.

(** [reset_voice_parameters] undoes every [update_parameter]: after a
    voice whose preset is a dict has been selected, any run of updates,
    accepted or not, leaves the presets as they were, and a reset brings
    the manager back to the state right after the selection. *)
Theorem reset_undoes_updates :
  forall (s : VoiceManager.state) (voice_id : string) (d : Py.dict)
         (updates : list (string * Py.value)),
    voice_id <> EmptyString ->
    Py.lookup (VoiceManager.voice_presets s) voice_id = Some (Py.VDict d) ->
    let selected := snd (VoiceManager.set_voice voice_id s) in
    fst (VoiceManager.set_voice voice_id s) = Py.Return true
    /\ VoiceManager.voice_presets (update_all updates selected)
       = VoiceManager.voice_presets s
    /\ VoiceManager.reset_voice_parameters (update_all updates selected)
       = (Py.Return tt, selected).
Proof.
  intros s voice_id d updates Hid Hd. cbv zeta.
  rewrite (set_voice_dict _ _ Hd). simpl.
  destruct (update_all_dict updates (VoiceManager.voice_presets s) (Some voice_id)
              (Py.remove d "_source")) as [d' [-> _]].
  split; [reflexivity |]. split; [reflexivity |].
  unfold VoiceManager.reset_voice_parameters, VoiceManager.load_parameters. simpl.
  destruct (String.eqb_spec voice_id EmptyString) as [? | _]; [contradiction |].
  simpl. rewrite Hd. reflexivity.
Qed.

(** The witness of [reset_undoes_updates]: the fallback voice, one accepted
    and one refused update. *)
Lemma reset_undoes_updates_witness :
  fst (VoiceManager.set_voice "classic_robot" fallback_manager) = Py.Return true
  /\ VoiceManager.voice_presets
       (update_all [ ("speed", Py.VInt 200); ("pitch", Py.VInt 500) ]
                   (snd (VoiceManager.set_voice "classic_robot" fallback_manager)))
     = VoiceManager.voice_presets fallback_manager
  /\ VoiceManager.reset_voice_parameters
       (update_all [ ("speed", Py.VInt 200); ("pitch", Py.VInt 500) ]
                   (snd (VoiceManager.set_voice "classic_robot" fallback_manager)))
     = (Py.Return tt, snd (VoiceManager.set_voice "classic_robot" fallback_manager)).
Proof.
  refine (@reset_undoes_updates fallback_manager "classic_robot" _
            [ ("speed", Py.VInt 200); ("pitch", Py.VInt 500) ] _ _);
    [discriminate | reflexivity].
Defined.

(** [update_parameter] never lets an invalid value through to eSpeak:
    when every current parameter passes its rule, then after any run of
    updates every current parameter still does, and each of the six
    values [get_espeak_parameters] returns, taken from the parameters or
    from the defaults, passes the rule of its parameter (so the speed is
    an int between 80 and 300, and so on). *)
Theorem updates_keep_espeak_parameters_valid :
  forall (s : VoiceManager.state) (d : Py.dict) (updates : list (string * Py.value)),
    VoiceManager.current_parameters s = Py.VDict d ->
    all_valid d = true ->
    exists d' e,
      VoiceManager.current_parameters (update_all updates s) = Py.VDict d'
      /\ all_valid d' = true
      /\ VoiceManager.get_espeak_parameters (update_all updates s) = Py.Return e
      /\ forall key v,
           Py.lookup e key = Some v ->
           VoiceManager._validate_parameter (parameter_of key) v = true.
Proof.
  intros [presets current p] d updates Hp Hd. simpl in Hp. subst p.
  destruct (update_all_dict updates presets current d) as [d' [-> Hd']].
  specialize (Hd' Hd). simpl.
  assert (Hget : forall k default,
             VoiceManager._validate_parameter k default = true ->
             VoiceManager._validate_parameter k (get (Py.lookup d' k) default) = true).
  { intros k default Hdef. destruct (Py.lookup d' k) as [v |] eqn:Hv; simpl;
      [exact (all_valid_lookup _ _ Hd' Hv) | exact Hdef]. }
  unfold VoiceManager.get_espeak_parameters. simpl.
  destruct d' as [| entry rest] eqn:Hshape.
  - exists [], []. repeat split; try reflexivity. intros key v [=].
  - rewrite <- Hshape in *. simpl negb. cbv iota.
    eexists d', _. split; [reflexivity |]. split; [exact Hd' |].
    split; [reflexivity |].
    intros key v. cbn [Py.lookup].
    destruct (String.eqb_spec "voice" key) as [<- | _];
      [intros [= <-]; apply (Hget "espeak_voice"); reflexivity |].
    destruct (String.eqb_spec "speed" key) as [<- | _];
      [intros [= <-]; apply (Hget "speed"); reflexivity |].
    destruct (String.eqb_spec "pitch" key) as [<- | _];
      [intros [= <-]; apply (Hget "pitch"); reflexivity |].
    destruct (String.eqb_spec "amplitude" key) as [<- | _];
      [intros [= <-]; apply (Hget "amplitude"); reflexivity |].
    destruct (String.eqb_spec "gap" key) as [<- | _];
      [intros [= <-]; apply (Hget "gap"); reflexivity |].
    destruct (String.eqb_spec "variant" key) as [<- | _];
      [intros [= <-]; apply (Hget "variant"); reflexivity |].
    discriminate.
Qed.

(** The witness of [updates_keep_espeak_parameters_valid]: a custom voice and an
    out-of-range speed. *)
Lemma updates_keep_espeak_parameters_valid_witness :
  exists d' e,
    VoiceManager.current_parameters
      (update_all [ ("speed", Py.VInt 500); ("pitch", Py.VInt 50) ] custom_in_use)
    = Py.VDict d'
    /\ all_valid d' = true
    /\ VoiceManager.get_espeak_parameters
         (update_all [ ("speed", Py.VInt 500); ("pitch", Py.VInt 50) ] custom_in_use)
       = Py.Return e
    /\ forall key v,
         Py.lookup e key = Some v ->
         VoiceManager._validate_parameter (parameter_of key) v = true.
Proof.
  apply (@updates_keep_espeak_parameters_valid custom_in_use
           [ ("name", Py.VStr "Deep Robot"); ("speed", Py.VInt 120);
             ("pitch", Py.VInt 20) ]
           [ ("speed", Py.VInt 500); ("pitch", Py.VInt 50) ]);
    reflexivity.
Defined.

(** Deleting the custom voice that is in use switches to
    ['classic_robot'] only if that preset exists: without it the deletion
    still answers [True], the manager keeps naming the deleted voice as
    its current voice and keeps its parameters, and the next
    [reset_voice_parameters] raises [KeyError]. *)
Theorem delete_current_voice_dangles :
  forall (s : VoiceManager.state) (voice_id : string) (d : Py.dict) (source : Py.value),
    voice_id <> EmptyString ->
    VoiceManager.current_voice s = Some voice_id ->
    Py.lookup (VoiceManager.voice_presets s) voice_id = Some (Py.VDict d) ->
    Py.lookup d "_source" = Some source ->
    Py.eq_str source "custom" || Py.eq_str source "user" = true ->
    Py.mem (VoiceManager.voice_presets s) "classic_robot" = false ->
    let s' := VoiceManager.set_voice_presets s
                (Py.remove (VoiceManager.voice_presets s) voice_id) in
    VoiceManager.delete_voice voice_id s = (Py.Return true, s')
    /\ VoiceManager.current_voice s' = Some voice_id
    /\ VoiceManager.get_voice s' voice_id = None
    /\ VoiceManager.current_parameters s' = VoiceManager.current_parameters s
    /\ VoiceManager.reset_voice_parameters s' = (Py.Throw Py.KeyError, s').
Proof.
  intros s voice_id d source Hid Hcur Hd Hsrc Hown Hclassic. cbv zeta.
  assert (Hgone : Py.lookup (Py.remove (VoiceManager.voice_presets s) voice_id) voice_id
                  = None) by apply lookup_remove_same.
  assert (Hclassic' : Py.mem (Py.remove (VoiceManager.voice_presets s) voice_id)
                             "classic_robot" = false).
  { unfold Py.mem in *.
    destruct (String.eqb_spec voice_id "classic_robot") as [<- | Hne].
    - now rewrite Hgone.
    - rewrite lookup_remove_other by congruence. exact Hclassic. }
  split.
  - unfold VoiceManager.delete_voice, Py.mem. rewrite Hd. simpl.
    rewrite Hd. simpl. rewrite Hsrc. simpl. rewrite Hown. simpl.
    rewrite Hcur, String.eqb_refl.
    unfold VoiceManager.set_voice. simpl. rewrite Hclassic'. reflexivity.
  - split; [exact Hcur |]. split; [exact Hgone |]. split; [reflexivity |].
    unfold VoiceManager.reset_voice_parameters, VoiceManager.load_parameters. simpl.
    rewrite Hcur.
    destruct (String.eqb_spec voice_id EmptyString) as [? | _]; [contradiction |].
    simpl. rewrite Hgone. reflexivity.
Qed.

(** The witness of [delete_current_voice_dangles]: the only preset is the
    custom voice in use. *)
Lemma delete_current_voice_dangles_witness :
  VoiceManager.delete_voice "deep_robot" custom_in_use
  = (Py.Return true,
     VoiceManager.set_voice_presets custom_in_use
       (Py.remove (VoiceManager.voice_presets custom_in_use) "deep_robot"))
  /\ VoiceManager.current_voice
       (VoiceManager.set_voice_presets custom_in_use
          (Py.remove (VoiceManager.voice_presets custom_in_use) "deep_robot"))
     = Some "deep_robot"
  /\ VoiceManager.get_voice
       (VoiceManager.set_voice_presets custom_in_use
          (Py.remove (VoiceManager.voice_presets custom_in_use) "deep_robot"))
       "deep_robot"
     = None
  /\ VoiceManager.current_parameters
       (VoiceManager.set_voice_presets custom_in_use
          (Py.remove (VoiceManager.voice_presets custom_in_use) "deep_robot"))
     = VoiceManager.current_parameters custom_in_use
  /\ VoiceManager.reset_voice_parameters
       (VoiceManager.set_voice_presets custom_in_use
          (Py.remove (VoiceManager.voice_presets custom_in_use) "deep_robot"))
     = (Py.Throw Py.KeyError,
        VoiceManager.set_voice_presets custom_in_use
          (Py.remove (VoiceManager.voice_presets custom_in_use) "deep_robot")).
Proof.
  apply (@delete_current_voice_dangles custom_in_use "deep_robot"
           [ ("name", Py.VStr "Deep Robot"); ("speed", Py.VInt 120);
             ("pitch", Py.VInt 20); ("_source", Py.VStr "custom") ]
           (Py.VStr "custom"));
    first [discriminate | reflexivity].
Defined.

(** [delete_voice] removes only voices marked custom or user: for any
    other preset that is a dict (a default or fallback voice, or one
    without a source) it answers [False] and changes nothing; and when it
    answers [True] the voice is gone from [list_voices] and the other
    voices keep their order. *)
Theorem delete_voice_only_custom :
  forall (s : VoiceManager.state) (voice_id : string) (d : Py.dict),
    Py.lookup (VoiceManager.voice_presets s) voice_id = Some (Py.VDict d) ->
    let source := get (Py.lookup d "_source") Py.VNone in
    (Py.eq_str source "custom" || Py.eq_str source "user" = false ->
     VoiceManager.delete_voice voice_id s = (Py.Return false, s))
    /\ (forall s',
          VoiceManager.delete_voice voice_id s = (Py.Return true, s') ->
          Py.eq_str source "custom" || Py.eq_str source "user" = true
          /\ VoiceManager.list_voices s'
             = filter (fun k => negb (String.eqb k voice_id)) (VoiceManager.list_voices s)).
Proof.
  intros s voice_id d Hd. cbv zeta.
  unfold VoiceManager.delete_voice, Py.mem. rewrite Hd. simpl. rewrite Hd. simpl.
  destruct (Py.eq_str (get (Py.lookup d "_source") Py.VNone) "custom"
            || Py.eq_str (get (Py.lookup d "_source") Py.VNone) "user") eqn:Hown; simpl.
  - split; [discriminate |]. intros s' Hdel. split; [reflexivity |].
    assert (Hkeys : forall s1 r,
               VoiceManager.set_voice "classic_robot"
                 (VoiceManager.set_voice_presets s
                    (Py.remove (VoiceManager.voice_presets s) voice_id)) = (r, s1) ->
               VoiceManager.voice_presets s1
               = Py.remove (VoiceManager.voice_presets s) voice_id).
    { intros s1 r. unfold VoiceManager.set_voice, VoiceManager.load_parameters. simpl.
      destruct (Py.mem (Py.remove (VoiceManager.voice_presets s) voice_id)
                       "classic_robot"); simpl; [| now intros [= _ <-]].
      destruct (Py.lookup (Py.remove (VoiceManager.voice_presets s) voice_id)
                          "classic_robot") as [p |]; simpl; [| now intros [= _ <-]].
      destruct p; simpl; intros [= _ <-]; reflexivity. }
    unfold VoiceManager.list_voices.
    destruct (VoiceManager.current_voice s) as [current |]; simpl in Hdel.
    + destruct (String.eqb current voice_id).
      * destruct (VoiceManager.set_voice "classic_robot" _) as [r s1] eqn:Hset.
        pose proof (Hkeys s1 r eq_refl) as Hk.
        destruct r; [| discriminate]. injection Hdel as <-.
        rewrite Hk. apply keys_remove.
      * injection Hdel as <-. apply keys_remove.
    + injection Hdel as <-. apply keys_remove.
  - split; [reflexivity |]. discriminate.
Qed.

(** The witness of [delete_voice_only_custom]: a custom voice. *)
Lemma delete_voice_only_custom_witness :
  (Py.eq_str (get (Py.lookup [ ("name", Py.VStr "Deep Robot"); ("speed", Py.VInt 120);
                               ("pitch", Py.VInt 20); ("_source", Py.VStr "custom") ]
                             "_source") Py.VNone) "custom"
   || Py.eq_str (get (Py.lookup [ ("name", Py.VStr "Deep Robot"); ("speed", Py.VInt 120);
                                  ("pitch", Py.VInt 20); ("_source", Py.VStr "custom") ]
                                "_source") Py.VNone) "user" = false ->
   VoiceManager.delete_voice "deep_robot" custom_in_use = (Py.Return false, custom_in_use))
  /\ (forall s',
        VoiceManager.delete_voice "deep_robot" custom_in_use = (Py.Return true, s') ->
        Py.eq_str (get (Py.lookup [ ("name", Py.VStr "Deep Robot"); ("speed", Py.VInt 120);
                                    ("pitch", Py.VInt 20); ("_source", Py.VStr "custom") ]
                                  "_source") Py.VNone) "custom"
        || Py.eq_str (get (Py.lookup [ ("name", Py.VStr "Deep Robot");
                                       ("speed", Py.VInt 120); ("pitch", Py.VInt 20);
                                       ("_source", Py.VStr "custom") ]
                                     "_source") Py.VNone) "user" = true
        /\ VoiceManager.list_voices s'
           = filter (fun k => negb (String.eqb k "deep_robot"))
                    (VoiceManager.list_voices custom_in_use)).
Proof.
  apply (@delete_voice_only_custom custom_in_use "deep_robot"
           [ ("name", Py.VStr "Deep Robot"); ("speed", Py.VInt 120);
             ("pitch", Py.VInt 20); ("_source", Py.VStr "custom") ]).
  reflexivity.
Defined.

(** [clone_voice] describes the clone by its own name: the description
    is formatted after ['name'] has been overwritten, so it reads
    ["Clone of <new_name>"] and never mentions the source.  The clone is
    marked custom, carries every other entry of the source, and the
    source preset and the current voice are left as they were. *)
Theorem clone_voice_describes_new_name :
  forall (formatter : Formatter) (s : VoiceManager.state)
         (source_voice_id new_voice_id new_name : string) (d : Py.dict),
    Py.lookup (VoiceManager.voice_presets s) source_voice_id = Some (Py.VDict d) ->
    Py.mem (VoiceManager.voice_presets s) new_voice_id = false ->
    exists clone s',
      VoiceManager.clone_voice source_voice_id new_voice_id new_name s
      = (Py.Return true, s')
      /\ VoiceManager.get_voice s' new_voice_id = Some (Py.VDict clone)
      /\ Py.lookup clone "name" = Some (Py.VStr new_name)
      /\ Py.lookup clone "description" = Some (Py.VStr ("Clone of " ++ new_name))
      /\ Py.lookup clone "_source" = Some (Py.VStr "custom")
      /\ (forall k, k <> "name" -> k <> "description" -> k <> "_source" ->
                    Py.lookup clone k = Py.lookup d k)
      /\ VoiceManager.get_voice s' source_voice_id = Some (Py.VDict d)
      /\ VoiceManager.current_voice s' = VoiceManager.current_voice s
      /\ VoiceManager.current_parameters s' = VoiceManager.current_parameters s.
Proof.
  intros formatter s src new new_name d Hd Hnew.
  assert (Hne : new <> src).
  { intros ->. unfold Py.mem in Hnew. rewrite Hd in Hnew. discriminate. }
  unfold VoiceManager.clone_voice. unfold Py.mem at 1. rewrite Hd, Hnew.
  cbn [negb Py.getitem Py.obind Py.copy Py.pop Py.setitem Py.get_method].
  rewrite Hd. cbn [Py.obind Py.copy Py.pop Py.setitem Py.get_method].
  rewrite lookup_store_same. cbn [get]. rewrite str_of_str.
  eexists _, _. split; [reflexivity |].
  unfold VoiceManager.get_voice. cbn [VoiceManager.set_voice_presets
    VoiceManager.voice_presets VoiceManager.current_voice
    VoiceManager.current_parameters].
  split; [apply lookup_store_same |].
  split.
  { rewrite !lookup_store_other by discriminate. apply lookup_store_same. }
  split.
  { rewrite lookup_store_other by discriminate. apply lookup_store_same. }
  split; [apply lookup_store_same |].
  split.
  { intros k H1 H2 H3. rewrite !lookup_store_other by congruence.
    apply lookup_remove_other. congruence. }
  split; [rewrite lookup_store_other by exact Hne; exact Hd |].
  split; reflexivity.
Qed.

(** The witness of [clone_voice_describes_new_name]: a clone of the custom
    voice. *)
Lemma clone_voice_describes_new_name_witness :
  exists clone s',
    VoiceManager.clone_voice (formatter := text_formatter)
      "deep_robot" "deeper_robot" "Deeper Robot" custom_in_use
    = (Py.Return true, s')
    /\ VoiceManager.get_voice s' "deeper_robot" = Some (Py.VDict clone)
    /\ Py.lookup clone "name" = Some (Py.VStr "Deeper Robot")
    /\ Py.lookup clone "description" = Some (Py.VStr ("Clone of " ++ "Deeper Robot"))
    /\ Py.lookup clone "_source" = Some (Py.VStr "custom")
    /\ (forall k, k <> "name" -> k <> "description" -> k <> "_source" ->
                  Py.lookup clone k
                  = Py.lookup [ ("name", Py.VStr "Deep Robot"); ("speed", Py.VInt 120);
                                ("pitch", Py.VInt 20); ("_source", Py.VStr "custom") ] k)
    /\ VoiceManager.get_voice s' "deep_robot"
       = Some (Py.VDict [ ("name", Py.VStr "Deep Robot"); ("speed", Py.VInt 120);
                          ("pitch", Py.VInt 20); ("_source", Py.VStr "custom") ])
    /\ VoiceManager.current_voice s' = VoiceManager.current_voice custom_in_use
    /\ VoiceManager.current_parameters s' = VoiceManager.current_parameters custom_in_use.
Proof.
  apply (@clone_voice_describes_new_name text_formatter custom_in_use
           "deep_robot" "deeper_robot" "Deeper Robot"
           [ ("name", Py.VStr "Deep Robot"); ("speed", Py.VInt 120);
             ("pitch", Py.VInt 20); ("_source", Py.VStr "custom") ]);
    reflexivity.
Defined.

Lemma update_method_dict d other :
  Py.update_method (Py.VDict d) other = Py.Return (Py.VDict (Py.update d other)).
Proof. reflexivity. Qed.

(** [create_custom_voice] stores all or nothing.  When the base voice,
    if one is named and exists, is a dict: the call answers [True]
    exactly when the id is new and every keyword parameter passes its
    rule; otherwise the manager is unchanged.  A created voice goes last
    in [list_voices], is marked custom whatever the parameters say, and
    holds each keyword parameter as given. *)
Theorem create_custom_voice_all_or_nothing :
  forall (s : VoiceManager.state) (voice_id name : string)
         (base_voice : option string) (parameters : Py.dict),
    (forall base preset,
        base_voice = Some base ->
        Py.lookup (VoiceManager.voice_presets s) base = Some preset ->
        is_dict preset = true) ->
    NoDup (Py.keys parameters) ->
    exists s',
      VoiceManager.create_custom_voice voice_id name base_voice parameters s
      = (Py.Return (negb (Py.mem (VoiceManager.voice_presets s) voice_id)
                    && all_valid parameters), s')
      /\ (Py.mem (VoiceManager.voice_presets s) voice_id = true
          \/ all_valid parameters = false -> s' = s)
      /\ (Py.mem (VoiceManager.voice_presets s) voice_id = false ->
          all_valid parameters = true ->
          exists voice_config,
            VoiceManager.get_voice s' voice_id = Some (Py.VDict voice_config)
            /\ VoiceManager.list_voices s' = VoiceManager.list_voices s ++ [voice_id]
            /\ Py.lookup voice_config "_source" = Some (Py.VStr "custom")
            /\ (forall k v, Py.lookup parameters k = Some v -> k <> "_source" ->
                            Py.lookup voice_config k = Some v)
            /\ VoiceManager.current_voice s' = VoiceManager.current_voice s
            /\ VoiceManager.current_parameters s' = VoiceManager.current_parameters s).
Proof.
  intros s voice_id name base_voice parameters Hbase Hnd.
  unfold VoiceManager.create_custom_voice.
  destruct (Py.mem (VoiceManager.voice_presets s) voice_id) eqn:Hmem.
  { exists s. split; [reflexivity |]. split; [reflexivity | discriminate]. }
  assert (Hstart : exists b,
             match base_voice with
             | Some base =>
                 if negb (String.eqb base EmptyString)
                    && Py.mem (VoiceManager.voice_presets s) base
                 then
                   (preset <- Py.getitem (Py.VDict (VoiceManager.voice_presets s)) base ;;
                    voice_config <- Py.copy preset ;;
                    Py.pop voice_config "_source")%py
                 else Py.Return VoiceManager.plain_voice
             | None => Py.Return VoiceManager.plain_voice
             end = Py.Return (Py.VDict b)).
  { destruct base_voice as [base |]; [| eexists; reflexivity].
    destruct (negb (String.eqb base EmptyString)
              && Py.mem (VoiceManager.voice_presets s) base) eqn:Hc;
      [| eexists; reflexivity].
    apply andb_prop in Hc. destruct Hc as [_ Hc].
    destruct (mem_lookup _ _ Hc) as [preset Hp].
    pose proof (Hbase base preset eq_refl Hp) as Hdict.
    destruct preset; try discriminate.
    cbn [Py.getitem]. rewrite Hp. eexists. reflexivity. }
  destruct Hstart as [b ->].
  cbn [Py.obind Py.setitem]. rewrite update_method_dict. cbn [Py.obind Py.setitem].
  fold (all_valid parameters). cbn [negb andb].
  destruct (all_valid parameters) eqn:Hvalid.
  - eexists. split; [reflexivity |].
    split; [intros [? | ?]; discriminate |].
    intros _ _. eexists.
    unfold VoiceManager.get_voice, VoiceManager.list_voices.
    cbn [VoiceManager.set_voice_presets VoiceManager.voice_presets
         VoiceManager.current_voice VoiceManager.current_parameters].
    split; [apply lookup_store_same |].
    split; [now apply keys_store_absent |].
    split; [apply lookup_store_same |].
    split; [| split; reflexivity].
    intros k v Hk Hne. rewrite lookup_store_other by congruence.
    rewrite lookup_update by exact Hnd. now rewrite Hk.
  - exists s. split; [reflexivity |]. split; [reflexivity | discriminate].
Qed.

(** The witness of [create_custom_voice_all_or_nothing]: a voice based on the
    custom voice, with a slower speed. *)
Lemma create_custom_voice_all_or_nothing_witness :
  exists s',
    VoiceManager.create_custom_voice "slow_robot" "Slow Robot" (Some "deep_robot")
      [ ("speed", Py.VInt 90) ] custom_in_use
    = (Py.Return (negb (Py.mem (VoiceManager.voice_presets custom_in_use) "slow_robot")
                  && all_valid [ ("speed", Py.VInt 90) ]), s')
    /\ (Py.mem (VoiceManager.voice_presets custom_in_use) "slow_robot" = true
        \/ all_valid [ ("speed", Py.VInt 90) ] = false -> s' = custom_in_use)
    /\ (Py.mem (VoiceManager.voice_presets custom_in_use) "slow_robot" = false ->
        all_valid [ ("speed", Py.VInt 90) ] = true ->
        exists voice_config,
          VoiceManager.get_voice s' "slow_robot" = Some (Py.VDict voice_config)
          /\ VoiceManager.list_voices s'
             = VoiceManager.list_voices custom_in_use ++ [ "slow_robot" ]
          /\ Py.lookup voice_config "_source" = Some (Py.VStr "custom")
          /\ (forall k v, Py.lookup [ ("speed", Py.VInt 90) ] k = Some v ->
                          k <> "_source" -> Py.lookup voice_config k = Some v)
          /\ VoiceManager.current_voice s' = VoiceManager.current_voice custom_in_use
          /\ VoiceManager.current_parameters s'
             = VoiceManager.current_parameters custom_in_use).
Proof.
  apply (@create_custom_voice_all_or_nothing custom_in_use "slow_robot" "Slow Robot"
           (Some "deep_robot") [ ("speed", Py.VInt 90) ]).
  - intros base preset [= <-]. simpl. intros [= <-]. reflexivity.
  - repeat constructor. intros [].
Defined.

(** ** The parameter setters of the engine *)

Lemma update_parameter_accepts presets voice_id d parameter v :
  VoiceManager._validate_parameter parameter v = true ->
  VoiceManager.update_parameter parameter v
    (VoiceManager.mkState presets (Some voice_id) (Py.VDict d))
  = (Py.Return true,
     VoiceManager.mkState presets (Some voice_id)
                          (Py.VDict (Py.store d parameter v))).
Proof. intros H. unfold VoiceManager.update_parameter. simpl. now rewrite H. Qed.

(** The ranges of the setters agree with the rules of the voice
    manager: with a voice selected, each of [set_speed], [set_pitch],
    [set_amplitude] and [set_gap] called with an int (or bool) raises
    nothing, and the clamped value it stores in the engine is accepted by
    [update_parameter] and is what [get_espeak_parameters] then
    returns. *)
Theorem setters_accept_ints :
  forall (e : TTSEngine.engine) (voice_id : string) (d : Py.dict)
         (v : Py.value) (z : Z),
    VoiceManager.current_voice (TTSEngine.voice_manager e) = Some voice_id ->
    VoiceManager.current_parameters (TTSEngine.voice_manager e) = Py.VDict d ->
    Py.as_int v = Some z ->
    forall (setter : Py.value -> TTSEngine.engine -> Py.outcome unit * TTSEngine.engine)
           (field : TTSEngine.engine -> Py.value) (parameter : string) (lo hi : Z),
      In (setter, field, parameter, lo, hi)
         [ (TTSEngine.set_speed, TTSEngine.current_speed, "speed", 80, 300);
           (TTSEngine.set_pitch, TTSEngine.current_pitch, "pitch", 0, 99);
           (TTSEngine.set_amplitude, TTSEngine.current_amplitude, "amplitude", 0, 200);
           (TTSEngine.set_gap, TTSEngine.current_gap, "gap", 0, 100) ] ->
      exists e' r espeak,
        setter v e = (Py.Return tt, e')
        /\ field e' = r
        /\ Py.as_int r = Some (Z.max lo (Z.min z hi))
        /\ VoiceManager.get_espeak_parameters (TTSEngine.voice_manager e')
           = Py.Return espeak
        /\ Py.lookup espeak parameter = Some r.
Proof.
  intros [speed pitch amplitude gap [presets current p]] voice_id d v z Hcur Hp Hv.
  simpl in Hcur, Hp. subst current p.
  intros setter field parameter lo hi Hin.
  assert (Hclamp : forall lo hi, lo <= hi ->
             exists r, Utils.clamp v lo hi = Py.Return r
                       /\ Py.as_int r = Some (Z.max lo (Z.min z hi))
                       /\ Py.int_between lo hi r = true).
  { intros lo0 hi0 Hle.
    exact (@clamp_as_int v z lo0 hi0 Hle Hv). }
  assert (Hespeak : forall k r,
             In k [ "speed"; "pitch"; "amplitude"; "gap" ] ->
             exists espeak,
               VoiceManager.get_espeak_parameters
                 (VoiceManager.mkState presets (Some voice_id)
                                       (Py.VDict (Py.store d k r)))
               = Py.Return espeak
               /\ Py.lookup espeak k = Some r).
  { intros k r Hk. unfold VoiceManager.get_espeak_parameters.
    cbn [VoiceManager.current_parameters].
    assert (Htruthy : Py.truthy (Py.VDict (Py.store d k r)) = true).
    { simpl. destruct d as [| [k0 v0] rest]; simpl; [reflexivity |].
      destruct (String.eqb k0 k); reflexivity. }
    rewrite Htruthy. cbn [negb Py.get_method Py.obind].
    eexists. split; [reflexivity |].
    simpl in Hk.
    destruct Hk as [<- | [<- | [<- | [<- | []]]]]; cbn [Py.lookup];
      repeat match goal with
             | |- context [String.eqb ?a ?b] =>
                 let c := eval vm_compute in (String.eqb a b) in
                 change (String.eqb a b) with c; cbv iota
             end;
      now rewrite lookup_store_same. }
  simpl in Hin.
  destruct Hin as [H | [H | [H | [H | []]]]]; injection H as <- <- <- <- <-.
  - destruct (Hclamp 80 300 ltac:(lia)) as [r [H1 [H2 H3]]].
    destruct (Hespeak "speed" r ltac:(simpl; tauto)) as [espeak [E1 E2]].
    exists (TTSEngine.mkEngine r pitch amplitude gap
              (VoiceManager.mkState presets (Some voice_id)
                                    (Py.VDict (Py.store d "speed" r)))), r, espeak.
    split; [| repeat split; assumption].
    unfold TTSEngine.set_speed, TTSEngine.update_voice. rewrite H1. simpl.
    rewrite update_parameter_accepts by exact H3. reflexivity.
  - destruct (Hclamp 0 99 ltac:(lia)) as [r [H1 [H2 H3]]].
    destruct (Hespeak "pitch" r ltac:(simpl; tauto)) as [espeak [E1 E2]].
    exists (TTSEngine.mkEngine speed r amplitude gap
              (VoiceManager.mkState presets (Some voice_id)
                                    (Py.VDict (Py.store d "pitch" r)))), r, espeak.
    split; [| repeat split; assumption].
    unfold TTSEngine.set_pitch, TTSEngine.update_voice. rewrite H1. simpl.
    rewrite update_parameter_accepts by exact H3. reflexivity.
  - destruct (Hclamp 0 200 ltac:(lia)) as [r [H1 [H2 H3]]].
    destruct (Hespeak "amplitude" r ltac:(simpl; tauto)) as [espeak [E1 E2]].
    exists (TTSEngine.mkEngine speed pitch r gap
              (VoiceManager.mkState presets (Some voice_id)
                                    (Py.VDict (Py.store d "amplitude" r)))), r, espeak.
    split; [| repeat split; assumption].
    unfold TTSEngine.set_amplitude, TTSEngine.update_voice. rewrite H1. simpl.
    rewrite update_parameter_accepts by exact H3. reflexivity.
  - destruct (Hclamp 0 100 ltac:(lia)) as [r [H1 [H2 H3]]].
    destruct (Hespeak "gap" r ltac:(simpl; tauto)) as [espeak [E1 E2]].
    exists (TTSEngine.mkEngine speed pitch amplitude r
              (VoiceManager.mkState presets (Some voice_id)
                                    (Py.VDict (Py.store d "gap" r)))), r, espeak.
    split; [| repeat split; assumption].
    unfold TTSEngine.set_gap, TTSEngine.update_voice. rewrite H1. simpl.
    rewrite update_parameter_accepts by exact H3. reflexivity.
Qed.

(** The witness of [setters_accept_ints]: a speed above the range. *)
Lemma setters_accept_ints_witness :
  exists e' r espeak,
    TTSEngine.set_speed (Py.VInt 500) custom_engine = (Py.Return tt, e')
    /\ TTSEngine.current_speed e' = r
    /\ Py.as_int r = Some (Z.max 80 (Z.min 500 300))
    /\ VoiceManager.get_espeak_parameters (TTSEngine.voice_manager e') = Py.Return espeak
    /\ Py.lookup espeak "speed" = Some r.
Proof.
  apply (@setters_accept_ints custom_engine "deep_robot"
           [ ("name", Py.VStr "Deep Robot"); ("speed", Py.VInt 120);
             ("pitch", Py.VInt 20) ]
           (Py.VInt 500) 500 eq_refl eq_refl eq_refl
           TTSEngine.set_speed TTSEngine.current_speed "speed" 80 300).
  simpl. left. reflexivity.
Defined.

(** A speed that is a float strictly between the bounds passes [clamp]
    unchanged and is then refused by the voice manager, whose rule wants
    an int: [set_speed] raises nothing, the engine records the float as
    its current speed, and the voice manager, from which the synthesis
    reads its parameters, is left exactly as it was. *)
Theorem set_speed_fraction_not_applied :
  forall (e : TTSEngine.engine) (x : float),
    (of_int 80 <? x)%float = true ->
    (of_int 300 <? x)%float = false ->
    TTSEngine.set_speed (Py.VFloat x) e
    = (Py.Return tt,
       TTSEngine.mkEngine (Py.VFloat x) (TTSEngine.current_pitch e)
                          (TTSEngine.current_amplitude e) (TTSEngine.current_gap e)
                          (TTSEngine.voice_manager e)).
Proof.
  intros e x Hlo Hhi.
  unfold TTSEngine.set_speed, Utils.clamp, Py.max_int. cbn [Py.gt_int Py.obind].
  rewrite Hhi. cbn [Py.gt_int Py.obind]. rewrite Hlo.
  unfold TTSEngine.update_voice, VoiceManager.update_parameter.
  cbn [TTSEngine.voice_manager TTSEngine.current_speed TTSEngine.current_pitch
       TTSEngine.current_amplitude TTSEngine.current_gap].
  destruct (VoiceManager.current_voice (TTSEngine.voice_manager e)); reflexivity.
Qed.

(** The witness of [set_speed_fraction_not_applied]: a speed of 150.5. *)
Lemma set_speed_fraction_not_applied_witness :
  TTSEngine.set_speed (Py.VFloat 150.5) custom_engine
  = (Py.Return tt,
     TTSEngine.mkEngine (Py.VFloat 150.5) (TTSEngine.current_pitch custom_engine)
                        (TTSEngine.current_amplitude custom_engine)
                        (TTSEngine.current_gap custom_engine)
                        (TTSEngine.voice_manager custom_engine)).
Proof.
  apply (@set_speed_fraction_not_applied custom_engine 150.5%float); reflexivity.
Defined.
